(** * rpi-lightpen: the GPIO light-pen driver, embedded and verified

    A shallow embedding of [rpi_lightpen.c] (the kernel module that turns
    the rising edges of a light-pen sensor line and of a VSYNC line into
    raster coordinates) and the statements of its specification that can be
    settled on it.

    Conventions of the embedding.
    - C integers are [Z] with the conversion to a [w]-bit signed type written
      out ([wrap]).  [int] is 32 bits and [short] 16 bits on every Linux
      target; [long] is 32 bits on the 32-bit ARM kernels and 64 bits on
      arm64, so its width [long_bits] is a parameter of the whole
      development.  The kernel is built with [-fno-strict-overflow]: signed
      arithmetic wraps.
    - The driver's file-scope variables are the fields of the record
      [driver]; every entry point is a function from the state before to
      the state after.
    - A pointer to a [struct gpio_ts_devinfo] is the index of the
      [devtable] slot that holds the structure; [None] is [NULL].  An entry
      point that would dereference a pointer to nothing yields [None] (the
      kernel oopses).
    - What the kernel supplies from outside the driver (the clock, the line
      levels, the outcome of allocations, the user buffer) is an argument of
      the entry point that consumes it. *)

From Stdlib Require Import ZArith List Bool Lia Ascii String.
From stdpp Require Import base option list.

Local Open Scope Z_scope.

(** ** Constants of the kernel headers *)

Definition GPIO_TS_NB_ENTRIES_MAX : nat := 2.
Definition PAL_LINE_LENGTH : Z := 64.

Definition EAGAIN : Z := 11.
Definition ENOMEM : Z := 12.
Definition EFAULT : Z := 14.
Definition EBUSY : Z := 16.
Definition ENODEV : Z := 19.
Definition EINVAL : Z := 22.

Definition O_NONBLOCK : Z := 2048.      (* 04000 *)
Definition POLLIN : Z := 1.
Definition POLLPRI : Z := 2.
Definition IRQ_NONE : Z := 0.
Definition IRQ_HANDLED : Z := 1.

(** ** Fixed-width signed integers *)

(** The value of [z] converted to a signed type of [bits] bits. *)
Definition wrap (bits z : Z) : Z :=
  (z + 2 ^ (bits - 1)) mod 2 ^ bits - 2 ^ (bits - 1).

Definition as_int (z : Z) : Z := wrap 32 z.
Definition as_short (z : Z) : Z := wrap 16 z.

(** ** Data *)

Record timespec := { tv_sec : Z; tv_nsec : Z }.

(** [struct gpio_ts_devinfo].  The wait queue is the list of the tasks that
    sleep on it. *)
Record gpio_ts_devinfo := {
  ts : timespec;
  usecs : Z;
  waitqueue : list nat;
  opencount : Z;
  num : Z
}.

Definition set_waitqueue (q : list nat) (d : gpio_ts_devinfo) : gpio_ts_devinfo :=
  {| ts := ts d; usecs := usecs d; waitqueue := q;
     opencount := opencount d; num := num d |}.

Definition set_opencount (n : Z) (d : gpio_ts_devinfo) : gpio_ts_devinfo :=
  {| ts := ts d; usecs := usecs d; waitqueue := waitqueue d;
     opencount := n; num := num d |}.

(** The part of [struct file] the driver touches. *)
Record file := { f_flags : Z; private_data : option nat }.

Definition set_private_data (p : option nat) (filp : file) : file :=
  {| f_flags := f_flags filp; private_data := p |}.

(** The file-scope variables of the module, in the order of the source, and
    [irq_actions], the kernel's table of the handlers that [request_irq]
    has installed (interrupt number and [dev_id] argument). *)
Record driver := {
  gpio_ts_table : list Z;
  gpio_ts_nb_gpios : Z;
  gpio_lp_button : Z;
  gpio_odd_even : Z;
  irq_numbers : list Z;
  devtable : list (option gpio_ts_devinfo);
  module_unload : bool;
  message : list ascii;
  lp_button : Z;
  lastvsync : Z;
  lastlp : Z;
  xpos : Z;
  ypos : Z;
  have_data : bool;
  usecoffset : Z;
  oddeven : Z;
  irq_actions : list (Z * option nat)
}.

Definition set_irq_numbers (v : list Z) (st : driver) : driver :=
  {| gpio_ts_table := gpio_ts_table st; gpio_ts_nb_gpios := gpio_ts_nb_gpios st;
     gpio_lp_button := gpio_lp_button st; gpio_odd_even := gpio_odd_even st;
     irq_numbers := v; devtable := devtable st;
     module_unload := module_unload st; message := message st;
     lp_button := lp_button st; lastvsync := lastvsync st; lastlp := lastlp st;
     xpos := xpos st; ypos := ypos st; have_data := have_data st;
     usecoffset := usecoffset st; oddeven := oddeven st;
     irq_actions := irq_actions st |}.

Definition set_devtable (v : list (option gpio_ts_devinfo)) (st : driver) : driver :=
  {| gpio_ts_table := gpio_ts_table st; gpio_ts_nb_gpios := gpio_ts_nb_gpios st;
     gpio_lp_button := gpio_lp_button st; gpio_odd_even := gpio_odd_even st;
     irq_numbers := irq_numbers st; devtable := v;
     module_unload := module_unload st; message := message st;
     lp_button := lp_button st; lastvsync := lastvsync st; lastlp := lastlp st;
     xpos := xpos st; ypos := ypos st; have_data := have_data st;
     usecoffset := usecoffset st; oddeven := oddeven st;
     irq_actions := irq_actions st |}.

Definition set_message (v : list ascii) (st : driver) : driver :=
  {| gpio_ts_table := gpio_ts_table st; gpio_ts_nb_gpios := gpio_ts_nb_gpios st;
     gpio_lp_button := gpio_lp_button st; gpio_odd_even := gpio_odd_even st;
     irq_numbers := irq_numbers st; devtable := devtable st;
     module_unload := module_unload st; message := v;
     lp_button := lp_button st; lastvsync := lastvsync st; lastlp := lastlp st;
     xpos := xpos st; ypos := ypos st; have_data := have_data st;
     usecoffset := usecoffset st; oddeven := oddeven st;
     irq_actions := irq_actions st |}.

Definition set_lp_button (v : Z) (st : driver) : driver :=
  {| gpio_ts_table := gpio_ts_table st; gpio_ts_nb_gpios := gpio_ts_nb_gpios st;
     gpio_lp_button := gpio_lp_button st; gpio_odd_even := gpio_odd_even st;
     irq_numbers := irq_numbers st; devtable := devtable st;
     module_unload := module_unload st; message := message st;
     lp_button := v; lastvsync := lastvsync st; lastlp := lastlp st;
     xpos := xpos st; ypos := ypos st; have_data := have_data st;
     usecoffset := usecoffset st; oddeven := oddeven st;
     irq_actions := irq_actions st |}.

Definition set_lastvsync (v : Z) (st : driver) : driver :=
  {| gpio_ts_table := gpio_ts_table st; gpio_ts_nb_gpios := gpio_ts_nb_gpios st;
     gpio_lp_button := gpio_lp_button st; gpio_odd_even := gpio_odd_even st;
     irq_numbers := irq_numbers st; devtable := devtable st;
     module_unload := module_unload st; message := message st;
     lp_button := lp_button st; lastvsync := v; lastlp := lastlp st;
     xpos := xpos st; ypos := ypos st; have_data := have_data st;
     usecoffset := usecoffset st; oddeven := oddeven st;
     irq_actions := irq_actions st |}.

Definition set_lastlp (v : Z) (st : driver) : driver :=
  {| gpio_ts_table := gpio_ts_table st; gpio_ts_nb_gpios := gpio_ts_nb_gpios st;
     gpio_lp_button := gpio_lp_button st; gpio_odd_even := gpio_odd_even st;
     irq_numbers := irq_numbers st; devtable := devtable st;
     module_unload := module_unload st; message := message st;
     lp_button := lp_button st; lastvsync := lastvsync st; lastlp := v;
     xpos := xpos st; ypos := ypos st; have_data := have_data st;
     usecoffset := usecoffset st; oddeven := oddeven st;
     irq_actions := irq_actions st |}.

Definition set_xpos (v : Z) (st : driver) : driver :=
  {| gpio_ts_table := gpio_ts_table st; gpio_ts_nb_gpios := gpio_ts_nb_gpios st;
     gpio_lp_button := gpio_lp_button st; gpio_odd_even := gpio_odd_even st;
     irq_numbers := irq_numbers st; devtable := devtable st;
     module_unload := module_unload st; message := message st;
     lp_button := lp_button st; lastvsync := lastvsync st; lastlp := lastlp st;
     xpos := v; ypos := ypos st; have_data := have_data st;
     usecoffset := usecoffset st; oddeven := oddeven st;
     irq_actions := irq_actions st |}.

Definition set_ypos (v : Z) (st : driver) : driver :=
  {| gpio_ts_table := gpio_ts_table st; gpio_ts_nb_gpios := gpio_ts_nb_gpios st;
     gpio_lp_button := gpio_lp_button st; gpio_odd_even := gpio_odd_even st;
     irq_numbers := irq_numbers st; devtable := devtable st;
     module_unload := module_unload st; message := message st;
     lp_button := lp_button st; lastvsync := lastvsync st; lastlp := lastlp st;
     xpos := xpos st; ypos := v; have_data := have_data st;
     usecoffset := usecoffset st; oddeven := oddeven st;
     irq_actions := irq_actions st |}.

Definition set_have_data (v : bool) (st : driver) : driver :=
  {| gpio_ts_table := gpio_ts_table st; gpio_ts_nb_gpios := gpio_ts_nb_gpios st;
     gpio_lp_button := gpio_lp_button st; gpio_odd_even := gpio_odd_even st;
     irq_numbers := irq_numbers st; devtable := devtable st;
     module_unload := module_unload st; message := message st;
     lp_button := lp_button st; lastvsync := lastvsync st; lastlp := lastlp st;
     xpos := xpos st; ypos := ypos st; have_data := v;
     usecoffset := usecoffset st; oddeven := oddeven st;
     irq_actions := irq_actions st |}.

Definition set_usecoffset (v : Z) (st : driver) : driver :=
  {| gpio_ts_table := gpio_ts_table st; gpio_ts_nb_gpios := gpio_ts_nb_gpios st;
     gpio_lp_button := gpio_lp_button st; gpio_odd_even := gpio_odd_even st;
     irq_numbers := irq_numbers st; devtable := devtable st;
     module_unload := module_unload st; message := message st;
     lp_button := lp_button st; lastvsync := lastvsync st; lastlp := lastlp st;
     xpos := xpos st; ypos := ypos st; have_data := have_data st;
     usecoffset := v; oddeven := oddeven st;
     irq_actions := irq_actions st |}.

Definition set_oddeven (v : Z) (st : driver) : driver :=
  {| gpio_ts_table := gpio_ts_table st; gpio_ts_nb_gpios := gpio_ts_nb_gpios st;
     gpio_lp_button := gpio_lp_button st; gpio_odd_even := gpio_odd_even st;
     irq_numbers := irq_numbers st; devtable := devtable st;
     module_unload := module_unload st; message := message st;
     lp_button := lp_button st; lastvsync := lastvsync st; lastlp := lastlp st;
     xpos := xpos st; ypos := ypos st; have_data := have_data st;
     usecoffset := usecoffset st; oddeven := v;
     irq_actions := irq_actions st |}.

Definition set_irq_actions (v : list (Z * option nat)) (st : driver) : driver :=
  {| gpio_ts_table := gpio_ts_table st; gpio_ts_nb_gpios := gpio_ts_nb_gpios st;
     gpio_lp_button := gpio_lp_button st; gpio_odd_even := gpio_odd_even st;
     irq_numbers := irq_numbers st; devtable := devtable st;
     module_unload := module_unload st; message := message st;
     lp_button := lp_button st; lastvsync := lastvsync st; lastlp := lastlp st;
     xpos := xpos st; ypos := ypos st; have_data := have_data st;
     usecoffset := usecoffset st; oddeven := oddeven st;
     irq_actions := v |}.

(** ** Pointers into [devtable] *)

(** [*p] for a [struct gpio_ts_devinfo *p]. *)
Definition deref (st : driver) (p : nat) : option gpio_ts_devinfo :=
  mjoin (devtable st !! p).

(** [*p = d], the structure stays where it is. *)
Definition store (p : nat) (d : gpio_ts_devinfo) (st : driver) : driver :=
  set_devtable (<[p := Some d]> (devtable st)) st.

(** [wait_event] and [poll_wait] put the running task on a wait queue. *)
Definition enqueue (p : nat) (task : nat) (st : driver) : option driver :=
  d ← deref st p;
  Some (store p (set_waitqueue (waitqueue d ++ [task]) d) st).

(** [wake_up(&p->waitqueue)]: every task on the queue becomes runnable and
    leaves the queue; the tasks woken are returned. *)
Definition wake_up (p : nat) (st : driver) : option (driver * list nat) :=
  d ← deref st p;
  Some (store p (set_waitqueue [] d) st, waitqueue d).

(** ** The C library: [sprintf], [strlen], [copy_to_user] *)

Definition NUL : ascii := Ascii.zero.
Definition comma : ascii := ","%char.
Definition newline : ascii := ascii_of_nat 10.

Definition minus : ascii := "-"%char.

(** The character of a decimal digit. *)
Definition digit (d : Z) : ascii := ascii_of_nat (48 + Z.to_nat d).

(** The digits of [n], least significant first, pushed in front of [acc];
    [fuel] bounds their number. *)
Fixpoint utoa (fuel : nat) (n : Z) (acc : list ascii) : list ascii :=
  match fuel with
  | O => acc
  | S fuel' =>
    let acc := digit (n mod 10) :: acc in
    if n / 10 =? 0 then acc else utoa fuel' (n / 10) acc
  end.

(** [%i] for an [int] argument: its decimal digits (at most ten), after a
    minus sign when it is negative. *)
Definition fmt_i (z : Z) : list ascii :=
  if z <? 0 then minus :: utoa 10 (- z) [] else utoa 10 z [].

(** ["%i,%i,%i\n"] *)
Definition fmt_record (x y b : Z) : list ascii :=
  fmt_i x ++ comma :: fmt_i y ++ comma :: fmt_i b ++ [newline].

(** [sprintf(buf, ...)] stores the formatted characters and a terminating
    NUL at the start of [buf]; it has no room to do so when the text is as
    long as the buffer. *)
Definition sprintf (buf : list ascii) (text : list ascii) : option (list ascii) :=
  if (length text <? length buf)%nat
  then Some (text ++ NUL :: drop (S (length text)) buf)
  else None.

Fixpoint strlen (buf : list ascii) : nat :=
  match buf with
  | [] => O
  | c :: rest => if Ascii.eqb c NUL then O else S (strlen rest)
  end.

(** The caller's buffer is [writable] bytes of user memory followed by an
    unmapped page.  [copy_to_user] returns the number of bytes it could not
    copy, together with the bytes that reached the buffer. *)
Definition copy_to_user (writable : nat) (from : list ascii) (n : nat)
  : Z * list ascii :=
  (Z.of_nat (n - writable), take (n `min` writable) from).

(** ** Entry points *)

(** [gpio_ts_open] *)
Definition gpio_ts_open (minor : nat) (filp : file) (st : driver)
  : option (Z * file * driver) :=
  let gpio_index := minor in
  devinfo ← deref st gpio_index;
  if 0 <? opencount devinfo then Some (- EBUSY, filp, st)
  else
    let st := store gpio_index
                (set_opencount (as_int (opencount devinfo + 1)) devinfo) st in
    let filp := set_private_data (Some gpio_index) filp in
    Some (0, filp, st).

(** [gpio_ts_release] *)
Definition gpio_ts_release (minor : nat) (filp : file) (st : driver)
  : option (Z * file * driver) :=
  let gpio_index := minor in
  devinfo ← deref st gpio_index;
  let st := store gpio_index
              (set_opencount (as_int (opencount devinfo - 1)) devinfo) st in
  let filp := set_private_data None filp in
  Some (0, filp, st).

(** A call of [read] either returns (a value, and the bytes it has put in
    the caller's buffer) or leaves the task asleep in [wait_event]. *)
Inductive read_status :=
| Returned (ret : Z) (copied : list ascii)
| Asleep.

(** [gpio_ts_read] from the [sprintf] on: the lines after the wait. *)
Definition gpio_ts_read_copy (writable : nat) (st : driver)
  : option (read_status * driver) :=
  msg ← sprintf (message st) (fmt_record (xpos st) (ypos st) (lp_button st));
  let st := set_message msg st in
  let lg := strlen (message st) in
  let '(err, copied) := copy_to_user writable (message st) lg in
  if negb (err =? 0) then Some (Returned (- EFAULT) copied, st)
  else
    let st := set_have_data false st in
    Some (Returned (Z.of_nat lg) copied, st).

(** [wait_event(devinfo->waitqueue, have_data)], entered with [have_data]
    false or re-entered after a wake-up: the task goes on when the flag is
    set and sleeps on the queue otherwise. *)
Definition wait_event_have_data (task : nat) (devinfo : option nat)
    (st : driver) : option (bool * driver) :=
  if have_data st then Some (true, st)
  else
    devinfo ← devinfo;
    st ← enqueue devinfo task st;
    Some (false, st).

(** [gpio_ts_read].  [length] and [offset] are not looked at by the
    driver. *)
Definition gpio_ts_read (task : nat) (filp : file) (writable : nat)
    (length : Z) (st : driver) : option (read_status * driver) :=
  if negb (have_data st) then
    let devinfo := private_data filp in
    if negb (Z.land (f_flags filp) O_NONBLOCK =? 0)
    then Some (Returned (- EAGAIN) [], st)
    else
      match wait_event_have_data task devinfo st with
      | Some (true, st) => gpio_ts_read_copy writable st
      | Some (false, st) => Some (Asleep, st)
      | None => None
      end
  else gpio_ts_read_copy writable st.

(** The rest of a [gpio_ts_read] whose task was asleep and has been woken;
    [devinfo] is the local variable of that call. *)
Definition gpio_ts_read_resume (task : nat) (devinfo : option nat)
    (writable : nat) (st : driver) : option (read_status * driver) :=
  match wait_event_have_data task devinfo st with
  | Some (true, st) => gpio_ts_read_copy writable st
  | Some (false, st) => Some (Asleep, st)
  | None => None
  end.

(** [gpio_ts_poll] *)
Definition gpio_ts_poll (task : nat) (filp : file) (st : driver)
  : option (Z * driver) :=
  if have_data st then Some (Z.lor POLLPRI POLLIN, st)
  else
    devinfo ← private_data filp;
    st ← enqueue devinfo task st;
    Some (0, st).

Section Handler.

(** The width of [long]: 32 on the 32-bit ARM kernels, 64 on arm64. *)
Variable long_bits : Z.

Definition as_long (z : Z) : Z := wrap long_bits z.

(** [timestamp.tv_sec * 1000000 + timestamp.tv_nsec / 1000] *)
Definition usecs_of (timestamp : timespec) : Z :=
  as_long (as_long (tv_sec timestamp * 1000000) + tv_nsec timestamp ÷ 1000).

(** [gpio_ts_handler].  [timestamp] is what [getnstimeofday] answers,
    [gpio_get_value] the levels of the input lines at that instant and
    [arg] the [dev_id] given to [request_irq].  The result carries the
    tasks woken. *)
Definition gpio_ts_handler (timestamp : timespec) (gpio_get_value : Z -> Z)
    (arg : option nat) (st : driver) : option (Z * driver * list nat) :=
  if module_unload st then Some (- IRQ_NONE, st, [])
  else
    match arg with
    | None => Some (- IRQ_NONE, st, [])
    | Some p =>
      let usecs := usecs_of timestamp in
      devinfo ← deref st p;
      '(st, woken) ← (
         if num devinfo =? 0 then
           let st := set_oddeven (gpio_get_value (gpio_odd_even st)) st in
           if (128 <? as_long (usecs - lastlp st)) && negb (oddeven st =? 0)
           then
             let st := set_lastlp usecs st in
             let st := set_lp_button
                         (as_short (gpio_get_value (gpio_lp_button st))) st in
             let st := set_usecoffset (as_long (usecs - lastvsync st)) st in
             let st := set_ypos (as_int (usecoffset st ÷ PAL_LINE_LENGTH)) st in
             let st := set_xpos
                         (as_int (as_long (usecoffset st
                                           - as_int (ypos st * PAL_LINE_LENGTH))))
                         st in
             let st := set_have_data true st in
             wake_up p st
           else Some (st, [])
         else Some (st, []));
      let st :=
        if num devinfo =? 1
        then set_lastlp usecs (set_lastvsync usecs st)
        else st in
      Some (IRQ_HANDLED, st, woken)
    end.

(** The state a qualifying light-pen interrupt leaves, the wake-up apart. *)
Definition lp_sampled (timestamp : timespec) (gpio_get_value : Z -> Z)
    (st : driver) : driver :=
  let u := usecs_of timestamp in
  let off := as_long (u - lastvsync st) in
  let y := as_int (off ÷ PAL_LINE_LENGTH) in
  let x := as_int (as_long (off - as_int (y * PAL_LINE_LENGTH))) in
  set_have_data true
    (set_xpos x
       (set_ypos y
          (set_usecoffset off
             (set_lp_button (as_short (gpio_get_value (gpio_lp_button st)))
                (set_lastlp u
                   (set_oddeven (gpio_get_value (gpio_odd_even st)) st)))))).

End Handler.

(** ** Module load and [gpio_ts_init] *)

(** The module as [insmod] leaves it before [gpio_ts_init] runs: the
    parameters are stored, everything else is zero. *)
Definition module_load (gpios : list Z) (button odd_even : Z) : driver :=
  {| gpio_ts_table := take GPIO_TS_NB_ENTRIES_MAX (gpios ++ [0; 0]);
     gpio_ts_nb_gpios := Z.of_nat (length gpios);
     gpio_lp_button := button;
     gpio_odd_even := odd_even;
     irq_numbers := [0; 0];
     devtable := [None; None];
     module_unload := false;
     message := replicate 256 NUL;
     lp_button := 0; lastvsync := 0; lastlp := 0; xpos := 0; ypos := 0;
     have_data := false; usecoffset := 0; oddeven := 0;
     irq_actions := [] |}.

(** The answers of the kernel services that [gpio_ts_init] calls. *)
Record kernel := {
  gpio_is_valid : Z -> bool;
  alloc_chrdev_region : Z;
  class_create_IS_ERR : bool;
  kzalloc : nat -> bool;           (* does the allocation for device i succeed *)
  cdev_add : Z;
  gpio_to_irq : Z -> Z;
  request_irq : Z -> Z             (* by interrupt number *)
}.

(** [kfree(devtable[i])]: the structure is gone. *)
Definition kfree (i : nat) (st : driver) : driver :=
  set_devtable (<[i := None]> (devtable st)) st.

(** The pointer stored in [devtable[i]]. *)
Definition devtable_ptr (st : driver) (i : nat) : option nat :=
  match deref st i with Some _ => Some i | None => None end.

(** The first loop of the sanity checks: is every requested pin valid? *)
Fixpoint gpios_valid (k : kernel) (table : list Z) (i n : nat) : bool :=
  match n with
  | O => true
  | S n' => gpio_is_valid k (nth i table 0) && gpios_valid k table (S i) n'
  end.

(** The loop that creates the devices and their [devinfo] structures. *)
Fixpoint create_devices (k : kernel) (i n : nat) (st : driver) : Z * driver :=
  match n with
  | O => (0, st)
  | S n' =>
    if kzalloc k i then
      let devinfo := {| ts := {| tv_sec := 0; tv_nsec := 0 |}; usecs := 0;
                        waitqueue := []; opencount := 0;
                        num := Z.of_nat i |} in
      create_devices k (S i) n' (store i devinfo st)
    else (- ENOMEM, st)
  end.

(** The loop that exports the pins and requests their interrupts. *)
Fixpoint setup_irqs (k : kernel) (i n : nat) (st : driver) : Z * driver :=
  match n with
  | O => (0, st)
  | S n' =>
    let gpio := nth i (gpio_ts_table st) 0 in
    let irq := gpio_to_irq k gpio in
    let err := request_irq k irq in
    if negb (err =? 0) then (- ENODEV, kfree i st)
    else
      let st := set_irq_actions (irq_actions st ++ [(irq, devtable_ptr st i)]) st in
      let st := set_irq_numbers (<[i := irq]> (irq_numbers st)) st in
      setup_irqs k (S i) n' st
  end.

(** The loop that frees every [devinfo] when [cdev_add] fails. *)
Fixpoint free_devices (i n : nat) (st : driver) : driver :=
  match n with
  | O => st
  | S n' => free_devices (S i) n' (kfree i st)
  end.

(** [gpio_ts_init] *)
Definition gpio_ts_init (k : kernel) (st : driver) : Z * driver :=
  let st := set_have_data false st in
  let st := set_devtable (replicate GPIO_TS_NB_ENTRIES_MAX None) st in
  let nb := Z.to_nat (gpio_ts_nb_gpios st) in
  (* sanity checks *)
  if negb (gpio_ts_nb_gpios st =? 2) then (- EINVAL, st)
  else if negb (gpios_valid k (gpio_ts_table st) 0 nb) then (- ENODEV, st)
  else if negb (gpio_is_valid k (gpio_lp_button st)) then (- ENODEV, st)
  else if negb (gpio_is_valid k (gpio_lp_button st)) then (- ENODEV, st)
  (* create the character devices *)
  else
    let err := alloc_chrdev_region k in
    if negb (err =? 0) then (err, st)
    else if class_create_IS_ERR k then (- EINVAL, st)
    else
      match create_devices k 0 nb st with
      | (0, st) =>
        let err := cdev_add k in
        if negb (err =? 0) then (err, free_devices 0 nb st)
        else
          (* set up sysfs and irqs *)
          setup_irqs k 0 nb st
      | (err, st) => (err, st)
      end.

(** ** Runs of interrupts *)

(** One interrupt as the handler sees it. *)
Record irq_event := {
  ev_arg : option nat;
  ev_time : timespec;
  ev_lines : Z -> Z
}.

Definition handle (long_bits : Z) (ev : irq_event) (st : driver)
  : option (Z * driver * list nat) :=
  gpio_ts_handler long_bits (ev_time ev) (ev_lines ev) (ev_arg ev) st.

(** The state after a sequence of interrupts, and all the tasks woken. *)
Fixpoint run (long_bits : Z) (evs : list irq_event) (st : driver)
  : option (driver * list nat) :=
  match evs with
  | [] => Some (st, [])
  | ev :: evs' =>
    match handle long_bits ev st with
    | Some (_, st', woken) =>
      match run long_bits evs' st' with
      | Some (st'', woken') => Some (st'', woken ++ woken')
      | None => None
      end
    | None => None
    end
  end.

(** A kernel in which every pin below 54 is valid, every service succeeds
    and pin [n] raises interrupt [160 + n]. *)
Definition good_kernel : kernel :=
  {| gpio_is_valid := fun n => (0 <=? n) && (n <? 54);
     alloc_chrdev_region := 0;
     class_create_IS_ERR := false;
     kzalloc := fun _ => true;
     cdev_add := 0;
     gpio_to_irq := fun n => 160 + n;
     request_irq := fun _ => 0 |}.

(** The driver loaded with [gpios=17,27 gpio_lp_button=22 gpio_odd_even=23]. *)
Definition loaded : driver :=
  snd (gpio_ts_init good_kernel (module_load [17; 27] 22 23)).

Definition usec (t : Z) : timespec :=
  {| tv_sec := t ÷ 1000000; tv_nsec := (Z.rem t 1000000) * 1000 |}.

(** The levels of the parity line and of the button line, every other line
    low. *)
Definition lines (st : driver) (parity button : Z) : Z -> Z :=
  fun gpio =>
    if gpio =? gpio_odd_even st then parity
    else if gpio =? gpio_lp_button st then button
    else 0.

Definition lp_edge (t parity button : Z) : irq_event :=
  {| ev_arg := Some 0%nat; ev_time := usec t; ev_lines := lines loaded parity button |}.
Definition vsync_edge (t : Z) : irq_event :=
  {| ev_arg := Some 1%nat; ev_time := usec t; ev_lines := lines loaded 0 0 |}.

(** The state after a sequence of interrupts (the state before, should the
    handler fault). *)
Definition after (long_bits : Z) (evs : list irq_event) (st : driver) : driver :=
  match run long_bits evs st with
  | Some (st', _) => st'
  | None => st
  end.

(** [loaded] after a VSYNC edge at time 0 and a light-pen edge at 1000
    microseconds with parity and button high: a sample is pending. *)
Definition pending : driver := after 64 [vsync_edge 0; lp_edge 1000 1 1] loaded.

(** A blocking file on the light-pen device, [loaded] after that file has
    been opened, and then after task 7 has called a blocking [read] on it
    and gone to sleep. *)
Definition lp_file : file := {| f_flags := 0; private_data := Some 0%nat |}.

Definition opened : driver :=
  match gpio_ts_open 0 {| f_flags := 0; private_data := None |} loaded with
  | Some (_, _, st) => st
  | None => loaded
  end.

Definition blocked : driver :=
  match gpio_ts_read 7 lp_file 4096 4096 opened with
  | Some (_, st) => st
  | None => opened
  end.

(** ** Reading a record back *)

Definition is_digit (c : ascii) : bool :=
  (48 <=? nat_of_ascii c)%nat && (nat_of_ascii c <=? 57)%nat.

(** The number written by a string of decimal digits, continuing from [v]. *)
Definition digits_value (s : list ascii) (v : Z) : Z :=
  fold_left (fun v c => 10 * v + (Z.of_nat (nat_of_ascii c) - 48)) s v.

(** The integer written by an optional minus sign and decimal digits. *)
Definition atoi (s : list ascii) : Z :=
  match s with
  | c :: rest => if Ascii.eqb c minus then - digits_value rest 0
                 else digits_value s 0
  | [] => 0
  end.

(** ** The handler as a step relation *)

(** [handled long_bits ev st r st' woken]: the interrupt [ev] taken in state
    [st] returns [r], leaves [st'] and wakes [woken].  One constructor per
    path through [gpio_ts_handler]. *)
Inductive handled (long_bits : Z) (ev : irq_event) (st : driver)
  : Z -> driver -> list nat -> Prop :=
| handled_ignored :
    module_unload st = true \/ ev_arg ev = None ->
    handled long_bits ev st (- IRQ_NONE) st []
| handled_sample p d :
    module_unload st = false ->
    ev_arg ev = Some p ->
    deref st p = Some d ->
    num d = 0 ->
    128 < as_long long_bits (usecs_of long_bits (ev_time ev) - lastlp st) ->
    ev_lines ev (gpio_odd_even st) <> 0 ->
    handled long_bits ev st IRQ_HANDLED
      (store p (set_waitqueue [] d)
         (lp_sampled long_bits (ev_time ev) (ev_lines ev) st))
      (waitqueue d)
| handled_discard p d :
    module_unload st = false ->
    ev_arg ev = Some p ->
    deref st p = Some d ->
    num d = 0 ->
    as_long long_bits (usecs_of long_bits (ev_time ev) - lastlp st) <= 128
    \/ ev_lines ev (gpio_odd_even st) = 0 ->
    handled long_bits ev st IRQ_HANDLED
      (set_oddeven (ev_lines ev (gpio_odd_even st)) st) []
| handled_vsync p d :
    module_unload st = false ->
    ev_arg ev = Some p ->
    deref st p = Some d ->
    num d = 1 ->
    handled long_bits ev st IRQ_HANDLED
      (set_lastlp (usecs_of long_bits (ev_time ev))
         (set_lastvsync (usecs_of long_bits (ev_time ev)) st)) []
| handled_other p d :
    module_unload st = false ->
    ev_arg ev = Some p ->
    deref st p = Some d ->
    num d <> 0 ->
    num d <> 1 ->
    handled long_bits ev st IRQ_HANDLED st [].

(** A kernel like [good_kernel] that refuses the interrupt of pin 27. *)
Definition vsync_irq_refused : kernel :=
  {| gpio_is_valid := gpio_is_valid good_kernel;
     alloc_chrdev_region := 0;
     class_create_IS_ERR := false;
     kzalloc := fun _ => true;
     cdev_add := 0;
     gpio_to_irq := gpio_to_irq good_kernel;
     request_irq := fun irq => if irq =? 187 then - EBUSY else 0 |}.

(** ** Module unload: [gpio_ts_exit] *)

Definition set_module_unload (v : bool) (st : driver) : driver :=
  {| gpio_ts_table := gpio_ts_table st; gpio_ts_nb_gpios := gpio_ts_nb_gpios st;
     gpio_lp_button := gpio_lp_button st; gpio_odd_even := gpio_odd_even st;
     irq_numbers := irq_numbers st; devtable := devtable st;
     module_unload := v; message := message st;
     lp_button := lp_button st; lastvsync := lastvsync st; lastlp := lastlp st;
     xpos := xpos st; ypos := ypos st; have_data := have_data st;
     usecoffset := usecoffset st; oddeven := oddeven st;
     irq_actions := irq_actions st |}.





(** ** The states the driver can be in *)

(** One entry into the driver.  The kernel calls the handler with a
    [dev_id] that [request_irq] has registered. *)
Inductive step (long_bits : Z) (st : driver) : driver -> Prop :=
| step_irq ev irq r st' woken :
    (irq, ev_arg ev) ∈ irq_actions st ->
    handle long_bits ev st = Some (r, st', woken) ->
    step long_bits st st'
| step_open minor filp r filp' st' :
    gpio_ts_open minor filp st = Some (r, filp', st') ->
    step long_bits st st'
| step_release minor filp r filp' st' :
    gpio_ts_release minor filp st = Some (r, filp', st') ->
    step long_bits st st'
| step_read task filp writable len res st' :
    gpio_ts_read task filp writable len st = Some (res, st') ->
    step long_bits st st'
| step_read_resume task devinfo writable res st' :
    gpio_ts_read_resume task devinfo writable st = Some (res, st') ->
    step long_bits st st'
| step_poll task filp r st' :
    gpio_ts_poll task filp st = Some (r, st') ->
    step long_bits st st'.

(** The states reached from a successful [gpio_ts_init]. *)
Inductive reachable (long_bits : Z) : driver -> Prop :=
| reachable_init k gpios button odd_even st :
    gpio_ts_init k (module_load gpios button odd_even) = (0, st) ->
    reachable long_bits st
| reachable_step st st' :
    reachable long_bits st ->
    step long_bits st st' ->
    reachable long_bits st'.

(** The handlers installed are those of the two devices. *)
Definition irqs_ok (st : driver) : Prop :=
  forall irq arg, (irq, arg) ∈ irq_actions st ->
                  arg = Some 0%nat \/ arg = Some 1%nat.

(** Task [task] is asleep on the wait queue of the device behind [p]. *)
Definition queued (st : driver) (p task : nat) : Prop :=
  exists d, deref st p = Some d /\ task ∈ waitqueue d.

(** ** Invariants *)

(** [devtable[0]] is the light-pen device and [devtable[1]] the VSYNC
    device, as [gpio_ts_init] numbers them. *)
Definition is_dev (st : driver) (p : nat) (n : Z) : bool :=
  match deref st p with
  | Some d => num d =? n
  | None => false
  end.

Definition devices_ok (st : driver) : bool :=
  is_dev st 0 0 && is_dev st 1 1.

Definition in_int (z : Z) : bool := (- 2 ^ 31 <=? z) && (z <? 2 ^ 31).
Definition in_short (z : Z) : bool := (- 2 ^ 15 <=? z) && (z <? 2 ^ 15).

(** The variables read by [gpio_ts_read] hold values of their C types:
    [message] is an array of 256 characters, [xpos] and [ypos] are [int]s
    and [lp_button] is a [short]. *)
Definition statics_ok (st : driver) : bool :=
  (length (message st) =? 256)%nat
  && in_int (xpos st) && in_int (ypos st) && in_short (lp_button st).

(** * Properties *)

(** Reading a field of an updated state. *)
Ltac fields :=
  cbn [store kfree lp_sampled
       set_irq_numbers set_devtable set_message set_lp_button set_lastvsync
       set_lastlp set_xpos set_ypos set_have_data set_usecoffset set_oddeven
       set_irq_actions set_waitqueue set_opencount set_private_data
       set_module_unload
       gpio_ts_table gpio_ts_nb_gpios gpio_lp_button gpio_odd_even
       irq_numbers devtable module_unload message lp_button lastvsync lastlp
       xpos ypos have_data usecoffset oddeven irq_actions
       ts usecs waitqueue opencount num f_flags private_data] in *.

(** ** Arithmetic of the fixed-width types *)

Lemma pow2_double (bits : Z) : 0 < bits -> 2 ^ bits = 2 * 2 ^ (bits - 1).
Proof.
  intros Hb. replace bits with (Z.succ (bits - 1)) at 1 by lia.
  apply Z.pow_succ_r. lia.
Qed.

Lemma pow2_pos (n : Z) : 0 <= n -> 0 < 2 ^ n.
Proof. intros Hn. apply Z.pow_pos_nonneg; lia. Qed.

Lemma wrap_range (bits z : Z) :
  0 < bits -> - 2 ^ (bits - 1) <= wrap bits z < 2 ^ (bits - 1).
Proof.
  intros Hb. unfold wrap.
  pose proof (pow2_double bits Hb) as Hd.
  pose proof (pow2_pos (bits - 1) ltac:(lia)) as Hp.
  pose proof (Z.mod_pos_bound (z + 2 ^ (bits - 1)) (2 ^ bits) ltac:(lia)).
  lia.
Qed.

Lemma wrap_id (bits z : Z) :
  0 < bits -> - 2 ^ (bits - 1) <= z < 2 ^ (bits - 1) -> wrap bits z = z.
Proof.
  intros Hb Hz. unfold wrap.
  pose proof (pow2_double bits Hb) as Hd.
  rewrite Z.mod_small by lia. lia.
Qed.

Lemma wrap_mod (bits z : Z) :
  0 < bits -> wrap bits z mod 2 ^ bits = z mod 2 ^ bits.
Proof.
  intros Hb. unfold wrap.
  pose proof (pow2_pos bits ltac:(lia)) as Hp.
  rewrite Zminus_mod, Z.mod_mod, <- Zminus_mod by lia.
  f_equal. lia.
Qed.

Lemma wrap_congr (bits a b : Z) :
  a mod 2 ^ bits = b mod 2 ^ bits -> wrap bits a = wrap bits b.
Proof.
  intros Hab. unfold wrap.
  rewrite (Zplus_mod a), (Zplus_mod b), Hab. reflexivity.
Qed.

(** Converting to a wider type first does not change the narrower value. *)
Lemma wrap_narrow (b1 b2 z : Z) :
  0 < b1 <= b2 -> wrap b1 (wrap b2 z) = wrap b1 z.
Proof.
  intros Hb. apply wrap_congr.
  assert (Hdiv : (2 ^ b1 | 2 ^ b2)).
  { exists (2 ^ (b2 - b1)). rewrite <- Z.pow_add_r by lia. f_equal. lia. }
  rewrite <- (Z.mod_mod_divide (wrap b2 z) (2 ^ b2) (2 ^ b1) Hdiv).
  rewrite wrap_mod by lia.
  apply Z.mod_mod_divide, Hdiv.
Qed.

Lemma wrap_sub_wrap_r (bits a b : Z) :
  0 < bits -> wrap bits (a - wrap bits b) = wrap bits (a - b).
Proof.
  intros Hb. apply wrap_congr.
  rewrite Zminus_mod, wrap_mod, <- Zminus_mod by lia. reflexivity.
Qed.

Lemma as_int_range (z : Z) : - 2 ^ 31 <= as_int z < 2 ^ 31.
Proof. apply (wrap_range 32 z). lia. Qed.

Lemma as_short_range (z : Z) : - 2 ^ 15 <= as_short z < 2 ^ 15.
Proof. apply (wrap_range 16 z). lia. Qed.

(** ** The interrupt handler, case by case *)

Section HandlerCases.

Variable long_bits : Z.

Local Abbreviation as_long := (as_long long_bits).
Local Abbreviation usecs_of := (usecs_of long_bits).
Local Abbreviation gpio_ts_handler := (gpio_ts_handler long_bits).
Local Abbreviation lp_sampled := (lp_sampled long_bits).

Lemma handler_lp_qualifying timestamp lv p d st :
  module_unload st = false ->
  deref st p = Some d ->
  num d = 0 ->
  128 < as_long (usecs_of timestamp - lastlp st) ->
  lv (gpio_odd_even st) <> 0 ->
  gpio_ts_handler timestamp lv (Some p) st
  = Some (IRQ_HANDLED,
          store p (set_waitqueue [] d) (lp_sampled timestamp lv st),
          waitqueue d).
Proof.
  intros Hu Hd Hn Hdeb Hpar. unfold gpio_ts_handler.
  rewrite Hu, Hd. simpl. rewrite Hn. simpl.
  apply Z.ltb_lt in Hdeb. rewrite Hdeb.
  apply Z.eqb_neq in Hpar. rewrite Hpar. simpl.
  unfold wake_up, deref. simpl. fold (deref st p). rewrite Hd. reflexivity.
Qed.

Lemma handler_lp_discarding timestamp lv p d st :
  module_unload st = false ->
  deref st p = Some d ->
  num d = 0 ->
  as_long (usecs_of timestamp - lastlp st) <= 128 \/ lv (gpio_odd_even st) = 0 ->
  gpio_ts_handler timestamp lv (Some p) st
  = Some (IRQ_HANDLED, set_oddeven (lv (gpio_odd_even st)) st, []).
Proof.
  intros Hu Hd Hn Hno. unfold gpio_ts_handler.
  rewrite Hu, Hd. simpl. rewrite Hn. simpl.
  destruct Hno as [Hdeb | Hpar].
  - apply Z.ltb_ge in Hdeb. rewrite Hdeb. reflexivity.
  - rewrite Hpar. simpl. rewrite andb_false_r. reflexivity.
Qed.

Lemma handler_vsync timestamp lv p d st :
  module_unload st = false ->
  deref st p = Some d ->
  num d = 1 ->
  gpio_ts_handler timestamp lv (Some p) st
  = Some (IRQ_HANDLED,
          set_lastlp (usecs_of timestamp) (set_lastvsync (usecs_of timestamp) st),
          []).
Proof.
  intros Hu Hd Hn. unfold gpio_ts_handler.
  rewrite Hu, Hd. simpl. rewrite Hn. reflexivity.
Qed.

End HandlerCases.

(** ** Decoding the position *)

(** The two assignments to [ypos] and [xpos] compute quotient and remainder
    of the offset by the line length as long as the quotient fits an [int];
    the product [ypos * PAL_LINE_LENGTH] may wrap, the difference does not
    notice. *)
Lemma decode_div_mod (long_bits off : Z) :
  32 <= long_bits ->
  0 <= off ->
  off / PAL_LINE_LENGTH < 2 ^ 31 ->
  as_int (off ÷ PAL_LINE_LENGTH) = off / PAL_LINE_LENGTH
  /\ as_int (as_long long_bits
               (off - as_int (as_int (off ÷ PAL_LINE_LENGTH) * PAL_LINE_LENGTH)))
     = off mod PAL_LINE_LENGTH.
Proof.
  intros Hb Hoff Hq. unfold PAL_LINE_LENGTH in *.
  rewrite Z.quot_div_nonneg by lia.
  assert (Hq0 : 0 <= off / 64) by (apply Z.div_pos; lia).
  assert (Hy : as_int (off / 64) = off / 64).
  { apply wrap_id; lia. }
  split; [exact Hy |].
  rewrite Hy. unfold as_long, as_int.
  rewrite wrap_narrow by lia.
  rewrite wrap_sub_wrap_r by lia.
  replace (off - off / 64 * 64) with (off mod 64)
    by (rewrite Z.mod_eq by lia; lia).
  pose proof (Z.mod_pos_bound off 64 ltac:(lia)).
  apply wrap_id; lia.
Qed.

Section Decoding.

Variable long_bits : Z.

Local Abbreviation as_long := (as_long long_bits).
Local Abbreviation usecs_of := (usecs_of long_bits).
Local Abbreviation gpio_ts_handler := (gpio_ts_handler long_bits).

(** C2, amended.  A qualifying light-pen interrupt at time [t], with [v] the
    recorded VSYNC time, [0 <= t - v] representable in a [long] and
    [(t - v) / 64] representable in an [int], produces the sample
    [y = (t - v) div 64], [x = (t - v) mod 64]; hence [0 <= x < 64] and
    [0 <= y]. *)
Theorem lp_sample_is_div_mod timestamp lv p d st :
  32 <= long_bits ->
  module_unload st = false ->
  deref st p = Some d ->
  num d = 0 ->
  128 < as_long (usecs_of timestamp - lastlp st) ->
  lv (gpio_odd_even st) <> 0 ->
  0 <= usecs_of timestamp - lastvsync st < 2 ^ (long_bits - 1) ->
  (usecs_of timestamp - lastvsync st) / PAL_LINE_LENGTH < 2 ^ 31 ->
  exists st' woken,
    gpio_ts_handler timestamp lv (Some p) st = Some (IRQ_HANDLED, st', woken)
    /\ have_data st' = true
    /\ ypos st' = (usecs_of timestamp - lastvsync st) / PAL_LINE_LENGTH
    /\ xpos st' = (usecs_of timestamp - lastvsync st) mod PAL_LINE_LENGTH
    /\ 0 <= xpos st' < PAL_LINE_LENGTH
    /\ 0 <= ypos st'.
Proof.
  intros Hb Hu Hd Hn Hdeb Hpar Hoff Hq.
  eexists _, _. split.
  { apply (handler_lp_qualifying long_bits timestamp lv p d st); assumption. }
  fields.
  assert (Ho : as_long (usecs_of timestamp - lastvsync st)
               = usecs_of timestamp - lastvsync st).
  { apply wrap_id; lia. }
  rewrite Ho.
  destruct (decode_div_mod long_bits (usecs_of timestamp - lastvsync st))
    as [Hy Hx]; [lia | lia | assumption |].
  rewrite Hx, Hy.
  pose proof (Z.mod_pos_bound (usecs_of timestamp - lastvsync st)
                PAL_LINE_LENGTH ltac:(unfold PAL_LINE_LENGTH; lia)).
  repeat split; try lia.
  apply Z.div_pos; unfold PAL_LINE_LENGTH; lia.
Qed.

End Decoding.

(** ** The step relation describes the handler *)

Lemma handler_other long_bits timestamp lv p d st :
  module_unload st = false ->
  deref st p = Some d ->
  num d <> 0 ->
  num d <> 1 ->
  gpio_ts_handler long_bits timestamp lv (Some p) st
  = Some (IRQ_HANDLED, st, []).
Proof.
  intros Hu Hd H0 H1. unfold gpio_ts_handler.
  rewrite Hu, Hd. simpl.
  apply Z.eqb_neq in H0, H1. rewrite H0. simpl. rewrite H1. reflexivity.
Qed.

Lemma handle_handled long_bits ev st r st' woken :
  handle long_bits ev st = Some (r, st', woken) ->
  handled long_bits ev st r st' woken.
Proof.
  unfold handle. intros H.
  destruct (module_unload st) eqn:Hu.
  { unfold gpio_ts_handler in H. rewrite Hu in H.
    injection H as <- <- <-. constructor. left. exact Hu. }
  destruct (ev_arg ev) as [p |] eqn:Harg.
  2:{ unfold gpio_ts_handler in H. rewrite Hu in H.
      injection H as <- <- <-. constructor. right. exact Harg. }
  destruct (deref st p) as [d |] eqn:Hd.
  2:{ unfold gpio_ts_handler in H. rewrite Hu, Hd in H. discriminate. }
  destruct (Z.eq_dec (num d) 0) as [H0 | H0].
  - destruct (Z_lt_dec 128
               (as_long long_bits (usecs_of long_bits (ev_time ev) - lastlp st)))
      as [Hdeb | Hdeb].
    + destruct (Z.eq_dec (ev_lines ev (gpio_odd_even st)) 0) as [Hpar | Hpar].
      * rewrite (handler_lp_discarding long_bits _ _ p d) in H by auto.
        injection H as <- <- <-. eapply handled_discard; eauto.
      * rewrite (handler_lp_qualifying long_bits _ _ p d) in H by auto.
        injection H as <- <- <-. eapply handled_sample; eauto.
    + rewrite (handler_lp_discarding long_bits _ _ p d) in H by (auto; lia).
      injection H as <- <- <-. eapply handled_discard; eauto. lia.
  - destruct (Z.eq_dec (num d) 1) as [H1 | H1].
    + rewrite (handler_vsync long_bits _ _ p d) in H by auto.
      injection H as <- <- <-. eapply handled_vsync; eauto.
    + rewrite (handler_other long_bits _ _ p d) in H by auto.
      injection H as <- <- <-. eapply handled_other; eauto.
Qed.

Lemma handled_handle long_bits ev st r st' woken :
  handled long_bits ev st r st' woken ->
  handle long_bits ev st = Some (r, st', woken).
Proof.
  unfold handle. intros H. destruct H as [Hi | p d Hu Ha Hd H0 Hdeb Hpar
    | p d Hu Ha Hd H0 Hno | p d Hu Ha Hd H1 | p d Hu Ha Hd H0 H1].
  - unfold gpio_ts_handler. destruct Hi as [Hi | Hi]; rewrite Hi.
    + reflexivity.
    + destruct (module_unload st); reflexivity.
  - rewrite Ha. apply handler_lp_qualifying; assumption.
  - rewrite Ha. apply (handler_lp_discarding long_bits _ _ p d); assumption.
  - rewrite Ha. apply (handler_vsync long_bits _ _ p d); assumption.
  - rewrite Ha. apply (handler_other long_bits _ _ p d); assumption.
Qed.

(** The handler returns whenever its argument is [NULL] or points to a
    device structure. *)
Lemma handle_returns long_bits ev st :
  match ev_arg ev with Some p => is_Some (deref st p) | None => True end ->
  exists r st' woken, handle long_bits ev st = Some (r, st', woken).
Proof.
  intros Hp. unfold handle, gpio_ts_handler.
  destruct (module_unload st); [eauto |].
  destruct (ev_arg ev) as [p |]; [| eauto].
  destruct Hp as [d Hd]. rewrite Hd. simpl.
  destruct (num d =? 0); simpl.
  - destruct (_ && _); simpl.
    + unfold wake_up, deref. fields. fold (deref st p). rewrite Hd. simpl. eauto.
    + eauto.
  - eauto.
Qed.

(** ** Device structures behind pointers *)

Lemma deref_Some st p d :
  deref st p = Some d <-> devtable st !! p = Some (Some d).
Proof.
  unfold deref. destruct (devtable st !! p) as [[d' |] |]; simpl;
    split; intros H; try discriminate; congruence.
Qed.

Lemma deref_store_eq st p d d' :
  deref st p = Some d -> deref (store p d' st) p = Some d'.
Proof.
  intros H. apply deref_Some in H. apply deref_Some. fields.
  apply list_lookup_insert_eq. eapply lookup_lt_Some, H.
Qed.

Lemma deref_store_ne st p q d' :
  p <> q -> deref (store p d' st) q = deref st q.
Proof.
  intros H. unfold deref. fields.
  rewrite list_lookup_insert_ne by exact H. reflexivity.
Qed.

(** A store that keeps [num] keeps which device is which. *)
Lemma is_dev_store st p d d' q n :
  deref st p = Some d -> num d' = num d ->
  is_dev (store p d' st) q n = is_dev st q n.
Proof.
  intros Hd Hn. unfold is_dev.
  destruct (Nat.eq_dec p q) as [<- | Hne].
  - rewrite (deref_store_eq st p d d' Hd), Hd, Hn. reflexivity.
  - rewrite deref_store_ne by exact Hne. reflexivity.
Qed.

Lemma is_dev_true st p n :
  is_dev st p n = true <-> exists d, deref st p = Some d /\ num d = n.
Proof.
  unfold is_dev. destruct (deref st p) as [d |].
  - rewrite Z.eqb_eq. split; [eauto | intros (d' & [= <-] & H); exact H].
  - split; [discriminate | intros (d' & H & _); discriminate].
Qed.

(** ** What every interrupt preserves *)

Lemma handled_frame long_bits ev st r st' woken :
  handled long_bits ev st r st' woken ->
  module_unload st' = module_unload st
  /\ gpio_odd_even st' = gpio_odd_even st
  /\ gpio_lp_button st' = gpio_lp_button st
  /\ message st' = message st
  /\ irq_actions st' = irq_actions st
  /\ (forall q n, is_dev st' q n = is_dev st q n).
Proof.
  intros H. destruct H; fields; repeat split; try reflexivity.
  intros q n. rewrite (is_dev_store _ p d) by (assumption || reflexivity).
  reflexivity.
Qed.

Lemma handled_devices_ok long_bits ev st r st' woken :
  handled long_bits ev st r st' woken ->
  devices_ok st' = devices_ok st.
Proof.
  intros H. apply handled_frame in H as (_ & _ & _ & _ & _ & H).
  unfold devices_ok. rewrite !H. reflexivity.
Qed.

Lemma in_int_as_int z : in_int (as_int z) = true.
Proof.
  pose proof (as_int_range z). unfold in_int.
  apply andb_true_intro. split; [apply Z.leb_le | apply Z.ltb_lt]; lia.
Qed.

Lemma in_short_as_short z : in_short (as_short z) = true.
Proof.
  pose proof (as_short_range z). unfold in_short.
  apply andb_true_intro. split; [apply Z.leb_le | apply Z.ltb_lt]; lia.
Qed.

Lemma handled_statics_ok long_bits ev st r st' woken :
  handled long_bits ev st r st' woken ->
  statics_ok st = true -> statics_ok st' = true.
Proof.
  intros H Hok. destruct H; try exact Hok.
  unfold statics_ok in *. fields.
  rewrite !in_int_as_int, in_short_as_short.
  apply andb_true_iff in Hok as [Hok _].
  apply andb_true_iff in Hok as [Hok _].
  apply andb_true_iff in Hok as [Hok _].
  rewrite Hok. reflexivity.
Qed.

(** No interrupt touches the wait queue of a device whose [num] is not 0. *)
Lemma handled_other_queue long_bits ev st r st' woken q dq :
  handled long_bits ev st r st' woken ->
  deref st q = Some dq -> num dq <> 0 ->
  deref st' q = Some dq.
Proof.
  intros H Hq Hn. destruct H; fields; try exact Hq.
  rewrite deref_store_ne; [exact Hq |].
  intros ->. congruence.
Qed.

(** ** Runs of interrupts *)

Lemma run_cons long_bits ev evs st r st1 w1 st2 w2 :
  handle long_bits ev st = Some (r, st1, w1) ->
  run long_bits evs st1 = Some (st2, w2) ->
  run long_bits (ev :: evs) st = Some (st2, w1 ++ w2).
Proof. intros H1 H2. simpl. rewrite H1, H2. reflexivity. Qed.

Lemma devices_ok_lp st :
  devices_ok st = true -> exists d, deref st 0 = Some d /\ num d = 0.
Proof.
  unfold devices_ok. intros H. apply andb_true_iff in H as [H _].
  apply is_dev_true, H.
Qed.

Lemma devices_ok_vsync st :
  devices_ok st = true -> exists d, deref st 1 = Some d /\ num d = 1.
Proof.
  unfold devices_ok. intros H. apply andb_true_iff in H as [_ H].
  apply is_dev_true, H.
Qed.

(** An interrupt of one of the two lines always returns. *)
Lemma handle_line_returns long_bits ev st :
  devices_ok st = true ->
  ev_arg ev = Some 0%nat \/ ev_arg ev = Some 1%nat ->
  exists r st' woken,
    handle long_bits ev st = Some (r, st', woken)
    /\ handled long_bits ev st r st' woken.
Proof.
  intros Hok Harg.
  destruct (handle_returns long_bits ev st) as (r & st' & w & H).
  - destruct Harg as [-> | ->].
    + destruct (devices_ok_lp st Hok) as (d & -> & _). eauto.
    + destruct (devices_ok_vsync st Hok) as (d & -> & _). eauto.
  - exists r, st', w. split; [exact H | apply handle_handled, H].
Qed.

(** An interrupt that is not a light-pen edge with the parity line high
    produces nothing and wakes nobody. *)
Lemma handled_no_sample long_bits ev st r st' woken :
  handled long_bits ev st r st' woken ->
  devices_ok st = true ->
  ev_arg ev = Some 1%nat
  \/ (ev_arg ev = Some 0%nat /\ ev_lines ev (gpio_odd_even st) = 0) ->
  woken = [] /\ have_data st' = have_data st
  /\ xpos st' = xpos st /\ ypos st' = ypos st /\ lp_button st' = lp_button st
  /\ devtable st' = devtable st.
Proof.
  intros H Hok Hev.
  destruct H as [Hi | p d Hu Ha Hd H0 Hdeb Hpar | | |];
    fields; try (repeat split; reflexivity).
  exfalso. destruct Hev as [He | [He Hl]].
  - destruct (devices_ok_vsync st Hok) as (d1 & Hd1 & Hn1).
    rewrite He in Ha. injection Ha as <-. rewrite Hd1 in Hd.
    injection Hd as <-. lia.
  - contradiction.
Qed.

Lemma run_no_sample long_bits evs :
  forall st,
    devices_ok st = true ->
    have_data st = false ->
    Forall (fun ev => ev_arg ev = Some 1%nat
                      \/ (ev_arg ev = Some 0%nat
                          /\ ev_lines ev (gpio_odd_even st) = 0)) evs ->
    exists st', run long_bits evs st = Some (st', []) /\ have_data st' = false.
Proof.
  induction evs as [| ev evs IH]; intros st Hok Hh Hall.
  - exists st. split; [reflexivity | exact Hh].
  - apply Forall_cons_1 in Hall as [Hev Hall].
    destruct (handle_line_returns long_bits ev st Hok) as (r & st1 & w & H1 & Hs).
    { destruct Hev as [-> | [-> _]]; auto. }
    destruct (handled_no_sample _ _ _ _ _ _ Hs Hok Hev) as (-> & Hh1 & _).
    pose proof (handled_devices_ok _ _ _ _ _ _ Hs) as Hok1.
    destruct (handled_frame _ _ _ _ _ _ Hs) as (_ & Hoe & _).
    destruct (IH st1) as (st2 & H2 & Hh2).
    + rewrite Hok1. exact Hok.
    + rewrite Hh1. exact Hh.
    + rewrite Hoe. exact Hall.
    + exists st2. split; [| exact Hh2].
      apply (run_cons _ _ _ _ _ _ _ _ _ H1 H2).
Qed.

Lemma usecs_of_range long_bits timestamp :
  0 < long_bits ->
  - 2 ^ (long_bits - 1) <= usecs_of long_bits timestamp < 2 ^ (long_bits - 1).
Proof. intros H. apply wrap_range, H. Qed.

(** C1, amended.  Until a light-pen interrupt finds the parity line high no
    sample is produced and nobody is woken: VSYNC interrupts produce
    nothing.  The handler has no guard for the time before the first VSYNC
    interrupt: with [lastlp] and [lastvsync] still zero, a light-pen
    interrupt later than 128 microseconds with the parity line high produces
    a sample, its offset measured from time zero. *)
Theorem no_sample_without_lp_edge long_bits :
  32 <= long_bits ->
  (forall evs st,
      devices_ok st = true ->
      have_data st = false ->
      Forall (fun ev => ev_arg ev = Some 1%nat
                        \/ (ev_arg ev = Some 0%nat
                            /\ ev_lines ev (gpio_odd_even st) = 0)) evs ->
      exists st', run long_bits evs st = Some (st', [])
                  /\ have_data st' = false)
  /\ (forall timestamp lv st,
         devices_ok st = true ->
         module_unload st = false ->
         lastlp st = 0 ->
         lastvsync st = 0 ->
         128 < usecs_of long_bits timestamp ->
         lv (gpio_odd_even st) <> 0 ->
         exists st' woken,
           gpio_ts_handler long_bits timestamp lv (Some 0%nat) st
           = Some (IRQ_HANDLED, st', woken)
           /\ have_data st' = true
           /\ usecoffset st' = usecs_of long_bits timestamp).
Proof.
  intros Hb. split.
  - intros evs st. apply run_no_sample.
  - intros timestamp lv st Hok Hu Hlp Hvs Hdeb Hpar.
    destruct (devices_ok_lp st Hok) as (d & Hd & Hn).
    pose proof (usecs_of_range long_bits timestamp ltac:(lia)) as Hr.
    assert (Hw : as_long long_bits (usecs_of long_bits timestamp - 0)
                 = usecs_of long_bits timestamp).
    { rewrite Z.sub_0_r. apply wrap_id; [lia | exact Hr]. }
    eexists _, _. split.
    + apply (handler_lp_qualifying long_bits timestamp lv 0%nat d st);
        try assumption.
      rewrite Hlp, Hw. exact Hdeb.
    + fields. rewrite Hvs, Hw. split; reflexivity.
Qed.

(** ** Debounce and parity *)

(** Interrupts whose times lie between [lo] and [hi] keep [lastlp] between
    [lo] and [hi]. *)
Lemma run_lastlp_between long_bits lo hi mid :
  forall st,
    devices_ok st = true ->
    lo <= lastlp st <= hi ->
    Forall (fun ev => (ev_arg ev = Some 0%nat \/ ev_arg ev = Some 1%nat)
                      /\ lo <= usecs_of long_bits (ev_time ev) <= hi) mid ->
    exists st' woken,
      run long_bits mid st = Some (st', woken)
      /\ devices_ok st' = true
      /\ module_unload st' = module_unload st
      /\ lo <= lastlp st' <= hi.
Proof.
  induction mid as [| ev mid IH]; intros st Hok Hlp Hall.
  - exists st, []. repeat split; (reflexivity || assumption || lia).
  - apply Forall_cons_1 in Hall as [[Harg Ht] Hall].
    destruct (handle_line_returns long_bits ev st Hok Harg)
      as (r & st1 & w & H1 & Hs).
    pose proof (handled_devices_ok _ _ _ _ _ _ Hs) as Hok1.
    destruct (handled_frame _ _ _ _ _ _ Hs) as (Hu1 & _).
    assert (Hlp1 : lo <= lastlp st1 <= hi).
    { destruct Hs; fields; lia. }
    destruct (IH st1) as (st2 & w2 & H2 & Hok2 & Hu2 & Hlp2);
      [congruence | exact Hlp1 | exact Hall |].
    exists st2, (w ++ w2). repeat split; try lia; try congruence.
    apply (run_cons _ _ _ _ _ _ _ _ _ H1 H2).
Qed.

(** C3.  A light-pen interrupt taken while the parity line reads 0 is
    discarded: no sample, nobody woken, readiness as before (the handler
    only records the parity it has read).  The same holds for a light-pen
    interrupt at most 128 microseconds after the previous qualifying one,
    whatever interrupts of the two lines came in between. *)
Theorem lp_edge_discarded long_bits :
  32 <= long_bits ->
  (forall ev st,
      devices_ok st = true ->
      module_unload st = false ->
      ev_arg ev = Some 0%nat ->
      ev_lines ev (gpio_odd_even st) = 0 ->
      exists st',
        handle long_bits ev st = Some (IRQ_HANDLED, st', [])
        /\ st' = set_oddeven 0 st
        /\ have_data st' = have_data st
        /\ (xpos st', ypos st', lp_button st') = (xpos st, ypos st, lp_button st)
        /\ devtable st' = devtable st)
  /\ (forall e1 mid e2 st,
         devices_ok st = true ->
         module_unload st = false ->
         ev_arg e1 = Some 0%nat ->
         128 < as_long long_bits (usecs_of long_bits (ev_time e1) - lastlp st) ->
         ev_lines e1 (gpio_odd_even st) <> 0 ->
         Forall (fun ev =>
                   (ev_arg ev = Some 0%nat \/ ev_arg ev = Some 1%nat)
                   /\ usecs_of long_bits (ev_time e1)
                      <= usecs_of long_bits (ev_time ev)
                      <= usecs_of long_bits (ev_time e2)) mid ->
         ev_arg e2 = Some 0%nat ->
         usecs_of long_bits (ev_time e1) <= usecs_of long_bits (ev_time e2)
         <= usecs_of long_bits (ev_time e1) + 128 ->
         exists st1 w1 st2 w2 st3,
           handle long_bits e1 st = Some (IRQ_HANDLED, st1, w1)
           /\ have_data st1 = true
           /\ run long_bits mid st1 = Some (st2, w2)
           /\ handle long_bits e2 st2 = Some (IRQ_HANDLED, st3, [])
           /\ st3 = set_oddeven (ev_lines e2 (gpio_odd_even st2)) st2
           /\ have_data st3 = have_data st2
           /\ (xpos st3, ypos st3, lp_button st3)
              = (xpos st2, ypos st2, lp_button st2)
           /\ devtable st3 = devtable st2).
Proof.
  intros Hb. split.
  - intros ev st Hok Hu Harg Hpar.
    destruct (devices_ok_lp st Hok) as (d & Hd & Hn).
    exists (set_oddeven 0 st). repeat split.
    unfold handle. rewrite Harg.
    rewrite (handler_lp_discarding long_bits _ _ 0%nat d) by auto.
    rewrite Hpar. reflexivity.
  - intros e1 mid e2 st Hok Hu Ha1 Hdeb Hpar Hmid Ha2 Ht.
    destruct (devices_ok_lp st Hok) as (d & Hd & Hn).
    set (t1 := usecs_of long_bits (ev_time e1)) in *.
    set (t2 := usecs_of long_bits (ev_time e2)) in *.
    set (st1 := store 0 (set_waitqueue [] d)
                  (lp_sampled long_bits (ev_time e1) (ev_lines e1) st)).
    assert (H1 : handle long_bits e1 st = Some (IRQ_HANDLED, st1, waitqueue d)).
    { unfold handle. rewrite Ha1. apply handler_lp_qualifying; assumption. }
    pose proof (handle_handled _ _ _ _ _ _ H1) as Hs1.
    pose proof (handled_devices_ok _ _ _ _ _ _ Hs1) as Hok1.
    destruct (handled_frame _ _ _ _ _ _ Hs1) as (Hu1 & _).
    destruct (run_lastlp_between long_bits t1 t2 mid st1)
      as (st2 & w2 & H2 & Hok2 & Hu2 & Hlp2).
    { congruence. }
    { subst st1. fields. fold t1. lia. }
    { exact Hmid. }
    destruct (devices_ok_lp st2 Hok2) as (d2 & Hd2 & Hn2).
    assert (Hw : as_long long_bits (t2 - lastlp st2) = t2 - lastlp st2).
    { apply wrap_id; [lia |].
      assert (2 ^ 31 <= 2 ^ (long_bits - 1))
        by (apply Z.pow_le_mono_r; lia).
      lia. }
    exists st1, (waitqueue d), st2, w2,
      (set_oddeven (ev_lines e2 (gpio_odd_even st2)) st2).
    repeat split; try assumption.
    unfold handle. rewrite Ha2.
    apply (handler_lp_discarding long_bits _ _ 0%nat d2); try assumption.
    + congruence.
    + left. fold t2. rewrite Hw. lia.
Qed.

(** ** Formatting *)

Lemma digit_cases (d : Z) :
  0 <= d < 10 ->
  is_digit (digit d) = true /\ Z.of_nat (nat_of_ascii (digit d)) - 48 = d.
Proof.
  intros Hd.
  assert (H : d = 0 \/ d = 1 \/ d = 2 \/ d = 3 \/ d = 4 \/ d = 5 \/ d = 6
              \/ d = 7 \/ d = 8 \/ d = 9) by lia.
  repeat (destruct H as [-> | H]; [split; reflexivity |]).
  subst d. split; reflexivity.
Qed.

Lemma digits_value_app s1 s2 v :
  digits_value (s1 ++ s2) v = digits_value s2 (digits_value s1 v).
Proof. unfold digits_value. apply fold_left_app. Qed.

(** [utoa] pushes the decimal digits of [n], most significant first. *)
Lemma utoa_digits fuel :
  forall n acc,
    (0 < fuel)%nat ->
    0 <= n < 10 ^ Z.of_nat fuel ->
    exists ds,
      utoa fuel n acc = ds ++ acc
      /\ digits_value ds 0 = n
      /\ Forall (fun c => is_digit c = true) ds
      /\ (0 < length ds <= fuel)%nat.
Proof.
  induction fuel as [| fuel IH]; intros n acc Hf Hn.
  - lia.
  - cbn [utoa].
    pose proof (Z.mod_pos_bound n 10 ltac:(lia)) as Hm.
    destruct (digit_cases (n mod 10) Hm) as [Hdig Hval].
    destruct (Z.eqb_spec (n / 10) 0) as [Hq | Hq].
    + exists [digit (n mod 10)]. repeat split.
      * unfold digits_value. simpl fold_left. rewrite Hval.
        pose proof (Z.div_mod n 10 ltac:(lia)). lia.
      * constructor; [exact Hdig | constructor].
      * simpl. lia.
      * simpl. lia.
    + assert (Hn' : 0 <= n / 10 < 10 ^ Z.of_nat fuel).
      { split; [apply Z.div_pos; lia |].
        apply Z.div_lt_upper_bound; [lia |].
        rewrite Nat2Z.inj_succ, Z.pow_succ_r in Hn by lia. lia. }
      assert (Hf' : (0 < fuel)%nat).
      { destruct fuel; [simpl in Hn'; lia | lia]. }
      destruct (IH (n / 10) (digit (n mod 10) :: acc) Hf' Hn')
        as (ds & Heq & Hv & Hall & Hlen).
      exists (ds ++ [digit (n mod 10)]). repeat split.
      * rewrite Heq, <- app_assoc. reflexivity.
      * rewrite digits_value_app, Hv. unfold digits_value. simpl fold_left.
        rewrite Hval. pose proof (Z.div_mod n 10 ltac:(lia)). lia.
      * apply Forall_app. split; [exact Hall |].
        constructor; [exact Hdig | constructor].
      * rewrite length_app. simpl. lia.
      * rewrite length_app. simpl. lia.
Qed.

Lemma in_int_bounds z : in_int z = true -> - 2 ^ 31 <= z < 2 ^ 31.
Proof.
  unfold in_int. intros H. apply andb_true_iff in H as [H1 H2].
  apply Z.leb_le in H1. apply Z.ltb_lt in H2. lia.
Qed.

Lemma in_short_bounds z : in_short z = true -> - 2 ^ 15 <= z < 2 ^ 15.
Proof.
  unfold in_short. intros H. apply andb_true_iff in H as [H1 H2].
  apply Z.leb_le in H1. apply Z.ltb_lt in H2. lia.
Qed.

Lemma is_digit_not_minus c : is_digit c = true -> Ascii.eqb c minus = false.
Proof.
  intros H. apply Ascii.eqb_neq. intros ->. discriminate H.
Qed.

(** The text of [%i]: at most eleven characters, each a digit or a leading
    minus sign, none of them a comma, a newline or NUL, and the decimal
    notation of the argument. *)
Lemma fmt_i_spec z :
  - 2 ^ 31 <= z < 2 ^ 31 ->
  (0 < length (fmt_i z) <= 11)%nat
  /\ Forall (fun c => c <> comma /\ c <> newline /\ c <> NUL) (fmt_i z)
  /\ atoi (fmt_i z) = z.
Proof.
  intros Hz. unfold fmt_i.
  assert (Hsep : forall c, is_digit c = true ->
                           c <> comma /\ c <> newline /\ c <> NUL).
  { intros c Hc. repeat split; intros ->; discriminate Hc. }
  destruct (Z.ltb_spec z 0) as [Hneg | Hpos].
  - destruct (utoa_digits 10 (- z) []) as (ds & Heq & Hv & Hall & Hlen).
    { lia. }
    { change (10 ^ Z.of_nat 10) with 10000000000. lia. }
    rewrite Heq, app_nil_r. repeat split.
    + simpl. lia.
    + simpl. lia.
    + constructor.
      * repeat split; discriminate.
      * eapply Forall_impl; [exact Hall | exact Hsep].
    + cbn [atoi]. rewrite Ascii.eqb_refl, Hv. lia.
  - destruct (utoa_digits 10 z []) as (ds & Heq & Hv & Hall & Hlen).
    { lia. }
    { change (10 ^ Z.of_nat 10) with 10000000000. lia. }
    rewrite Heq, app_nil_r. repeat split.
    + lia.
    + lia.
    + eapply Forall_impl; [exact Hall | exact Hsep].
    + destruct ds as [| c ds]; [simpl in Hlen; lia |].
      cbn [atoi]. apply Forall_cons_1 in Hall as [Hc _].
      rewrite (is_digit_not_minus c Hc). exact Hv.
Qed.

Lemma strlen_text text rest :
  Forall (fun c => c <> NUL) text ->
  strlen (text ++ NUL :: rest) = length text.
Proof.
  induction text as [| c text IH]; intros H.
  - reflexivity.
  - apply Forall_cons_1 in H as [Hc H]. cbn [strlen app length].
    apply Ascii.eqb_neq in Hc. rewrite Hc, IH by exact H. reflexivity.
Qed.

Lemma statics_ok_fields st :
  statics_ok st = true ->
  length (message st) = 256%nat
  /\ - 2 ^ 31 <= xpos st < 2 ^ 31
  /\ - 2 ^ 31 <= ypos st < 2 ^ 31
  /\ - 2 ^ 15 <= lp_button st < 2 ^ 15.
Proof.
  unfold statics_ok. intros H.
  apply andb_true_iff in H as [H Hb].
  apply andb_true_iff in H as [H Hy].
  apply andb_true_iff in H as [Hm Hx].
  apply Nat.eqb_eq in Hm.
  apply in_int_bounds in Hx, Hy. apply in_short_bounds in Hb. auto.
Qed.

(** The record is 6 to 36 characters long and holds no NUL. *)
Lemma fmt_record_spec x y b :
  - 2 ^ 31 <= x < 2 ^ 31 ->
  - 2 ^ 31 <= y < 2 ^ 31 ->
  - 2 ^ 31 <= b < 2 ^ 31 ->
  (length (fmt_record x y b) <= 36)%nat
  /\ Forall (fun c => c <> NUL) (fmt_record x y b).
Proof.
  intros Hx Hy Hb.
  destruct (fmt_i_spec x Hx) as (Lx & Fx & _).
  destruct (fmt_i_spec y Hy) as (Ly & Fy & _).
  destruct (fmt_i_spec b Hb) as (Lb & Fb & _).
  assert (Hnul : forall s, Forall (fun c => c <> comma /\ c <> newline /\ c <> NUL) s
                           -> Forall (fun c => c <> NUL) s).
  { intros s Hs. eapply Forall_impl; [exact Hs |]. intros c (_ & _ & H). exact H. }
  unfold fmt_record. split.
  - rewrite !length_app. cbn [length]. rewrite !length_app. cbn [length].
    rewrite !length_app. cbn [length]. lia.
  - apply Forall_app. split; [auto |]. constructor; [discriminate |].
    apply Forall_app. split; [auto |]. constructor; [discriminate |].
    apply Forall_app. split; [auto |]. constructor; [discriminate | constructor].
Qed.

(** The message buffer after the [sprintf] of [gpio_ts_read]. *)
Lemma sprintf_record st :
  statics_ok st = true ->
  let text := fmt_record (xpos st) (ypos st) (lp_button st) in
  let msg := text ++ NUL :: drop (S (length text)) (message st) in
  sprintf (message st) text = Some msg
  /\ strlen msg = length text
  /\ length msg = 256%nat.
Proof.
  intros Hok text msg.
  destruct (statics_ok_fields st Hok) as (Hm & Hx & Hy & Hb).
  destruct (fmt_record_spec (xpos st) (ypos st) (lp_button st))
    as [Hlen Hnul]; [lia | lia | lia |].
  fold text in Hlen, Hnul. repeat split.
  - unfold sprintf. rewrite Hm.
    destruct (Nat.ltb_spec (length text) 256); [reflexivity | lia].
  - apply strlen_text, Hnul.
  - unfold msg. rewrite length_app. cbn [length]. rewrite length_drop. lia.
Qed.

(** [gpio_ts_read] past the wait, the caller's buffer large enough. *)
Lemma gpio_ts_read_copy_ok writable st :
  statics_ok st = true ->
  let text := fmt_record (xpos st) (ypos st) (lp_button st) in
  (length text <= writable)%nat ->
  gpio_ts_read_copy writable st
  = Some (Returned (Z.of_nat (length text)) text,
          set_have_data false
            (set_message (text ++ NUL :: drop (S (length text)) (message st)) st)).
Proof.
  intros Hok text Hw.
  destruct (sprintf_record st Hok) as (Hs & Hl & _). fold text in Hs, Hl.
  unfold gpio_ts_read_copy. fold text. rewrite Hs. cbn [mbind option_bind].
  fields. unfold copy_to_user. rewrite Hl.
  replace (length text - writable)%nat with 0%nat by lia.
  rewrite Nat.min_l by lia. rewrite take_app_length. reflexivity.
Qed.

(** [gpio_ts_read] past the wait, the caller's buffer too small. *)
Lemma gpio_ts_read_copy_fault writable st :
  statics_ok st = true ->
  let text := fmt_record (xpos st) (ypos st) (lp_button st) in
  (writable < length text)%nat ->
  gpio_ts_read_copy writable st
  = Some (Returned (- EFAULT) (take writable text),
          set_message (text ++ NUL :: drop (S (length text)) (message st)) st).
Proof.
  intros Hok text Hw.
  destruct (sprintf_record st Hok) as (Hs & Hl & _). fold text in Hs, Hl.
  unfold gpio_ts_read_copy. fold text. rewrite Hs. cbn [mbind option_bind].
  fields. unfold copy_to_user. rewrite Hl.
  rewrite Nat.min_r by lia. rewrite take_app_le by lia.
  destruct (Z.eqb_spec (Z.of_nat (length text - writable)) 0) as [H0 | H0];
    [lia | reflexivity].
Qed.

(** ** Reading *)

Lemma gpio_ts_read_ready task filp writable len st :
  have_data st = true ->
  gpio_ts_read task filp writable len st = gpio_ts_read_copy writable st.
Proof. intros H. unfold gpio_ts_read. rewrite H. reflexivity. Qed.

Lemma gpio_ts_read_nonblock task filp writable len st :
  have_data st = false ->
  Z.land (f_flags filp) O_NONBLOCK <> 0 ->
  gpio_ts_read task filp writable len st = Some (Returned (- EAGAIN) [], st).
Proof.
  intros H Hf. unfold gpio_ts_read. rewrite H. cbn [negb].
  apply Z.eqb_neq in Hf. rewrite Hf. reflexivity.
Qed.

Lemma statics_ok_after_sprintf st :
  statics_ok st = true ->
  let text := fmt_record (xpos st) (ypos st) (lp_button st) in
  statics_ok (set_message (text ++ NUL :: drop (S (length text)) (message st)) st)
  = true.
Proof.
  intros Hok text.
  destruct (sprintf_record st Hok) as (_ & _ & Hlen). fold text in Hlen.
  unfold statics_ok in *. fields. rewrite Hlen.
  apply andb_true_iff in Hok as [Hok Hb].
  apply andb_true_iff in Hok as [Hok Hy].
  apply andb_true_iff in Hok as [_ Hx].
  rewrite Hx, Hy, Hb. reflexivity.
Qed.

(** What a read past the wait returns when it returns a byte count. *)
Lemma gpio_ts_read_copy_success writable st r copied st' :
  statics_ok st = true ->
  gpio_ts_read_copy writable st = Some (Returned r copied, st') ->
  0 <= r ->
  r = Z.of_nat (length (fmt_record (xpos st) (ypos st) (lp_button st)))
  /\ copied = fmt_record (xpos st) (ypos st) (lp_button st)
  /\ have_data st' = false.
Proof.
  intros Hok H Hr.
  destruct (Nat.le_gt_cases
              (length (fmt_record (xpos st) (ypos st) (lp_button st))) writable)
    as [Hw | Hw].
  - rewrite gpio_ts_read_copy_ok in H by assumption.
    injection H as <- <- <-. repeat split; reflexivity.
  - rewrite gpio_ts_read_copy_fault in H by assumption.
    injection H as <- _ _. unfold EFAULT in Hr. lia.
Qed.

Lemma gpio_ts_read_returned task filp writable len st r copied st' :
  gpio_ts_read task filp writable len st = Some (Returned r copied, st')
  \/ gpio_ts_read_resume task (private_data filp) writable st
     = Some (Returned r copied, st') ->
  (have_data st = true
   /\ gpio_ts_read_copy writable st = Some (Returned r copied, st'))
  \/ r = - EAGAIN.
Proof.
  unfold gpio_ts_read, gpio_ts_read_resume, wait_event_have_data.
  destruct (have_data st) eqn:Hh; cbn [negb].
  - intros [H | H]; left; (split; [reflexivity | exact H]).
  - destruct (private_data filp) as [p |]; cbn [mbind option_bind].
    + destruct (enqueue p task st); cbn [mbind option_bind];
        destruct (negb _); intros [H | H]; try discriminate;
        injection H as <- _ _; right; reflexivity.
    + destruct (negb _); intros [H | H]; try discriminate;
        injection H as <- _ _; right; reflexivity.
Qed.

(** C5.  Every read that returns a byte count, at once or after having
    slept, has found a sample pending, returns the length of the text
    ["<x>,<y>,<button>\n"] and has stored exactly that text: three decimal
    fields without a comma, a newline or a NUL inside, two commas, a final
    newline, and no terminating NUL.  Such a read happens whenever a sample
    is pending and the buffer is large enough.  With VSYNC at 0 and a
    light-pen edge at 1000 microseconds, parity and button high, the text is
    ["40,15,1\n"], eight characters. *)
Theorem read_returns_record :
  (forall task filp writable len st r copied st',
      statics_ok st = true ->
      gpio_ts_read task filp writable len st = Some (Returned r copied, st')
      \/ gpio_ts_read_resume task (private_data filp) writable st
         = Some (Returned r copied, st') ->
      0 <= r ->
      let text := fmt_record (xpos st) (ypos st) (lp_button st) in
      have_data st = true
      /\ r = Z.of_nat (length text)
      /\ copied = text
      /\ have_data st' = false
      /\ text = fmt_i (xpos st) ++ comma :: fmt_i (ypos st) ++ comma
                  :: fmt_i (lp_button st) ++ [newline]
      /\ Forall (fun z =>
                   atoi (fmt_i z) = z
                   /\ Forall (fun c => c <> comma /\ c <> newline /\ c <> NUL)
                        (fmt_i z))
           [xpos st; ypos st; lp_button st]
      /\ Forall (fun c => c <> NUL) text)
  /\ (forall task filp writable len st,
         have_data st = true ->
         statics_ok st = true ->
         let text := fmt_record (xpos st) (ypos st) (lp_button st) in
         (length text <= writable)%nat ->
         exists st',
           gpio_ts_read task filp writable len st
           = Some (Returned (Z.of_nat (length text)) text, st'))
  /\ (forall long_bits,
         long_bits = 32 \/ long_bits = 64 ->
         exists st st',
           run long_bits [vsync_edge 0; lp_edge 1000 1 1] loaded = Some (st, [])
           /\ (xpos st, ypos st, lp_button st) = (40, 15, 1)
           /\ gpio_ts_read 1 {| f_flags := 0; private_data := Some 0%nat |}
                4096 4096 st
              = Some (Returned 8 (list_ascii_of_string "40,15,1" ++ [newline]),
                      st')).
Proof.
  split; [| split].
  - intros task filp writable len st r copied st' Hok Hread Hr text.
    destruct (statics_ok_fields st Hok) as (Hm & Hx & Hy & Hb).
    destruct (gpio_ts_read_returned _ _ _ _ _ _ _ _ Hread) as [[Hh Hc] | ->];
      [| unfold EAGAIN in Hr; lia].
    destruct (gpio_ts_read_copy_success _ _ _ _ _ Hok Hc Hr) as (-> & -> & Hh').
    split; [exact Hh |]. split; [reflexivity |]. split; [reflexivity |].
    split; [exact Hh' |]. split; [reflexivity |]. split.
    + repeat (apply Forall_cons; split; [split; apply fmt_i_spec; lia |]).
      apply Forall_nil_2.
    + apply fmt_record_spec; lia.
  - intros task filp writable len st Hh Hok text Hw.
    eexists. rewrite gpio_ts_read_ready by exact Hh.
    apply gpio_ts_read_copy_ok; assumption.
  - intros long_bits [-> | ->]; eexists _, _;
      (split; [vm_compute; reflexivity |]); vm_compute; split; reflexivity.
Qed.

(** C10.  When the copy to the caller's buffer comes back short, the read
    returns [-EFAULT] and [have_data] stays set with the sample in place: a
    later read with a good buffer returns that sample. *)
Theorem read_fault_keeps_sample task filp writable len st :
  have_data st = true ->
  statics_ok st = true ->
  (writable < length (fmt_record (xpos st) (ypos st) (lp_button st)))%nat ->
  exists st1,
    gpio_ts_read task filp writable len st
    = Some (Returned (- EFAULT)
              (take writable (fmt_record (xpos st) (ypos st) (lp_button st))),
            st1)
    /\ have_data st1 = true
    /\ (xpos st1, ypos st1, lp_button st1) = (xpos st, ypos st, lp_button st)
    /\ forall task' filp' writable' len',
        (length (fmt_record (xpos st) (ypos st) (lp_button st)) <= writable')%nat ->
        exists st2,
          gpio_ts_read task' filp' writable' len' st1
          = Some (Returned
                    (Z.of_nat (length (fmt_record (xpos st) (ypos st) (lp_button st))))
                    (fmt_record (xpos st) (ypos st) (lp_button st)),
                  st2)
          /\ have_data st2 = false.
Proof.
  intros Hh Hok Hw.
  eexists. split; [| split; [| split]].
  - rewrite gpio_ts_read_ready by exact Hh.
    apply gpio_ts_read_copy_fault; assumption.
  - exact Hh.
  - reflexivity.
  - intros task' filp' writable' len' Hw'.
    eexists. split.
    + rewrite gpio_ts_read_ready by exact Hh.
      apply (gpio_ts_read_copy_ok writable' (set_message _ st)).
      * apply statics_ok_after_sprintf, Hok.
      * exact Hw'.
    + reflexivity.
Qed.

(** ** The single slot *)

(** C4.  Two light-pen interrupts that both qualify, no read in between:
    the slot holds the sample of the second (what [e2] measures against the
    VSYNC time, the first edge leaving no trace in it); the next read
    returns that sample and clears [have_data], and a non-blocking read
    after it returns [-EAGAIN].  There is one slot: one read empties it. *)
Theorem last_write_wins long_bits e1 e2 st :
  devices_ok st = true ->
  module_unload st = false ->
  statics_ok st = true ->
  ev_arg e1 = Some 0%nat ->
  ev_arg e2 = Some 0%nat ->
  128 < as_long long_bits (usecs_of long_bits (ev_time e1) - lastlp st) ->
  ev_lines e1 (gpio_odd_even st) <> 0 ->
  128 < as_long long_bits
          (usecs_of long_bits (ev_time e2) - usecs_of long_bits (ev_time e1)) ->
  ev_lines e2 (gpio_odd_even st) <> 0 ->
  let second := lp_sampled long_bits (ev_time e2) (ev_lines e2) st in
  let text := fmt_record (xpos second) (ypos second) (lp_button second) in
  exists st1 w1 st2 w2,
    handle long_bits e1 st = Some (IRQ_HANDLED, st1, w1)
    /\ have_data st1 = true
    /\ handle long_bits e2 st1 = Some (IRQ_HANDLED, st2, w2)
    /\ have_data st2 = true
    /\ (xpos st2, ypos st2, lp_button st2)
       = (xpos second, ypos second, lp_button second)
    /\ forall task filp writable len,
        (length text <= writable)%nat ->
        exists st3,
          gpio_ts_read task filp writable len st2
          = Some (Returned (Z.of_nat (length text)) text, st3)
          /\ have_data st3 = false
          /\ forall task' filp' writable' len',
              Z.land (f_flags filp') O_NONBLOCK <> 0 ->
              gpio_ts_read task' filp' writable' len' st3
              = Some (Returned (- EAGAIN) [], st3).
Proof.
  intros Hok Hu Hst Ha1 Ha2 Hdeb1 Hpar1 Hdeb2 Hpar2 second text.
  destruct (devices_ok_lp st Hok) as (d & Hd & Hn).
  set (st1 := store 0 (set_waitqueue [] d)
                (lp_sampled long_bits (ev_time e1) (ev_lines e1) st)).
  assert (H1 : handle long_bits e1 st = Some (IRQ_HANDLED, st1, waitqueue d)).
  { unfold handle. rewrite Ha1. apply handler_lp_qualifying; assumption. }
  pose proof (handle_handled _ _ _ _ _ _ H1) as Hs1.
  pose proof (handled_devices_ok _ _ _ _ _ _ Hs1) as Hok1.
  rewrite Hok in Hok1.
  destruct (devices_ok_lp st1 Hok1) as (d1 & Hd1 & Hn1).
  set (st2 := store 0 (set_waitqueue [] d1)
                (lp_sampled long_bits (ev_time e2) (ev_lines e2) st1)).
  assert (H2 : handle long_bits e2 st1 = Some (IRQ_HANDLED, st2, waitqueue d1)).
  { unfold handle. rewrite Ha2.
    apply handler_lp_qualifying;
      first [assumption | exact Hu | exact Hdeb2 | exact Hpar2]. }
  pose proof (handle_handled _ _ _ _ _ _ H2) as Hs2.
  pose proof (handled_statics_ok _ _ _ _ _ _ Hs1 Hst) as Hst1.
  pose proof (handled_statics_ok _ _ _ _ _ _ Hs2 Hst1) as Hst2.
  exists st1, (waitqueue d), st2, (waitqueue d1).
  split; [exact H1 |]. split; [reflexivity |].
  split; [exact H2 |]. split; [reflexivity |].
  split; [subst st2 st1 second; fields; reflexivity |].
  intros task filp writable len Hw.
  eexists. split; [| split].
  - rewrite gpio_ts_read_ready by reflexivity.
    assert (Ht : text = fmt_record (xpos st2) (ypos st2) (lp_button st2)).
    { subst text st2 st1 second; fields; reflexivity. }
    rewrite Ht. apply (gpio_ts_read_copy_ok writable st2 Hst2).
    rewrite <- Ht. exact Hw.
  - reflexivity.
  - intros task' filp' writable' len' Hnb.
    apply gpio_ts_read_nonblock; [reflexivity | exact Hnb].
Qed.

(** ** Exclusive open *)

(** C6.  [open] on a device whose open count is 1 fails with [-EBUSY] and
    changes nothing; on a device whose open count is 0 it returns 0 and
    sets the count to 1; [release] then sets the count back to 0, after
    which [open] succeeds again. *)
Theorem open_is_exclusive minor filp st d :
  deref st minor = Some d ->
  (opencount d = 1 ->
   gpio_ts_open minor filp st = Some (- EBUSY, filp, st))
  /\ (opencount d = 0 ->
      exists filp1 st1 d1,
        gpio_ts_open minor filp st = Some (0, filp1, st1)
        /\ private_data filp1 = Some minor
        /\ deref st1 minor = Some d1 /\ opencount d1 = 1
        /\ exists filp2 st2 d2,
            gpio_ts_release minor filp1 st1 = Some (0, filp2, st2)
            /\ deref st2 minor = Some d2 /\ opencount d2 = 0
            /\ forall filp', exists filp3 st3 d3,
                gpio_ts_open minor filp' st2 = Some (0, filp3, st3)
                /\ deref st3 minor = Some d3 /\ opencount d3 = 1).
Proof.
  intros Hd. split.
  - intros Hc. unfold gpio_ts_open. rewrite Hd. cbn [mbind option_bind].
    rewrite Hc. reflexivity.
  - intros Hc.
    assert (Hopen : forall filp0 st0 d0,
               deref st0 minor = Some d0 -> opencount d0 = 0 ->
               gpio_ts_open minor filp0 st0
               = Some (0, set_private_data (Some minor) filp0,
                       store minor (set_opencount 1 d0) st0)).
    { intros filp0 st0 d0 Hd0 Hc0. unfold gpio_ts_open.
      rewrite Hd0. cbn [mbind option_bind]. rewrite Hc0. reflexivity. }
    pose proof (deref_store_eq st minor d (set_opencount 1 d) Hd) as Hd1.
    set (st1 := store minor (set_opencount 1 d) st) in *.
    pose proof (deref_store_eq st1 minor _
                  (set_opencount 0 (set_opencount 1 d)) Hd1) as Hd2.
    set (st2 := store minor (set_opencount 0 (set_opencount 1 d)) st1) in *.
    eexists _, st1, _. split; [apply Hopen; assumption |].
    split; [reflexivity |]. split; [exact Hd1 |]. split; [reflexivity |].
    eexists _, st2, _. split.
    { unfold gpio_ts_release. rewrite Hd1. reflexivity. }
    split; [exact Hd2 |]. split; [reflexivity |].
    intros filp'. eexists _, _, _. split; [apply (Hopen _ _ _ Hd2); reflexivity |].
    split; [eapply deref_store_eq, Hd2 | reflexivity].
Qed.

(** ** The two endpoints share the slot *)

Lemma run_keeps_vsync_queue long_bits evs :
  forall st d1,
    devices_ok st = true ->
    deref st 1 = Some d1 ->
    Forall (fun ev => ev_arg ev = Some 0%nat \/ ev_arg ev = Some 1%nat) evs ->
    exists st' woken,
      run long_bits evs st = Some (st', woken) /\ deref st' 1 = Some d1.
Proof.
  induction evs as [| ev evs IH]; intros st d1 Hok Hd1 Hall.
  - exists st, []. split; [reflexivity | exact Hd1].
  - apply Forall_cons_1 in Hall as [Harg Hall].
    destruct (handle_line_returns long_bits ev st Hok Harg)
      as (r & st1 & w & H1 & Hs).
    pose proof (handled_devices_ok _ _ _ _ _ _ Hs) as Hok1.
    destruct (devices_ok_vsync st Hok) as (d1' & Hd1' & Hn1).
    assert (d1' = d1) as -> by congruence.
    pose proof (handled_other_queue _ _ _ _ _ _ 1%nat d1 Hs Hd1 ltac:(lia)) as Hq.
    destruct (IH st1 d1) as (st2 & w2 & H2 & Hd2);
      [congruence | exact Hq | exact Hall |].
    exists st2, (w ++ w2). split; [| exact Hd2].
    apply (run_cons _ _ _ _ _ _ _ _ _ H1 H2).
Qed.

Lemma enqueue_Some st p d task :
  deref st p = Some d ->
  enqueue p task st = Some (store p (set_waitqueue (waitqueue d ++ [task]) d) st).
Proof. intros H. unfold enqueue. rewrite H. reflexivity. Qed.

(** C7, amended.  The driver has one slot and one [have_data] flag for both
    endpoints.  No interrupt of either line touches the wait queue of the
    VSYNC device (a reader asleep there is not woken) and a VSYNC interrupt
    sets no flag; but while a sample is pending,
    [poll] on the VSYNC endpoint reports [POLLPRI | POLLIN] and [read] on
    the VSYNC endpoint returns the sample.  Without a sample pending, [poll]
    there reports 0 and a blocking [read] there goes to sleep on the VSYNC
    device's queue. *)
Theorem vsync_endpoint_shares_slot long_bits :
  (forall evs st d1,
      devices_ok st = true ->
      deref st 1 = Some d1 ->
      Forall (fun ev => ev_arg ev = Some 0%nat \/ ev_arg ev = Some 1%nat) evs ->
      exists st' woken,
        run long_bits evs st = Some (st', woken) /\ deref st' 1 = Some d1)
  /\ (forall ev st,
         devices_ok st = true ->
         ev_arg ev = Some 1%nat ->
         exists r st',
           handle long_bits ev st = Some (r, st', [])
           /\ have_data st' = have_data st)
  /\ (forall task filp st,
         private_data filp = Some 1%nat ->
         have_data st = true ->
         gpio_ts_poll task filp st = Some (Z.lor POLLPRI POLLIN, st))
  /\ (forall task filp writable len st,
         private_data filp = Some 1%nat ->
         have_data st = true ->
         statics_ok st = true ->
         (length (fmt_record (xpos st) (ypos st) (lp_button st)) <= writable)%nat ->
         exists st',
           gpio_ts_read task filp writable len st
           = Some (Returned
                     (Z.of_nat (length (fmt_record (xpos st) (ypos st) (lp_button st))))
                     (fmt_record (xpos st) (ypos st) (lp_button st)),
                   st')
           /\ have_data st' = false)
  /\ (forall task filp writable len st d1,
         private_data filp = Some 1%nat ->
         deref st 1 = Some d1 ->
         have_data st = false ->
         gpio_ts_poll task filp st
         = Some (0, store 1 (set_waitqueue (waitqueue d1 ++ [task]) d1) st)
         /\ (Z.land (f_flags filp) O_NONBLOCK = 0 ->
             gpio_ts_read task filp writable len st
             = Some (Asleep,
                     store 1 (set_waitqueue (waitqueue d1 ++ [task]) d1) st))).
Proof.
  split; [| split; [| split; [| split]]].
  - intros evs st d1. apply run_keeps_vsync_queue.
  - intros ev st Hok Harg.
    destruct (handle_line_returns long_bits ev st Hok (or_intror Harg))
      as (r & st' & w & H & Hs).
    destruct (handled_no_sample _ _ _ _ _ _ Hs Hok (or_introl Harg))
      as (-> & Hh & _).
    exists r, st'. split; [exact H | exact Hh].
  - intros task filp st Hp Hh. unfold gpio_ts_poll. rewrite Hh. reflexivity.
  - intros task filp writable len st Hp Hh Hok Hw.
    eexists. split.
    + rewrite gpio_ts_read_ready by exact Hh.
      apply gpio_ts_read_copy_ok; assumption.
    + reflexivity.
  - intros task filp writable len st d1 Hp Hd Hh. split.
    + unfold gpio_ts_poll. rewrite Hh, Hp. cbn [mbind option_bind].
      rewrite (enqueue_Some st 1 d1 task Hd). reflexivity.
    + intros Hf. unfold gpio_ts_read, wait_event_have_data.
      rewrite Hh, Hp, Hf. cbn [negb Z.eqb mbind option_bind].
      rewrite (enqueue_Some st 1 d1 task Hd). reflexivity.
Qed.

(** ** Closing a session *)

Lemma gpio_ts_read_copy_result writable st r copied st' :
  gpio_ts_read_copy writable st = Some (Returned r copied, st') ->
  r = - EFAULT \/ 0 <= r.
Proof.
  unfold gpio_ts_read_copy. intros H.
  destruct (sprintf _ _) as [msg |]; [| discriminate].
  cbn [mbind option_bind] in H. unfold copy_to_user in H.
  destruct (negb _); injection H as <- _ _; [left; reflexivity | right; lia].
Qed.

(** The handler sets [have_data] and never clears it. *)
Lemma handled_have_data long_bits ev st r st' woken :
  handled long_bits ev st r st' woken ->
  have_data st = true -> have_data st' = true.
Proof. intros H Hh. destruct H; fields; (reflexivity || exact Hh). Qed.

Lemma run_have_data long_bits evs :
  forall st st' woken,
    run long_bits evs st = Some (st', woken) ->
    have_data st = true -> have_data st' = true.
Proof.
  induction evs as [| ev evs IH]; intros st st' woken H Hh.
  - injection H as <- _. exact Hh.
  - cbn [run] in H.
    destruct (handle long_bits ev st) as [[[r st1] w1] |] eqn:H1; [| discriminate].
    destruct (run long_bits evs st1) as [[st2 w2] |] eqn:H2; [| discriminate].
    injection H as <- _.
    apply (IH _ _ _ H2).
    apply handle_handled in H1. exact (handled_have_data _ _ _ _ _ _ H1 Hh).
Qed.

(** An interrupt either is a qualifying light-pen interrupt, which sets
    [have_data] and wakes the queue of its device, or wakes nobody and
    leaves [have_data] and every device structure as they were. *)
Lemma handled_wakes long_bits ev st r st' woken :
  handled long_bits ev st r st' woken ->
  (woken = [] /\ have_data st' = have_data st /\ devtable st' = devtable st)
  \/ (exists p d,
         ev_arg ev = Some p /\ deref st p = Some d /\ num d = 0
         /\ 128 < as_long long_bits (usecs_of long_bits (ev_time ev) - lastlp st)
         /\ ev_lines ev (gpio_odd_even st) <> 0
         /\ woken = waitqueue d
         /\ have_data st' = true
         /\ st' = store p (set_waitqueue [] d)
                    (lp_sampled long_bits (ev_time ev) (ev_lines ev) st)).
Proof.
  intros H.
  destruct H as [Hi | p d Hu Ha Hd H0 Hdeb Hpar | | |];
    try (left; repeat split; reflexivity).
  right. exists p, d. repeat split; assumption.
Qed.

(** While [have_data] is clear after a run of interrupts, none of them has
    woken a task or touched a device structure. *)
Lemma run_quiet long_bits evs :
  forall st st' woken,
    run long_bits evs st = Some (st', woken) ->
    have_data st' = false ->
    woken = [] /\ devtable st' = devtable st.
Proof.
  induction evs as [| ev evs IH]; intros st st' woken H Hh.
  - injection H as <- <-. auto.
  - cbn [run] in H.
    destruct (handle long_bits ev st) as [[[r st1] w1] |] eqn:H1; [| discriminate].
    destruct (run long_bits evs st1) as [[st2 w2] |] eqn:H2; [| discriminate].
    injection H as <- <-.
    destruct (IH _ _ _ H2 Hh) as [-> Hdt].
    apply handle_handled in H1.
    destruct (handled_wakes _ _ _ _ _ _ H1)
      as [(-> & _ & Hd1) | (p & d & _ & _ & _ & _ & _ & _ & Hh1 & _)].
    + split; [reflexivity | congruence].
    + rewrite (run_have_data _ _ _ _ _ H2 Hh1) in Hh. discriminate.
Qed.

Lemma queued_devtable st st' p task :
  devtable st' = devtable st -> queued st p task -> queued st' p task.
Proof. unfold queued, deref. intros ->. auto. Qed.

Lemma store_queued st q d d' p task :
  deref st q = Some d ->
  (forall t, t ∈ waitqueue d -> t ∈ waitqueue d') ->
  queued st p task -> queued (store q d' st) p task.
Proof.
  intros Hd Hsub (dp & Hp & Hin).
  destruct (Nat.eq_dec q p) as [-> | Hne].
  - exists d'. split; [apply (deref_store_eq st p d), Hd |].
    apply Hsub. congruence.
  - exists dp. split; [rewrite deref_store_ne by exact Hne; exact Hp | exact Hin].
Qed.

Lemma wait_event_queued task' devinfo st ready st' p task :
  wait_event_have_data task' devinfo st = Some (ready, st') ->
  queued st p task -> queued st' p task.
Proof.
  unfold wait_event_have_data, enqueue. destruct (have_data st).
  - intros [= <- <-]. auto.
  - destruct devinfo as [q |]; [| discriminate]. cbn [mbind option_bind].
    destruct (deref st q) as [d |] eqn:Hd; [| discriminate].
    cbn [mbind option_bind]. intros [= <- <-].
    apply (store_queued st q d); [exact Hd |].
    intros t Ht. fields. apply elem_of_app. left. exact Ht.
Qed.

Lemma gpio_ts_read_copy_devtable writable st res st' :
  gpio_ts_read_copy writable st = Some (res, st') -> devtable st' = devtable st.
Proof.
  unfold gpio_ts_read_copy.
  destruct (sprintf _ _) as [msg |]; [| discriminate].
  cbn [mbind option_bind]. unfold copy_to_user.
  destruct (negb _); intros [= _ <-]; reflexivity.
Qed.

(** Every entry into the driver leaves a sleeping task on its queue, unless
    it is a qualifying light-pen interrupt on that task's device, which
    wakes it. *)
Lemma step_queued long_bits st st' p task :
  step long_bits st st' ->
  queued st p task ->
  queued st' p task
  \/ exists ev r woken d,
      handle long_bits ev st = Some (r, st', woken)
      /\ task ∈ woken
      /\ have_data st' = true
      /\ ev_arg ev = Some p /\ deref st p = Some d /\ num d = 0
      /\ 128 < as_long long_bits (usecs_of long_bits (ev_time ev) - lastlp st)
      /\ ev_lines ev (gpio_odd_even st) <> 0.
Proof.
  intros Hstep Hq.
  destruct Hstep as [ev irq r st' woken _ H | minor filp r filp' st' H
    | minor filp r filp' st' H | task' filp writable len res st' H
    | task' devinfo writable res st' H | task' filp r st' H].
  - pose proof (handle_handled _ _ _ _ _ _ H) as Hs.
    destruct (handled_wakes _ _ _ _ _ _ Hs)
      as [(_ & _ & Hdt) | (q & d & Ha & Hd & Hn & Hdeb & Hpar & Hw & Hh & Hst)].
    + left. exact (queued_devtable _ _ _ _ Hdt Hq).
    + destruct (Nat.eq_dec q p) as [-> | Hne].
      * right. exists ev, r, woken, d.
        destruct Hq as (dp & Hp & Hin).
        repeat split; try assumption.
        rewrite Hw. congruence.
      * left. destruct Hq as (dp & Hp & Hin). exists dp.
        split; [| exact Hin].
        rewrite Hst, deref_store_ne by exact Hne. exact Hp.
  - left. unfold gpio_ts_open in H.
    destruct (deref st minor) as [d |] eqn:Hd; [| discriminate].
    cbn [mbind option_bind] in H.
    destruct (0 <? opencount d); injection H as _ _ <-; [exact Hq |].
    apply (store_queued st minor d); [exact Hd | auto | exact Hq].
  - left. unfold gpio_ts_release in H.
    destruct (deref st minor) as [d |] eqn:Hd; [| discriminate].
    cbn [mbind option_bind] in H. injection H as _ _ <-.
    apply (store_queued st minor d); [exact Hd | auto | exact Hq].
  - left. unfold gpio_ts_read in H. destruct (negb (have_data st)).
    + destruct (negb _); [injection H as _ <-; exact Hq |].
      destruct (wait_event_have_data task' (private_data filp) st)
        as [[[|] st1] |] eqn:Hw; [| | discriminate].
      * apply (queued_devtable st1);
          [exact (gpio_ts_read_copy_devtable _ _ _ _ H) |].
        exact (wait_event_queued _ _ _ _ _ _ _ Hw Hq).
      * injection H as _ <-. exact (wait_event_queued _ _ _ _ _ _ _ Hw Hq).
    + apply (queued_devtable st);
        [exact (gpio_ts_read_copy_devtable _ _ _ _ H) | exact Hq].
  - left. unfold gpio_ts_read_resume in H.
    destruct (wait_event_have_data task' devinfo st)
      as [[[|] st1] |] eqn:Hw; [| | discriminate].
    + apply (queued_devtable st1);
        [exact (gpio_ts_read_copy_devtable _ _ _ _ H) |].
      exact (wait_event_queued _ _ _ _ _ _ _ Hw Hq).
    + injection H as _ <-. exact (wait_event_queued _ _ _ _ _ _ _ Hw Hq).
  - left. unfold gpio_ts_poll in H. destruct (have_data st).
    + injection H as _ <-. exact Hq.
    + destruct (private_data filp) as [q |]; [| discriminate].
      cbn [mbind option_bind] in H. unfold enqueue in H.
      destruct (deref st q) as [d |] eqn:Hd; [| discriminate].
      cbn [mbind option_bind] in H. injection H as _ <-.
      apply (store_queued st q d); [exact Hd | | exact Hq].
      intros t Ht. fields. apply elem_of_app. left. exact Ht.
Qed.

(** A read resumed with [have_data] set goes on to the copy. *)
Lemma gpio_ts_read_resume_ready task devinfo writable st :
  have_data st = true ->
  gpio_ts_read_resume task devinfo writable st = gpio_ts_read_copy writable st.
Proof.
  intros H. unfold gpio_ts_read_resume, wait_event_have_data. rewrite H.
  reflexivity.
Qed.

(** C8, amended.  The driver has no cancellation.
    - [gpio_ts_release] decrements the open count and does nothing else: it
      sets no flag, wakes nobody and leaves every wait queue as it was.
    - Every entry into the driver (interrupt, [open], [release], [read],
      [poll]) leaves a sleeping task on its wait queue, with one exception:
      a qualifying light-pen interrupt (parity line high, more than 128
      microseconds after [lastlp]) on the task's own device, which sets
      [have_data] and wakes it.
    - A run of interrupts of the two lines returns; while [have_data] is
      clear after it, nobody has been woken and every queue is as before;
      and no interrupt ever touches the queue of the VSYNC device, so a task
      asleep there is woken by none.
    - The qualifying light-pen interrupt wakes the queue of the light-pen
      device, and a read resumed after it ends as any other read: with the
      record of that sample when the buffer is large enough, with [-EFAULT]
      otherwise.
    - [gpio_ts_read] has no result for a closed session: what it returns is
      a byte count, [-EAGAIN] or [-EFAULT]. *)
Theorem release_wakes_nobody long_bits :
  (forall minor filp st d,
      deref st minor = Some d ->
      exists filp' st',
        gpio_ts_release minor filp st = Some (0, filp', st')
        /\ st' = store minor (set_opencount (as_int (opencount d - 1)) d) st
        /\ have_data st' = have_data st
        /\ module_unload st' = module_unload st
        /\ forall p, waitqueue <$> deref st' p = waitqueue <$> deref st p)
  /\ (forall st st' p task,
         step long_bits st st' ->
         queued st p task ->
         queued st' p task
         \/ exists ev r woken d,
             handle long_bits ev st = Some (r, st', woken)
             /\ task ∈ woken
             /\ have_data st' = true
             /\ ev_arg ev = Some p /\ deref st p = Some d /\ num d = 0
             /\ 128 < as_long long_bits
                        (usecs_of long_bits (ev_time ev) - lastlp st)
             /\ ev_lines ev (gpio_odd_even st) <> 0)
  /\ (forall evs st,
         devices_ok st = true ->
         Forall (fun ev => ev_arg ev = Some 0%nat \/ ev_arg ev = Some 1%nat) evs ->
         exists st' woken,
           run long_bits evs st = Some (st', woken)
           /\ (have_data st' = false ->
               woken = [] /\ devtable st' = devtable st)
           /\ deref st' 1 = deref st 1)
  /\ (forall ev st d0 task devinfo writable,
         devices_ok st = true ->
         statics_ok st = true ->
         module_unload st = false ->
         deref st 0 = Some d0 ->
         ev_arg ev = Some 0%nat ->
         128 < as_long long_bits (usecs_of long_bits (ev_time ev) - lastlp st) ->
         ev_lines ev (gpio_odd_even st) <> 0 ->
         exists st1 r copied st2,
           handle long_bits ev st = Some (IRQ_HANDLED, st1, waitqueue d0)
           /\ have_data st1 = true
           /\ gpio_ts_read_resume task devinfo writable st1
              = Some (Returned r copied, st2)
           /\ let text := fmt_record (xpos st1) (ypos st1) (lp_button st1) in
              if (length text <=? writable)%nat
              then r = Z.of_nat (length text) /\ copied = text
              else r = - EFAULT)
  /\ (forall task filp writable len st r copied st',
         gpio_ts_read task filp writable len st
         = Some (Returned r copied, st')
         \/ gpio_ts_read_resume task (private_data filp) writable st
            = Some (Returned r copied, st') ->
         r = - EAGAIN \/ r = - EFAULT \/ 0 <= r).
Proof.
  split; [| split; [| split; [| split]]].
  - intros minor filp st d Hd.
    exists (set_private_data None filp),
      (store minor (set_opencount (as_int (opencount d - 1)) d) st).
    split; [unfold gpio_ts_release; rewrite Hd; reflexivity |].
    split; [reflexivity |]. split; [reflexivity |]. split; [reflexivity |].
    intros p. destruct (Nat.eq_dec minor p) as [<- | Hne].
    + rewrite (deref_store_eq st minor d _ Hd), Hd. reflexivity.
    + rewrite deref_store_ne by exact Hne. reflexivity.
  - intros st st' p task. apply step_queued.
  - intros evs st Hok Hall.
    destruct (devices_ok_vsync st Hok) as (d1 & Hd1 & _).
    destruct (run_keeps_vsync_queue long_bits evs st d1 Hok Hd1 Hall)
      as (st' & woken & Hrun & Hq).
    exists st', woken. split; [exact Hrun |]. split.
    + apply (run_quiet _ _ _ _ _ Hrun).
    + congruence.
  - intros ev st d0 task devinfo writable Hok Hst Hu Hd Harg Hdeb Hpar.
    destruct (devices_ok_lp st Hok) as (d' & Hd' & Hn).
    assert (d' = d0) as -> by congruence.
    set (st1 := store 0 (set_waitqueue [] d0)
                  (lp_sampled long_bits (ev_time ev) (ev_lines ev) st)).
    assert (H1 : handle long_bits ev st = Some (IRQ_HANDLED, st1, waitqueue d0)).
    { unfold handle. rewrite Harg. apply handler_lp_qualifying; assumption. }
    pose proof (handle_handled _ _ _ _ _ _ H1) as Hs1.
    pose proof (handled_statics_ok _ _ _ _ _ _ Hs1 Hst) as Hst1.
    assert (Hh1 : have_data st1 = true) by reflexivity.
    exists st1.
    destruct (Nat.leb_spec
                (length (fmt_record (xpos st1) (ypos st1) (lp_button st1)))
                writable) as [Hw | Hw].
    + eexists _, _, _. split; [exact H1 |]. split; [exact Hh1 |]. split.
      * rewrite gpio_ts_read_resume_ready by exact Hh1.
        apply (gpio_ts_read_copy_ok writable st1 Hst1). exact Hw.
      * cbn zeta. apply Nat.leb_le in Hw. rewrite Hw. split; reflexivity.
    + eexists _, _, _. split; [exact H1 |]. split; [exact Hh1 |]. split.
      * rewrite gpio_ts_read_resume_ready by exact Hh1.
        apply (gpio_ts_read_copy_fault writable st1 Hst1). exact Hw.
      * cbn zeta. apply Nat.leb_gt in Hw. rewrite Hw. reflexivity.
  - intros task filp writable len st r copied st' H.
    destruct (gpio_ts_read_returned _ _ _ _ _ _ _ _ H) as [[_ Hc] | ->].
    + apply gpio_ts_read_copy_result in Hc. tauto.
    + left. reflexivity.
Qed.

(** ** Start-up *)

(** A successful [gpio_ts_init] leaves the two devices in place, numbered 0
    and 1, no sample pending, and one handler per line. *)
Lemma gpio_ts_init_ok k gpios button odd_even st :
  gpio_ts_init k (module_load gpios button odd_even) = (0, st) ->
  devices_ok st = true
  /\ statics_ok st = true
  /\ have_data st = false
  /\ module_unload st = false
  /\ lastlp st = 0
  /\ lastvsync st = 0
  /\ gpio_odd_even st = odd_even
  /\ gpio_lp_button st = button
  /\ exists irq0 irq1, irq_actions st = [(irq0, Some 0%nat); (irq1, Some 1%nat)].
Proof.
  unfold gpio_ts_init. fields.
  destruct (Z.eqb_spec (gpio_ts_nb_gpios (module_load gpios button odd_even)) 2) as [Hnb | Hnb];
    cbn [negb]; [| discriminate].
  rewrite Hnb. change (Z.to_nat 2) with 2%nat.
  destruct (gpios_valid k _ 0 2); cbn [negb]; [| discriminate].
  destruct (gpio_is_valid k _); cbn [negb]; [| discriminate].
  destruct (Z.eqb_spec (alloc_chrdev_region k) 0) as [Ha | Ha]; cbn [negb].
  2:{ intros [= H _]. contradiction. }
  destruct (class_create_IS_ERR k); [discriminate |].
  cbn [create_devices].
  destruct (kzalloc k 0); [| discriminate].
  destruct (kzalloc k 1); [| discriminate].
  destruct (Z.eqb_spec (cdev_add k) 0) as [Hc | Hc]; cbn [negb].
  2:{ intros [= H _]. contradiction. }
  cbn [setup_irqs].
  destruct (request_irq k _ =? 0); cbn [negb]; [| discriminate].
  destruct (request_irq k _ =? 0); cbn [negb]; [| discriminate].
  intros [= <-].
  repeat split; try reflexivity.
  eexists _, _. reflexivity.
Qed.

(** X12.  An invalid edge line or an invalid button line stops
    [gpio_ts_init] with [-ENODEV] before any device exists and before any
    handler is installed. *)
Lemma init_rejects_invalid_line k gpios button odd_even :
  length gpios = 2%nat ->
  gpios_valid k (take 2 (gpios ++ [0; 0])) 0 2 = false
  \/ gpio_is_valid k button = false ->
  exists st,
    gpio_ts_init k (module_load gpios button odd_even) = (- ENODEV, st)
    /\ irq_actions st = []
    /\ devtable st = [None; None].
Proof.
  intros Hlen Hbad. unfold gpio_ts_init, module_load, GPIO_TS_NB_ENTRIES_MAX.
  fields. rewrite Hlen.
  change (Z.of_nat 2 =? 2) with true.
  change (Z.to_nat (Z.of_nat 2)) with 2%nat. cbn [negb].
  destruct (gpios_valid k (take 2 (gpios ++ [0; 0])) 0 2) eqn:Hv; cbn [negb].
  - destruct Hbad as [Hbad | Hbad]; [discriminate |].
    rewrite Hbad. cbn [negb].
    eexists. repeat split; reflexivity.
  - eexists. repeat split; reflexivity.
Qed.

(** X13.  The value returned by [gpio_ts_init] does not depend on the
    parity line at all: the second test of the button line stands where the
    test of [gpio_odd_even] is announced by the error message. *)
Lemma init_ignores_odd_even k gpios button oe1 oe2 :
  fst (gpio_ts_init k (module_load gpios button oe1))
  = fst (gpio_ts_init k (module_load gpios button oe2)).
Proof.
  unfold gpio_ts_init, module_load. fields.
  destruct (Z.of_nat (length gpios) =? 2) eqn:Hnb; cbn [negb]; [| reflexivity].
  apply Z.eqb_eq in Hnb. rewrite Hnb. change (Z.to_nat 2) with 2%nat.
  destruct (gpios_valid k _ 0 2); cbn [negb]; [| reflexivity].
  destruct (gpio_is_valid k button); cbn [negb]; [| reflexivity].
  destruct (alloc_chrdev_region k =? 0); cbn [negb]; [| reflexivity].
  destruct (class_create_IS_ERR k); [reflexivity |].
  cbn [create_devices].
  destruct (kzalloc k 0); [| reflexivity].
  destruct (kzalloc k 1); [| reflexivity].
  destruct (cdev_add k =? 0); cbn [negb]; [| reflexivity].
  cbn [setup_irqs]. fields.
  destruct (request_irq k _ =? 0); cbn [negb]; [| reflexivity].
  destruct (request_irq k _ =? 0); cbn [negb]; reflexivity.
Qed.

(** C9, at the input that fails.  With valid edge lines and a valid button
    line, [gpio_odd_even = -1] (no such pin) does not stop
    [gpio_ts_init]: it returns 0 and both handlers are installed. *)
Theorem init_accepts_invalid_odd_even :
  gpio_is_valid good_kernel (-1) = false
  /\ exists st,
      gpio_ts_init good_kernel (module_load [17; 27] 22 (-1)) = (0, st)
      /\ gpio_odd_even st = -1
      /\ irq_actions st = [(177, Some 0%nat); (187, Some 1%nat)]
      /\ devices_ok st = true.
Proof.
  split; [reflexivity |].
  eexists. split; [vm_compute; reflexivity |].
  repeat split; reflexivity.
Qed.

(** ** Invariants of the reachable states *)

Lemma store_waitqueue_inv st p d q :
  deref st p = Some d ->
  devices_ok (store p (set_waitqueue q d) st) = devices_ok st
  /\ statics_ok (store p (set_waitqueue q d) st) = statics_ok st.
Proof.
  intros Hd. split; [| reflexivity].
  unfold devices_ok. rewrite !(is_dev_store st p d) by (assumption || reflexivity).
  reflexivity.
Qed.

Lemma store_opencount_inv st p d n :
  deref st p = Some d ->
  devices_ok (store p (set_opencount n d) st) = devices_ok st
  /\ statics_ok (store p (set_opencount n d) st) = statics_ok st.
Proof.
  intros Hd. split; [| reflexivity].
  unfold devices_ok. rewrite !(is_dev_store st p d) by (assumption || reflexivity).
  reflexivity.
Qed.

Lemma wait_event_inv task devinfo st ready st' :
  wait_event_have_data task devinfo st = Some (ready, st') ->
  devices_ok st' = devices_ok st
  /\ statics_ok st' = statics_ok st
  /\ module_unload st' = module_unload st
  /\ irq_actions st' = irq_actions st
  /\ have_data st' = have_data st
  /\ ready = have_data st.
Proof.
  unfold wait_event_have_data, enqueue. destruct (have_data st) eqn:Hh.
  - intros [= <- <-]. rewrite Hh. repeat split; reflexivity.
  - destruct devinfo as [p |]; [| discriminate]. cbn [mbind option_bind].
    destruct (deref st p) as [d |] eqn:Hd; [| discriminate].
    cbn [mbind option_bind]. intros [= <- <-].
    destruct (store_waitqueue_inv st p d (waitqueue d ++ [task]) Hd) as [H1 H2].
    rewrite H1, H2. fields. rewrite Hh. repeat split; reflexivity.
Qed.

Lemma gpio_ts_read_copy_inv writable st res st' :
  statics_ok st = true ->
  gpio_ts_read_copy writable st = Some (res, st') ->
  devices_ok st' = devices_ok st
  /\ statics_ok st' = true
  /\ module_unload st' = module_unload st
  /\ irq_actions st' = irq_actions st.
Proof.
  intros Hok H.
  pose proof (statics_ok_after_sprintf st Hok) as Hok'. cbn zeta in Hok'.
  destruct (Nat.le_gt_cases
              (length (fmt_record (xpos st) (ypos st) (lp_button st))) writable)
    as [Hw | Hw].
  - rewrite gpio_ts_read_copy_ok in H by assumption.
    injection H as _ <-. repeat split; try reflexivity. exact Hok'.
  - rewrite gpio_ts_read_copy_fault in H by assumption.
    injection H as _ <-. repeat split; try reflexivity. exact Hok'.
Qed.

(** Every entry into the driver keeps the two devices in place, the
    variables within their C types, the unload flag and the installed
    handlers. *)
Lemma step_invariant long_bits st st' :
  step long_bits st st' ->
  devices_ok st = true ->
  statics_ok st = true ->
  devices_ok st' = true
  /\ statics_ok st' = true
  /\ module_unload st' = module_unload st
  /\ irq_actions st' = irq_actions st.
Proof.
  intros Hstep Hdev Hst.
  destruct Hstep as [ev irq r st' woken _ H | minor filp r filp' st' H
    | minor filp r filp' st' H | task filp writable len res st' H
    | task devinfo writable res st' H | task filp r st' H].
  - apply handle_handled in H.
    pose proof (handled_devices_ok _ _ _ _ _ _ H) as H1.
    pose proof (handled_statics_ok _ _ _ _ _ _ H Hst) as H2.
    destruct (handled_frame _ _ _ _ _ _ H) as (H3 & _ & _ & _ & H4 & _).
    rewrite H1. auto.
  - unfold gpio_ts_open in H.
    destruct (deref st minor) as [d |] eqn:Hd; [| discriminate].
    cbn [mbind option_bind] in H.
    destruct (0 <? opencount d); injection H as _ _ <-; [auto |].
    destruct (store_opencount_inv st minor d (as_int (opencount d + 1)) Hd)
      as [H1 H2].
    rewrite H1, H2. auto.
  - unfold gpio_ts_release in H.
    destruct (deref st minor) as [d |] eqn:Hd; [| discriminate].
    cbn [mbind option_bind] in H. injection H as _ _ <-.
    destruct (store_opencount_inv st minor d (as_int (opencount d - 1)) Hd)
      as [H1 H2].
    rewrite H1, H2. auto.
  - unfold gpio_ts_read in H.
    destruct (have_data st) eqn:Hh; cbn [negb] in H.
    + destruct (gpio_ts_read_copy_inv _ _ _ _ Hst H) as (H1 & H2 & H3 & H4).
      rewrite H1. auto.
    + destruct (negb _); [injection H as _ <-; auto |].
      destruct (wait_event_have_data task (private_data filp) st)
        as [[ready st1] |] eqn:Hw; [| discriminate].
      destruct (wait_event_inv _ _ _ _ _ Hw) as (H1 & H2 & H3 & H4 & _ & Hr).
      rewrite Hh in Hr. subst ready. injection H as _ <-.
      rewrite H1, H2. auto.
  - unfold gpio_ts_read_resume in H.
    destruct (wait_event_have_data task devinfo st)
      as [[ready st1] |] eqn:Hw; [| discriminate].
    destruct (wait_event_inv _ _ _ _ _ Hw) as (H1 & H2 & H3 & H4 & _ & Hr).
    destruct ready.
    + assert (Hst1 : statics_ok st1 = true) by congruence.
      destruct (gpio_ts_read_copy_inv _ _ _ _ Hst1 H) as (H5 & H6 & H7 & H8).
      repeat split; congruence.
    + injection H as _ <-. repeat split; congruence.
  - unfold gpio_ts_poll in H. destruct (have_data st) eqn:Hh.
    + injection H as _ <-. auto.
    + destruct (private_data filp) as [p |]; [| discriminate].
      cbn [mbind option_bind] in H. unfold enqueue in H.
      destruct (deref st p) as [d |] eqn:Hd; [| discriminate].
      cbn [mbind option_bind] in H. injection H as _ <-.
      destruct (store_waitqueue_inv st p d (waitqueue d ++ [task]) Hd) as [H1 H2].
      rewrite H1, H2. auto.
Qed.

(** In every state reached from a successful start-up the hypotheses of
    the theorems above hold: the devices are in place, the variables are
    within their types, the module is not unloading and the handlers
    installed are those of the two lines. *)
Lemma reachable_invariant long_bits st :
  reachable long_bits st ->
  devices_ok st = true
  /\ statics_ok st = true
  /\ module_unload st = false
  /\ irqs_ok st.
Proof.
  induction 1 as [k gpios button odd_even st Hinit | st st' _ IH Hstep].
  - destruct (gpio_ts_init_ok _ _ _ _ _ Hinit)
      as (H1 & H2 & _ & H3 & _ & _ & _ & _ & irq0 & irq1 & Hirq).
    repeat split; try assumption.
    intros irq arg Hin. rewrite Hirq in Hin.
    apply elem_of_cons in Hin as [[= _ ->] | Hin]; [auto |].
    apply elem_of_cons in Hin as [[= _ ->] | Hin]; [auto |].
    apply elem_of_nil in Hin. contradiction.
  - destruct IH as (H1 & H2 & H3 & H4).
    destruct (step_invariant _ _ _ Hstep H1 H2) as (H5 & H6 & H7 & H8).
    repeat split; try assumption; try congruence.
    unfold irqs_ok. rewrite H8. exact H4.
Qed.

(** In a reachable state every interrupt the kernel delivers returns. *)
Lemma reachable_handle_returns long_bits st ev irq :
  reachable long_bits st ->
  (irq, ev_arg ev) ∈ irq_actions st ->
  exists r st' woken, handle long_bits ev st = Some (r, st', woken).
Proof.
  intros Hr Hin.
  destruct (reachable_invariant _ _ Hr) as (Hdev & _ & _ & Hirq).
  destruct (handle_line_returns long_bits ev st Hdev (Hirq _ _ Hin))
    as (r & st' & w & H & _).
  eauto.
Qed.

(** * Scenarios *)

(** The kernel of the scenarios loads the driver. *)
Lemma loaded_ok :
  gpio_ts_init good_kernel (module_load [17; 27] 22 23) = (0, loaded)
  /\ devices_ok loaded = true
  /\ statics_ok loaded = true
  /\ have_data loaded = false
  /\ lastvsync loaded = 0
  /\ lastlp loaded = 0.
Proof. repeat split; reflexivity. Qed.

(** ** Before the first VSYNC edge *)

(** C1 fails on the code: with no VSYNC edge seen, a light-pen edge at 500
    microseconds with the parity line high produces the sample (52, 7, 1)
    and sets [have_data], whatever the width of [long]. *)
Lemma lp_edge_before_vsync_sampled :
  (exists st,
      run 32 [lp_edge 500 1 1] loaded = Some (st, [])
      /\ have_data st = true
      /\ (xpos st, ypos st, lp_button st) = (52, 7, 1))
  /\ (exists st,
         run 64 [lp_edge 500 1 1] loaded = Some (st, [])
         /\ have_data st = true
         /\ (xpos st, ypos st, lp_button st) = (52, 7, 1)).
Proof.
  split; eexists; (split; [vm_compute; reflexivity |]);
    split; reflexivity.
Qed.

Lemma no_sample_without_lp_edge_witness :
  (exists st',
      run 64 [vsync_edge 0; lp_edge 500 0 1; vsync_edge 20000] loaded
      = Some (st', [])
      /\ have_data st' = false)
  /\ (exists st' woken,
         gpio_ts_handler 64 (usec 500) (lines loaded 1 1) (Some 0%nat) loaded
         = Some (IRQ_HANDLED, st', woken)
         /\ have_data st' = true
         /\ usecoffset st' = usecs_of 64 (usec 500)).
Proof.
  destruct (no_sample_without_lp_edge 64 ltac:(lia)) as [H1 H2]. split.
  - apply H1; [reflexivity | reflexivity |].
    repeat (apply Forall_cons; split).
    + left. reflexivity.
    + right. split; reflexivity.
    + left. reflexivity.
    + apply Forall_nil_2.
  - apply H2; try reflexivity. vm_compute. lia.
Defined.

(** ** Offsets that do not fit *)

(** C2 fails on the code when the offset does not fit.  With a 64-bit
    [long]: VSYNC at 1000 and a qualifying light-pen edge 2^38 - 24
    microseconds later give [ypos = -1], not the quotient 4294967295.  With
    a 32-bit [long]: the VSYNC time is stored as -2147483643, a first
    light-pen edge comes 1000 microseconds later, the second one 2^31 + 500
    microseconds after the VSYNC edge is stored as 505 and qualifies; its
    sample is (-12, -33554424). *)
Lemma lp_sample_overflows :
  (exists st woken,
      run 64 [vsync_edge 1000; lp_edge 274877907920 1 1] loaded
      = Some (st, woken)
      /\ have_data st = true
      /\ lastvsync st = 1000
      /\ usecs_of 64 (usec 274877907920) = 274877907920
      /\ (xpos st, ypos st) = (40, -1)
      /\ (274877907920 - 1000) / PAL_LINE_LENGTH = 4294967295)
  /\ (exists st woken,
         run 32 [vsync_edge 2147483653; lp_edge 2147484653 1 1;
                 lp_edge 4294967801 1 1] loaded
         = Some (st, woken)
         /\ have_data st = true
         /\ lastvsync st = -2147483643
         /\ lastlp st = usecs_of 32 (usec 4294967801)
         /\ usecs_of 32 (usec 4294967801) = 505
         /\ (xpos st, ypos st) = (-12, -33554424)).
Proof.
  split; eexists _, _; (split; [vm_compute; reflexivity |]);
    repeat split; reflexivity.
Qed.

Lemma lp_sample_is_div_mod_witness :
  exists st' woken,
    gpio_ts_handler 64 (usec 1000) (lines loaded 1 1) (Some 0%nat) loaded
    = Some (IRQ_HANDLED, st', woken)
    /\ have_data st' = true
    /\ ypos st' = 15
    /\ xpos st' = 40.
Proof.
  destruct (lp_sample_is_div_mod 64 (usec 1000) (lines loaded 1 1) 0%nat
              {| ts := {| tv_sec := 0; tv_nsec := 0 |}; usecs := 0;
                 waitqueue := []; opencount := 0; num := 0 |} loaded)
    as (st' & woken & H & Hh & Hy & Hx & _).
  - lia.
  - reflexivity.
  - reflexivity.
  - reflexivity.
  - vm_compute. reflexivity.
  - vm_compute. lia.
  - vm_compute. split; [discriminate | reflexivity].
  - vm_compute. reflexivity.
  - exists st', woken. repeat split; assumption.
Defined.

(** ** Discarded edges *)

Lemma lp_edge_discarded_witness :
  (exists st',
      handle 64 (lp_edge 5000 0 1) pending = Some (IRQ_HANDLED, st', [])
      /\ have_data st' = true
      /\ (xpos st', ypos st', lp_button st') = (40, 15, 1))
  /\ (exists st1 w1 st2 w2 st3,
         handle 64 (lp_edge 1000 1 1) loaded = Some (IRQ_HANDLED, st1, w1)
         /\ have_data st1 = true
         /\ run 64 [vsync_edge 1050] st1 = Some (st2, w2)
         /\ handle 64 (lp_edge 1100 1 0) st2 = Some (IRQ_HANDLED, st3, [])
         /\ have_data st3 = have_data st2
         /\ (xpos st3, ypos st3, lp_button st3)
            = (xpos st2, ypos st2, lp_button st2)).
Proof.
  destruct (lp_edge_discarded 64 ltac:(lia)) as [H1 H2]. split.
  - destruct (H1 (lp_edge 5000 0 1) pending) as (st' & H & _ & Hh & Hs & _);
      [reflexivity | reflexivity | reflexivity | reflexivity |].
    exists st'. split; [exact H |]. split; [exact Hh | exact Hs].
  - destruct (H2 (lp_edge 1000 1 1) [vsync_edge 1050] (lp_edge 1100 1 0) loaded)
      as (st1 & w1 & st2 & w2 & st3 & Ha & Hb & Hc & Hd & _ & He & Hf & _).
    + reflexivity.
    + reflexivity.
    + reflexivity.
    + vm_compute. reflexivity.
    + vm_compute. lia.
    + apply Forall_cons. split; [| apply Forall_nil_2].
      split; [right; reflexivity | vm_compute; split; discriminate].
    + reflexivity.
    + vm_compute. split; discriminate.
    + exists st1, w1, st2, w2, st3. repeat split; assumption.
Defined.

(** ** One slot *)

Lemma last_write_wins_witness :
  exists st1 w1 st2 w2 st3,
    handle 64 (lp_edge 1000 1 1) loaded = Some (IRQ_HANDLED, st1, w1)
    /\ handle 64 (lp_edge 2000 1 0) st1 = Some (IRQ_HANDLED, st2, w2)
    /\ (xpos st2, ypos st2, lp_button st2) = (16, 31, 0)
    /\ gpio_ts_read 7 lp_file 4096 4096 st2
       = Some (Returned 8 (list_ascii_of_string "16,31,0" ++ [newline]), st3)
    /\ gpio_ts_read 7 {| f_flags := O_NONBLOCK; private_data := Some 0%nat |}
         4096 4096 st3
       = Some (Returned (- EAGAIN) [], st3).
Proof.
  destruct (last_write_wins 64 (lp_edge 1000 1 1) (lp_edge 2000 1 0) loaded)
    as (st1 & w1 & st2 & w2 & H1 & _ & H2 & _ & Hs & Hread).
  - reflexivity.
  - reflexivity.
  - reflexivity.
  - reflexivity.
  - reflexivity.
  - vm_compute. reflexivity.
  - vm_compute. lia.
  - vm_compute. reflexivity.
  - vm_compute. lia.
  - destruct (Hread 7%nat lp_file 4096%nat 4096) as (st3 & Hr & _ & Hnb).
    { vm_compute. lia. }
    exists st1, w1, st2, w2, st3.
    split; [exact H1 |]. split; [exact H2 |]. split; [exact Hs |].
    split; [exact Hr |]. apply Hnb. vm_compute. lia.
Defined.

(** ** The record *)

Lemma read_returns_record_witness :
  exists st',
    gpio_ts_read 7 lp_file 4096 4096 pending
    = Some (Returned 8 (list_ascii_of_string "40,15,1" ++ [newline]), st')
    /\ have_data st' = false.
Proof.
  destruct read_returns_record as (Hevery & Hsome & _).
  destruct (Hsome 7%nat lp_file 4096%nat 4096 pending) as (st' & H).
  - reflexivity.
  - reflexivity.
  - vm_compute. lia.
  - destruct (Hevery 7%nat lp_file 4096%nat 4096 pending 8
                (list_ascii_of_string "40,15,1" ++ [newline]) st')
      as (_ & _ & _ & Hh & _).
    + reflexivity.
    + left. exact H.
    + vm_compute. discriminate.
    + exists st'. split; [exact H | exact Hh].
Defined.

Lemma read_fault_keeps_sample_witness :
  exists st1 st2,
    gpio_ts_read 7 lp_file 3 4096 pending
    = Some (Returned (- EFAULT) (list_ascii_of_string "40,"), st1)
    /\ have_data st1 = true
    /\ gpio_ts_read 7 lp_file 4096 4096 st1
       = Some (Returned 8 (list_ascii_of_string "40,15,1" ++ [newline]), st2)
    /\ have_data st2 = false.
Proof.
  destruct (read_fault_keeps_sample 7%nat lp_file 3%nat 4096 pending)
    as (st1 & H & Hh & _ & Hnext).
  - reflexivity.
  - reflexivity.
  - vm_compute. lia.
  - destruct (Hnext 7%nat lp_file 4096%nat 4096) as (st2 & H2 & Hh2).
    { vm_compute. lia. }
    exists st1, st2. repeat split; assumption.
Defined.

(** ** Sessions *)

Lemma open_is_exclusive_witness :
  (exists filp1 st1,
      gpio_ts_open 0 lp_file loaded = Some (0, filp1, st1)
      /\ private_data filp1 = Some 0%nat)
  /\ gpio_ts_open 0 lp_file opened = Some (- EBUSY, lp_file, opened).
Proof.
  split.
  - destruct (open_is_exclusive 0%nat lp_file loaded
                {| ts := {| tv_sec := 0; tv_nsec := 0 |}; usecs := 0;
                   waitqueue := []; opencount := 0; num := 0 |})
      as [_ H]; [reflexivity |].
    destruct (H eq_refl) as (filp1 & st1 & d1 & Ho & Hp & _).
    exists filp1, st1. split; [exact Ho | exact Hp].
  - destruct (open_is_exclusive 0%nat lp_file opened
                {| ts := {| tv_sec := 0; tv_nsec := 0 |}; usecs := 0;
                   waitqueue := []; opencount := 1; num := 0 |})
      as [H _]; [reflexivity |].
    apply H. reflexivity.
Defined.

(** ** The VSYNC endpoint *)

(** C7 fails on the code: once the light-pen line has produced a sample, a
    file opened on the VSYNC device polls ready and its blocking [read]
    returns the sample. *)
Lemma vsync_endpoint_reads_sample :
  exists filp st0 st st',
    gpio_ts_open 1 {| f_flags := 0; private_data := None |} loaded
    = Some (0, filp, st0)
    /\ private_data filp = Some 1%nat
    /\ Z.land (f_flags filp) O_NONBLOCK = 0
    /\ run 64 [vsync_edge 0; lp_edge 1000 1 1] st0 = Some (st, [])
    /\ gpio_ts_poll 2 filp st = Some (3, st)
    /\ gpio_ts_read 2 filp 4096 4096 st
       = Some (Returned 8 (list_ascii_of_string "40,15,1" ++ [newline]), st').
Proof.
  eexists _, _, _, _.
  split; [vm_compute; reflexivity |].
  split; [reflexivity |]. split; [reflexivity |].
  split; [vm_compute; reflexivity |].
  split; vm_compute; reflexivity.
Qed.

Lemma vsync_endpoint_shares_slot_witness :
  (exists st' woken d1,
      run 64 [vsync_edge 0; lp_edge 1000 1 1; vsync_edge 20000] blocked
      = Some (st', woken)
      /\ deref blocked 1 = Some d1
      /\ deref st' 1 = Some d1)
  /\ gpio_ts_poll 2 {| f_flags := 0; private_data := Some 1%nat |} pending
     = Some (Z.lor POLLPRI POLLIN, pending)
  /\ (exists st',
         gpio_ts_read 2 {| f_flags := 0; private_data := Some 1%nat |}
           4096 4096 pending
         = Some (Returned 8 (list_ascii_of_string "40,15,1" ++ [newline]), st'))
  /\ (exists st',
         gpio_ts_read 2 {| f_flags := 0; private_data := Some 1%nat |}
           4096 4096 loaded
         = Some (Asleep, st')
         /\ waitqueue <$> deref st' 1 = Some [2%nat]).
Proof.
  destruct (vsync_endpoint_shares_slot 64) as (Ha & _ & Hc & Hd & He).
  split; [| split; [| split]].
  - destruct (Ha [vsync_edge 0; lp_edge 1000 1 1; vsync_edge 20000] blocked
                {| ts := {| tv_sec := 0; tv_nsec := 0 |}; usecs := 0;
                   waitqueue := []; opencount := 0; num := 1 |})
      as (st' & woken & Hrun & Hq).
    + reflexivity.
    + reflexivity.
    + repeat (apply Forall_cons; split);
        [right; reflexivity | left; reflexivity | right; reflexivity
        | apply Forall_nil_2].
    + exists st', woken. eexists. split; [exact Hrun |].
      split; [reflexivity | exact Hq].
  - apply Hc; reflexivity.
  - destruct (Hd 2%nat {| f_flags := 0; private_data := Some 1%nat |}
                4096%nat 4096 pending) as (st' & Hr & _).
    + reflexivity.
    + reflexivity.
    + reflexivity.
    + vm_compute. lia.
    + exists st'. exact Hr.
  - destruct (He 2%nat {| f_flags := 0; private_data := Some 1%nat |}
                4096%nat 4096 loaded
                {| ts := {| tv_sec := 0; tv_nsec := 0 |}; usecs := 0;
                   waitqueue := []; opencount := 0; num := 1 |})
      as (_ & Hr).
    + reflexivity.
    + reflexivity.
    + reflexivity.
    + eexists. split; [apply Hr; reflexivity | reflexivity].
Defined.

(** ** Closing under a sleeping reader *)

Lemma Some_pair_inv {A B} (a a' : A) (b b' : B) :
  Some (a, b) = Some (a', b') -> a = a' /\ b = b'.
Proof. intros [= -> ->]. auto. Qed.

(** C8 fails on the code.  Task 7 sleeps in a blocking [read] on the
    light-pen device and its session is closed from another thread.  The
    kernel keeps a file in use by a system call, so the close reaches no
    entry point of the driver: [gpio_ts_release] runs once the [read] has
    returned.  The reader sleeps on through VSYNC edges and discarded
    light-pen edges, its wait condition still false; the call ends with the
    next qualifying light-pen edge, and what it returns is the record of
    that sample, not an error.  Only then is the file released. *)
Lemma reader_sleeps_through_close :
  exists st3 st4 st5 filp' st6,
    gpio_ts_open 0 {| f_flags := 0; private_data := None |} loaded
    = Some (0, lp_file, opened)
    /\ gpio_ts_read 7 lp_file 4096 4096 opened = Some (Asleep, blocked)
    /\ waitqueue <$> deref blocked 0 = Some [7%nat]
    /\ run 64 [vsync_edge 20000; lp_edge 20100 1 0;
               vsync_edge 40000; lp_edge 45000 0 0] blocked
       = Some (st3, [])
    /\ have_data st3 = false
    /\ waitqueue <$> deref st3 0 = Some [7%nat]
    /\ opencount <$> deref st3 0 = Some 1
    /\ handle 64 (lp_edge 61000 1 0) st3 = Some (IRQ_HANDLED, st4, [7%nat])
    /\ gpio_ts_read_resume 7 (private_data lp_file) 4096 st4
       = Some (Returned 8 (list_ascii_of_string "8,328,0" ++ [newline]), st5)
    /\ gpio_ts_release 0 lp_file st5 = Some (0, filp', st6)
    /\ opencount <$> deref st6 0 = Some 0.
Proof.
  eexists _, _, _, _, _.
  split; [reflexivity |].
  split; [reflexivity |].
  split; [reflexivity |].
  split; [vm_compute; reflexivity |].
  split; [reflexivity |].
  split; [reflexivity |].
  split; [reflexivity |].
  split; [vm_compute; reflexivity |].
  split; [vm_compute; reflexivity |].
  split; [vm_compute; reflexivity |].
  reflexivity.
Qed.

Lemma release_wakes_nobody_witness :
  exists st0 st1 st2 st3 filp' st4,
    handle 64 (vsync_edge 20000) blocked = Some (IRQ_HANDLED, st0, [])
    /\ queued st0 0 7
    /\ run 64 [vsync_edge 20000; lp_edge 20100 1 0; lp_edge 25000 0 0] blocked
       = Some (st1, [])
    /\ devtable st1 = devtable blocked
    /\ handle 64 (lp_edge 26000 1 0) st1 = Some (IRQ_HANDLED, st2, [7%nat])
    /\ gpio_ts_read_resume 7 (Some 0%nat) 4096 st2
       = Some (Returned 8 (list_ascii_of_string "48,93,0" ++ [newline]), st3)
    /\ gpio_ts_release 0 lp_file st3 = Some (0, filp', st4)
    /\ have_data st4 = have_data st3
    /\ waitqueue <$> deref st4 1 = waitqueue <$> deref st3 1.
Proof.
  destruct (release_wakes_nobody 64) as (HA & HS & HB & HC & _).
  set (evs := [vsync_edge 20000; lp_edge 20100 1 0; lp_edge 25000 0 0]).
  set (evs2 := [vsync_edge 20000; lp_edge 20100 1 0; lp_edge 25000 0 0;
                lp_edge 26000 1 0]).
  destruct (HB evs blocked) as (st1 & w1 & Hrun & Hquiet & _).
  { reflexivity. }
  { repeat (apply Forall_cons; split); try apply Forall_nil_2;
      first [left; reflexivity | right; reflexivity]. }
  assert (Hc : run 64 evs blocked = Some (after 64 evs blocked, []))
    by (vm_compute; reflexivity).
  rewrite Hc in Hrun. apply Some_pair_inv in Hrun as [<- <-].
  destruct Hquiet as (_ & Hdt); [vm_compute; reflexivity |].
  destruct (HC (lp_edge 26000 1 0) (after 64 evs blocked)
              {| ts := {| tv_sec := 0; tv_nsec := 0 |}; usecs := 0;
                 waitqueue := [7%nat]; opencount := 1; num := 0 |}
              7%nat (Some 0%nat) 4096%nat)
    as (st2 & r & copied & st3 & H2 & _ & H3 & _).
  { vm_compute; reflexivity. }
  { vm_compute; reflexivity. }
  { vm_compute; reflexivity. }
  { vm_compute; reflexivity. }
  { reflexivity. }
  { vm_compute. reflexivity. }
  { vm_compute. discriminate. }
  assert (Hc2 : handle 64 (lp_edge 26000 1 0) (after 64 evs blocked)
                = Some (IRQ_HANDLED, after 64 evs2 blocked, [7%nat]))
    by (vm_compute; reflexivity).
  cbn [waitqueue] in H2.
  rewrite Hc2 in H2. apply Some_pair_inv in H2 as [H2 _].
  apply pair_equal_spec in H2 as [_ <-].
  set (st3' := match gpio_ts_read_resume 7 (Some 0%nat) 4096
                       (after 64 evs2 blocked)
               with Some (_, s) => s | None => blocked end).
  assert (Hc3 : gpio_ts_read_resume 7 (Some 0%nat) 4096 (after 64 evs2 blocked)
                = Some (Returned 8 (list_ascii_of_string "48,93,0" ++ [newline]),
                        st3'))
    by (vm_compute; reflexivity).
  rewrite Hc3 in H3. apply Some_pair_inv in H3 as [_ <-].
  destruct (HA 0%nat lp_file st3'
              {| ts := {| tv_sec := 0; tv_nsec := 0 |}; usecs := 0;
                 waitqueue := []; opencount := 1; num := 0 |})
    as (filp' & st4 & H4 & _ & Hh4 & _ & Hq4).
  { vm_compute. reflexivity. }
  assert (Hc0 : handle 64 (vsync_edge 20000) blocked
                = Some (IRQ_HANDLED, after 64 [vsync_edge 20000] blocked, []))
    by (vm_compute; reflexivity).
  assert (Hq0 : queued (after 64 [vsync_edge 20000] blocked) 0 7).
  { destruct (HS blocked (after 64 [vsync_edge 20000] blocked) 0%nat 7%nat)
      as [Hq | (ev0 & r0 & woken0 & d0 & _ & _ & Hh & _)].
    - apply (step_irq 64 blocked (vsync_edge 20000) 187 IRQ_HANDLED _ []);
        [| exact Hc0].
      vm_compute. apply list_elem_of_further, list_elem_of_here.
    - exists {| ts := {| tv_sec := 0; tv_nsec := 0 |}; usecs := 0;
                waitqueue := [7%nat]; opencount := 1; num := 0 |}.
      split; [reflexivity | apply list_elem_of_here].
    - exact Hq.
    - discriminate Hh. }
  exists (after 64 [vsync_edge 20000] blocked), (after 64 evs blocked),
    (after 64 evs2 blocked), st3', filp', st4.
  split; [exact Hc0 |]. split; [exact Hq0 |].
  split; [exact Hc |]. split; [exact Hdt |]. split; [exact Hc2 |].
  split; [exact Hc3 |]. split; [exact H4 |]. split; [exact Hh4 | apply Hq4].
Defined.

(** * Further properties of the driver *)

(** ** Time differences *)

Lemma usecs_of_mod long_bits timestamp :
  0 < long_bits ->
  usecs_of long_bits timestamp mod 2 ^ long_bits
  = (tv_sec timestamp * 1000000 + tv_nsec timestamp ÷ 1000) mod 2 ^ long_bits.
Proof.
  intros Hb. unfold usecs_of, as_long.
  rewrite wrap_mod by exact Hb.
  rewrite Zplus_mod, wrap_mod, <- Zplus_mod by exact Hb. reflexivity.
Qed.

(** The difference of two clock readings as the handler computes it is the
    time really elapsed, even when the microsecond counter has wrapped in
    between, as long as the elapsed time itself fits a [long]. *)
Lemma elapsed_exact long_bits t1 t2 :
  0 < long_bits ->
  - 2 ^ (long_bits - 1)
  <= (tv_sec t2 * 1000000 + tv_nsec t2 ÷ 1000)
     - (tv_sec t1 * 1000000 + tv_nsec t1 ÷ 1000)
  < 2 ^ (long_bits - 1) ->
  as_long long_bits (usecs_of long_bits t2 - usecs_of long_bits t1)
  = (tv_sec t2 * 1000000 + tv_nsec t2 ÷ 1000)
    - (tv_sec t1 * 1000000 + tv_nsec t1 ÷ 1000).
Proof.
  intros Hb Hd. unfold as_long at 1.
  rewrite <- (wrap_id long_bits _ Hb Hd).
  apply wrap_congr.
  rewrite Zminus_mod, !usecs_of_mod, <- Zminus_mod by exact Hb. reflexivity.
Qed.

(** X1.  A VSYNC edge followed by a light-pen edge: whatever the driver had
    recorded before, the pen edge qualifies exactly when the parity line is
    high and more than 128 microseconds have really elapsed since the VSYNC
    edge, and then the sample is that elapsed time divided by the line
    length, line number at least 2; this holds across a wrap of the
    microsecond counter. *)
Theorem vsync_then_pen long_bits tv tp lvv lvp st :
  32 <= long_bits ->
  devices_ok st = true ->
  module_unload st = false ->
  - 2 ^ (long_bits - 1)
  <= (tv_sec tp * 1000000 + tv_nsec tp ÷ 1000)
     - (tv_sec tv * 1000000 + tv_nsec tv ÷ 1000)
  < 2 ^ (long_bits - 1) ->
  ((tv_sec tp * 1000000 + tv_nsec tp ÷ 1000)
   - (tv_sec tv * 1000000 + tv_nsec tv ÷ 1000)) / PAL_LINE_LENGTH < 2 ^ 31 ->
  exists st1 st2 woken,
    gpio_ts_handler long_bits tv lvv (Some 1%nat) st
    = Some (IRQ_HANDLED, st1, [])
    /\ gpio_ts_handler long_bits tp lvp (Some 0%nat) st1
       = Some (IRQ_HANDLED, st2, woken)
    /\ (lvp (gpio_odd_even st) = 0
        \/ (tv_sec tp * 1000000 + tv_nsec tp ÷ 1000)
           - (tv_sec tv * 1000000 + tv_nsec tv ÷ 1000) <= 128 ->
        woken = [] /\ have_data st2 = have_data st
        /\ (xpos st2, ypos st2, lp_button st2) = (xpos st, ypos st, lp_button st))
    /\ (lvp (gpio_odd_even st) <> 0 ->
        128 < (tv_sec tp * 1000000 + tv_nsec tp ÷ 1000)
              - (tv_sec tv * 1000000 + tv_nsec tv ÷ 1000) ->
        have_data st2 = true
        /\ xpos st2 = ((tv_sec tp * 1000000 + tv_nsec tp ÷ 1000)
                       - (tv_sec tv * 1000000 + tv_nsec tv ÷ 1000))
                      mod PAL_LINE_LENGTH
        /\ ypos st2 = ((tv_sec tp * 1000000 + tv_nsec tp ÷ 1000)
                       - (tv_sec tv * 1000000 + tv_nsec tv ÷ 1000))
                      / PAL_LINE_LENGTH
        /\ 2 <= ypos st2).
Proof.
  intros Hb Hok Hu Hrange Hq.
  set (D := (tv_sec tp * 1000000 + tv_nsec tp ÷ 1000)
            - (tv_sec tv * 1000000 + tv_nsec tv ÷ 1000)) in *.
  destruct (devices_ok_lp st Hok) as (d0 & Hd0 & Hn0).
  destruct (devices_ok_vsync st Hok) as (d1 & Hd1 & Hn1).
  pose proof (elapsed_exact long_bits tv tp ltac:(lia) Hrange) as Hel.
  fold D in Hel.
  set (st1 := set_lastlp (usecs_of long_bits tv)
                (set_lastvsync (usecs_of long_bits tv) st)).
  assert (H1 : gpio_ts_handler long_bits tv lvv (Some 1%nat) st
               = Some (IRQ_HANDLED, st1, [])).
  { apply (handler_vsync long_bits tv lvv 1%nat d1 st); assumption. }
  destruct (Z.eq_dec (lvp (gpio_odd_even st)) 0) as [Hpar | Hpar];
    [| destruct (Z_le_gt_dec D 128) as [Hdeb | Hdeb]].
  - exists st1, (set_oddeven (lvp (gpio_odd_even st1)) st1), [].
    split; [exact H1 |]. split.
    { apply (handler_lp_discarding long_bits tp lvp 0%nat d0 st1);
        first [assumption | right; exact Hpar]. }
    split; [intros _; repeat split; reflexivity |].
    intros Hne. contradiction.
  - exists st1, (set_oddeven (lvp (gpio_odd_even st1)) st1), [].
    split; [exact H1 |]. split.
    { apply (handler_lp_discarding long_bits tp lvp 0%nat d0 st1);
        first [assumption | idtac].
      left. subst st1. fields. rewrite Hel. exact Hdeb. }
    split; [intros _; repeat split; reflexivity |].
    intros _ Hgt. lia.
  - exists st1, (store 0 (set_waitqueue [] d0) (lp_sampled long_bits tp lvp st1)),
      (waitqueue d0).
    split; [exact H1 |]. split.
    { apply (handler_lp_qualifying long_bits tp lvp 0%nat d0 st1);
        first [assumption | idtac].
      subst st1. fields. rewrite Hel. lia. }
    split; [intros [H | H]; [contradiction | lia] |].
    intros _ _. subst st1. fields. rewrite Hel.
    destruct (decode_div_mod long_bits D) as [Hy Hx]; [lia | lia | exact Hq |].
    rewrite Hx, Hy. repeat split.
    unfold PAL_LINE_LENGTH. apply Z.div_le_lower_bound; lia.
Qed.

(** ** The debounce floor never falls behind the VSYNC time *)

Lemma run_window long_bits lo hi evs :
  32 <= long_bits ->
  hi - lo < 2 ^ (long_bits - 1) ->
  forall st,
    devices_ok st = true ->
    lo <= lastvsync st <= lastlp st ->
    lastlp st <= hi ->
    Forall (fun ev => (ev_arg ev = Some 0%nat \/ ev_arg ev = Some 1%nat)
                      /\ lo <= usecs_of long_bits (ev_time ev) <= hi) evs ->
    exists st' woken,
      run long_bits evs st = Some (st', woken)
      /\ devices_ok st' = true
      /\ module_unload st' = module_unload st
      /\ gpio_odd_even st' = gpio_odd_even st
      /\ lo <= lastvsync st' <= lastlp st'
      /\ lastlp st' <= hi.
Proof.
  intros Hb Hwin.
  induction evs as [| ev evs IH]; intros st Hok Hchain Hhi Hall.
  - exists st, []. repeat split; (reflexivity || assumption || lia).
  - apply Forall_cons_1 in Hall as [[Harg Ht] Hall].
    destruct (handle_line_returns long_bits ev st Hok Harg)
      as (r & st1 & w & H1 & Hs).
    pose proof (handled_devices_ok _ _ _ _ _ _ Hs) as Hok1.
    destruct (handled_frame _ _ _ _ _ _ Hs) as (Hu1 & Hoe1 & _).
    assert (Hinv : lo <= lastvsync st1 <= lastlp st1 /\ lastlp st1 <= hi).
    { destruct Hs as [| p d _ _ _ _ Hdeb _ | | |]; fields; try lia.
      unfold as_long in Hdeb. rewrite wrap_id in Hdeb by lia. lia. }
    destruct (IH st1) as (st2 & w2 & H2 & Hok2 & Hu2 & Hoe2 & Hc2 & Hh2);
      [congruence | tauto | tauto | exact Hall |].
    exists st2, (w ++ w2). repeat split; try lia; try congruence.
    apply (run_cons _ _ _ _ _ _ _ _ _ H1 H2).
Qed.

(** X2.  Interrupts of the two lines whose clock readings stay within a
    window narrower than 2^37 microseconds (and than half the range of
    [long]): [lastvsync <= lastlp] is kept throughout, so a light-pen edge
    that qualifies is more than 128 microseconds after the recorded VSYNC
    edge.  Its sample is quotient and remainder of that offset by 64, with
    [0 <= x < 64] and [y >= 2]: the first two lines after VSYNC are never
    reported. *)
Theorem pen_sample_after_run long_bits lo hi evs e st :
  32 <= long_bits ->
  hi - lo < 2 ^ (long_bits - 1) ->
  hi - lo < 2 ^ 37 ->
  devices_ok st = true ->
  module_unload st = false ->
  lo <= lastvsync st <= lastlp st ->
  lastlp st <= hi ->
  Forall (fun ev => (ev_arg ev = Some 0%nat \/ ev_arg ev = Some 1%nat)
                    /\ lo <= usecs_of long_bits (ev_time ev) <= hi) evs ->
  ev_arg e = Some 0%nat ->
  lo <= usecs_of long_bits (ev_time e) <= hi ->
  exists st1 w1 st2 w2,
    run long_bits evs st = Some (st1, w1)
    /\ handle long_bits e st1 = Some (IRQ_HANDLED, st2, w2)
    /\ lastvsync st1 <= lastlp st1
    /\ (ev_lines e (gpio_odd_even st) = 0
        \/ usecs_of long_bits (ev_time e) - lastlp st1 <= 128 ->
        st2 = set_oddeven (ev_lines e (gpio_odd_even st)) st1 /\ w2 = [])
    /\ (ev_lines e (gpio_odd_even st) <> 0 ->
        128 < usecs_of long_bits (ev_time e) - lastlp st1 ->
        have_data st2 = true
        /\ 128 < usecs_of long_bits (ev_time e) - lastvsync st1
        /\ xpos st2
           = (usecs_of long_bits (ev_time e) - lastvsync st1) mod PAL_LINE_LENGTH
        /\ ypos st2
           = (usecs_of long_bits (ev_time e) - lastvsync st1) / PAL_LINE_LENGTH
        /\ 0 <= xpos st2 < PAL_LINE_LENGTH
        /\ 2 <= ypos st2).
Proof.
  intros Hb Hwin H37 Hok Hu Hchain Hhi Hall Harg Ht.
  destruct (run_window long_bits lo hi evs Hb Hwin st Hok Hchain Hhi Hall)
    as (st1 & w1 & Hrun & Hok1 & Hu1 & Hoe1 & Hc1 & Hh1).
  destruct (devices_ok_lp st1 Hok1) as (d & Hd & Hn).
  set (t := usecs_of long_bits (ev_time e)) in *.
  assert (Hw : as_long long_bits (t - lastlp st1) = t - lastlp st1).
  { apply wrap_id; lia. }
  assert (Hwv : as_long long_bits (t - lastvsync st1) = t - lastvsync st1).
  { apply wrap_id; lia. }
  rewrite <- Hoe1.
  destruct (Z.eq_dec (ev_lines e (gpio_odd_even st1)) 0) as [Hpar | Hpar];
    [| destruct (Z_le_gt_dec (t - lastlp st1) 128) as [Hdeb | Hdeb]].
  - exists st1, w1, (set_oddeven (ev_lines e (gpio_odd_even st1)) st1), [].
    split; [exact Hrun |]. split.
    { unfold handle. rewrite Harg.
      apply (handler_lp_discarding long_bits _ _ 0%nat d);
        first [congruence | assumption | right; exact Hpar]. }
    split; [lia |]. split; [intros _; split; reflexivity |].
    intros Hne. contradiction.
  - exists st1, w1, (set_oddeven (ev_lines e (gpio_odd_even st1)) st1), [].
    split; [exact Hrun |]. split.
    { unfold handle. rewrite Harg.
      apply (handler_lp_discarding long_bits _ _ 0%nat d);
        first [congruence | assumption | idtac].
      left. fold t. rewrite Hw. exact Hdeb. }
    split; [lia |]. split; [intros _; split; reflexivity |].
    intros _ Hgt. lia.
  - exists st1, w1,
      (store 0 (set_waitqueue [] d)
         (lp_sampled long_bits (ev_time e) (ev_lines e) st1)),
      (waitqueue d).
    split; [exact Hrun |]. split.
    { unfold handle. rewrite Harg.
      apply (handler_lp_qualifying long_bits _ _ 0%nat d);
        first [congruence | assumption | idtac].
      fold t. rewrite Hw. lia. }
    split; [lia |]. split; [intros [H | H]; [contradiction | lia] |].
    intros _ _. fields. fold t. rewrite Hwv.
    assert (Hq : (t - lastvsync st1) / PAL_LINE_LENGTH < 2 ^ 31).
    { unfold PAL_LINE_LENGTH. apply Z.div_lt_upper_bound; lia. }
    destruct (decode_div_mod long_bits (t - lastvsync st1)) as [Hy Hx];
      [lia | lia | exact Hq |].
    rewrite Hx, Hy.
    pose proof (Z.mod_pos_bound (t - lastvsync st1) PAL_LINE_LENGTH
                  ltac:(unfold PAL_LINE_LENGTH; lia)).
    repeat split; try lia.
    unfold PAL_LINE_LENGTH. apply Z.div_le_lower_bound; lia.
Qed.

(** ** Sleeping readers and pollers *)

Lemma gpio_ts_read_sleeps task filp writable len st p d :
  have_data st = false ->
  Z.land (f_flags filp) O_NONBLOCK = 0 ->
  private_data filp = Some p ->
  deref st p = Some d ->
  gpio_ts_read task filp writable len st
  = Some (Asleep, store p (set_waitqueue (waitqueue d ++ [task]) d) st).
Proof.
  intros Hh Hf Hp Hd. unfold gpio_ts_read, wait_event_have_data.
  rewrite Hh, Hp, Hf. cbn [negb Z.eqb mbind option_bind].
  rewrite (enqueue_Some st p d task Hd). reflexivity.
Qed.

Lemma gpio_ts_read_resume_sleeps task p writable st d :
  have_data st = false ->
  deref st p = Some d ->
  gpio_ts_read_resume task (Some p) writable st
  = Some (Asleep, store p (set_waitqueue (waitqueue d ++ [task]) d) st).
Proof.
  intros Hh Hd. unfold gpio_ts_read_resume, wait_event_have_data.
  rewrite Hh. cbn [mbind option_bind].
  rewrite (enqueue_Some st p d task Hd). reflexivity.
Qed.

Lemma statics_ok_store p d st : statics_ok (store p d st) = statics_ok st.
Proof. reflexivity. Qed.

Lemma deref_after_read b m st p :
  deref (set_have_data b (set_message m st)) p = deref st p.
Proof. reflexivity. Qed.

(** X3.  A blocking read on the light-pen device with no sample pending
    puts the task to sleep on that device's queue; the next qualifying
    light-pen interrupt wakes every task of the queue and empties it; the
    reader, resumed, returns the record of that very sample and clears
    [have_data]; any other task resumed after it finds no sample and goes
    back to sleep: a sample is delivered once. *)
Theorem blocked_reader_gets_sample long_bits task filp writable len ev st d :
  devices_ok st = true ->
  statics_ok st = true ->
  module_unload st = false ->
  have_data st = false ->
  private_data filp = Some 0%nat ->
  Z.land (f_flags filp) O_NONBLOCK = 0 ->
  deref st 0 = Some d ->
  ev_arg ev = Some 0%nat ->
  128 < as_long long_bits (usecs_of long_bits (ev_time ev) - lastlp st) ->
  ev_lines ev (gpio_odd_even st) <> 0 ->
  let sample := lp_sampled long_bits (ev_time ev) (ev_lines ev) st in
  let text := fmt_record (xpos sample) (ypos sample) (lp_button sample) in
  (length text <= writable)%nat ->
  exists st1 st2 st3,
    gpio_ts_read task filp writable len st = Some (Asleep, st1)
    /\ handle long_bits ev st1
       = Some (IRQ_HANDLED, st2, waitqueue d ++ [task])
    /\ waitqueue <$> deref st2 0 = Some []
    /\ gpio_ts_read_resume task (private_data filp) writable st2
       = Some (Returned (Z.of_nat (length text)) text, st3)
    /\ have_data st3 = false
    /\ forall task' p writable',
        is_Some (deref st3 p) ->
        exists st4,
          gpio_ts_read_resume task' (Some p) writable' st3
          = Some (Asleep, st4).
Proof.
  intros Hok Hst Hu Hh Hp Hf Hd Harg Hdeb Hpar sample text Hw.
  destruct (devices_ok_lp st Hok) as (d' & Hd' & Hn).
  assert (d' = d) as -> by congruence.
  set (dq := set_waitqueue (waitqueue d ++ [task]) d).
  set (st1 := store 0 dq st).
  assert (Hd1 : deref st1 0 = Some dq) by (apply (deref_store_eq st 0 d), Hd).
  set (st2 := store 0 (set_waitqueue [] dq)
                (lp_sampled long_bits (ev_time ev) (ev_lines ev) st1)).
  assert (H2 : handle long_bits ev st1
               = Some (IRQ_HANDLED, st2, waitqueue d ++ [task])).
  { unfold handle. rewrite Harg.
    apply (handler_lp_qualifying long_bits _ _ 0%nat dq st1);
      first [exact Hu | exact Hd1 | exact Hn | exact Hdeb | exact Hpar]. }
  assert (Hd2 : deref st2 0 = Some (set_waitqueue [] dq)).
  { apply (deref_store_eq (lp_sampled long_bits (ev_time ev) (ev_lines ev) st1)
             0 dq). exact Hd1. }
  pose proof (handle_handled _ _ _ _ _ _ H2) as Hs2.
  assert (Hst2 : statics_ok st2 = true).
  { apply (handled_statics_ok _ _ _ _ _ _ Hs2). exact Hst. }
  assert (Ht : text = fmt_record (xpos st2) (ypos st2) (lp_button st2)).
  { subst text sample st2 st1. fields. reflexivity. }
  assert (Hh2 : have_data st2 = true) by reflexivity.
  exists st1, st2. eexists.
  split; [apply gpio_ts_read_sleeps; assumption |].
  split; [exact H2 |].
  split; [rewrite Hd2; reflexivity |].
  split; [| split].
  - unfold gpio_ts_read_resume, wait_event_have_data.
    rewrite Hh2, Ht. apply (gpio_ts_read_copy_ok writable st2 Hst2).
    rewrite <- Ht. exact Hw.
  - reflexivity.
  - intros task' p writable' [dp Hdp]. eexists.
    apply (gpio_ts_read_resume_sleeps task' p writable' _ dp);
      [reflexivity | exact Hdp].
Qed.

(** X4.  [poll] on the light-pen device: with no sample pending it reports
    0 and registers the task on the device's queue; a qualifying light-pen
    interrupt wakes the task; [poll] then reports [POLLPRI | POLLIN] and
    changes nothing, so the sample is still there for the [read] that
    follows, after which [poll] reports 0 again. *)
Theorem poll_then_read long_bits task filp writable len ev st d :
  devices_ok st = true ->
  statics_ok st = true ->
  module_unload st = false ->
  have_data st = false ->
  private_data filp = Some 0%nat ->
  deref st 0 = Some d ->
  ev_arg ev = Some 0%nat ->
  128 < as_long long_bits (usecs_of long_bits (ev_time ev) - lastlp st) ->
  ev_lines ev (gpio_odd_even st) <> 0 ->
  let sample := lp_sampled long_bits (ev_time ev) (ev_lines ev) st in
  let text := fmt_record (xpos sample) (ypos sample) (lp_button sample) in
  (length text <= writable)%nat ->
  exists st1 st2 st3 st4,
    gpio_ts_poll task filp st = Some (0, st1)
    /\ handle long_bits ev st1
       = Some (IRQ_HANDLED, st2, waitqueue d ++ [task])
    /\ gpio_ts_poll task filp st2 = Some (Z.lor POLLPRI POLLIN, st2)
    /\ gpio_ts_read task filp writable len st2
       = Some (Returned (Z.of_nat (length text)) text, st3)
    /\ gpio_ts_poll task filp st3 = Some (0, st4).
Proof.
  intros Hok Hst Hu Hh Hp Hd Harg Hdeb Hpar sample text Hw.
  destruct (devices_ok_lp st Hok) as (d' & Hd' & Hn).
  assert (d' = d) as -> by congruence.
  set (dq := set_waitqueue (waitqueue d ++ [task]) d).
  set (st1 := store 0 dq st).
  assert (Hd1 : deref st1 0 = Some dq) by (apply (deref_store_eq st 0 d), Hd).
  set (st2 := store 0 (set_waitqueue [] dq)
                (lp_sampled long_bits (ev_time ev) (ev_lines ev) st1)).
  assert (H2 : handle long_bits ev st1
               = Some (IRQ_HANDLED, st2, waitqueue d ++ [task])).
  { unfold handle. rewrite Harg.
    apply (handler_lp_qualifying long_bits _ _ 0%nat dq st1);
      first [exact Hu | exact Hd1 | exact Hn | exact Hdeb | exact Hpar]. }
  assert (Hd2 : deref st2 0 = Some (set_waitqueue [] dq)).
  { apply (deref_store_eq (lp_sampled long_bits (ev_time ev) (ev_lines ev) st1)
             0 dq). exact Hd1. }
  pose proof (handle_handled _ _ _ _ _ _ H2) as Hs2.
  assert (Hst2 : statics_ok st2 = true).
  { apply (handled_statics_ok _ _ _ _ _ _ Hs2). exact Hst. }
  assert (Ht : text = fmt_record (xpos st2) (ypos st2) (lp_button st2)).
  { subst text sample st2 st1. fields. reflexivity. }
  assert (Hh2 : have_data st2 = true) by reflexivity.
  exists st1, st2. eexists _, _.
  split.
  { unfold gpio_ts_poll. rewrite Hh, Hp. cbn [mbind option_bind].
    rewrite (enqueue_Some st 0 d task Hd). reflexivity. }
  split; [exact H2 |].
  split; [unfold gpio_ts_poll; rewrite Hh2; reflexivity |].
  split.
  { rewrite gpio_ts_read_ready by exact Hh2.
    rewrite Ht. apply (gpio_ts_read_copy_ok writable st2 Hst2).
    rewrite <- Ht. exact Hw. }
  unfold gpio_ts_poll. cbn [have_data set_have_data]. rewrite Hp.
  cbn [mbind option_bind].
  rewrite (enqueue_Some _ 0 (set_waitqueue [] dq) task); [reflexivity |].
  rewrite deref_after_read. exact Hd2.
Qed.

(** ** Files and samples *)

Lemma gpio_ts_open_free minor filp st d :
  deref st minor = Some d ->
  opencount d = 0 ->
  gpio_ts_open minor filp st
  = Some (0, set_private_data (Some minor) filp,
          store minor (set_opencount 1 d) st).
Proof.
  intros Hd Hc. unfold gpio_ts_open. rewrite Hd. cbn [mbind option_bind].
  rewrite Hc. reflexivity.
Qed.

Lemma gpio_ts_open_busy minor filp st d :
  deref st minor = Some d ->
  0 < opencount d ->
  gpio_ts_open minor filp st = Some (- EBUSY, filp, st).
Proof.
  intros Hd Hc. unfold gpio_ts_open. rewrite Hd. cbn [mbind option_bind].
  apply Z.ltb_lt in Hc. rewrite Hc. reflexivity.
Qed.

Lemma gpio_ts_release_eq minor filp st d :
  deref st minor = Some d ->
  gpio_ts_release minor filp st
  = Some (0, set_private_data None filp,
          store minor (set_opencount (as_int (opencount d - 1)) d) st).
Proof. intros Hd. unfold gpio_ts_release. rewrite Hd. reflexivity. Qed.

(** X5.  The handler does not look at the open count: a qualifying
    light-pen interrupt taken while no file is open on the light-pen device
    produces a sample all the same; [open] does not clear it, and the
    first [read] on the file just opened returns that earlier sample. *)
Theorem sample_needs_no_open_file long_bits ev task filp writable len st d :
  devices_ok st = true ->
  statics_ok st = true ->
  module_unload st = false ->
  deref st 0 = Some d ->
  opencount d = 0 ->
  ev_arg ev = Some 0%nat ->
  128 < as_long long_bits (usecs_of long_bits (ev_time ev) - lastlp st) ->
  ev_lines ev (gpio_odd_even st) <> 0 ->
  let sample := lp_sampled long_bits (ev_time ev) (ev_lines ev) st in
  let text := fmt_record (xpos sample) (ypos sample) (lp_button sample) in
  (length text <= writable)%nat ->
  exists st1 woken filp1 st2 st3,
    handle long_bits ev st = Some (IRQ_HANDLED, st1, woken)
    /\ have_data st1 = true
    /\ gpio_ts_open 0 filp st1 = Some (0, filp1, st2)
    /\ have_data st2 = true
    /\ gpio_ts_read task filp1 writable len st2
       = Some (Returned (Z.of_nat (length text)) text, st3)
    /\ have_data st3 = false.
Proof.
  intros Hok Hst Hu Hd Hc Harg Hdeb Hpar sample text Hw.
  destruct (devices_ok_lp st Hok) as (d' & Hd' & Hn).
  assert (d' = d) as -> by congruence.
  set (st1 := store 0 (set_waitqueue [] d)
                (lp_sampled long_bits (ev_time ev) (ev_lines ev) st)).
  assert (H1 : handle long_bits ev st = Some (IRQ_HANDLED, st1, waitqueue d)).
  { unfold handle. rewrite Harg. apply handler_lp_qualifying; assumption. }
  assert (Hd1 : deref st1 0 = Some (set_waitqueue [] d)).
  { apply (deref_store_eq (lp_sampled long_bits (ev_time ev) (ev_lines ev) st)
             0 d). exact Hd. }
  pose proof (handle_handled _ _ _ _ _ _ H1) as Hs1.
  pose proof (handled_statics_ok _ _ _ _ _ _ Hs1 Hst) as Hst1.
  set (st2 := store 0 (set_opencount 1 (set_waitqueue [] d)) st1).
  assert (Hst2 : statics_ok st2 = true)
    by (unfold st2; rewrite statics_ok_store; exact Hst1).
  assert (Hh2 : have_data st2 = true) by reflexivity.
  assert (Ht : text = fmt_record (xpos st2) (ypos st2) (lp_button st2)).
  { subst text sample st2 st1. fields. reflexivity. }
  exists st1, (waitqueue d), (set_private_data (Some 0%nat) filp), st2.
  eexists.
  split; [exact H1 |]. split; [reflexivity |].
  split; [apply (gpio_ts_open_free 0 filp st1 _ Hd1); exact Hc |].
  split; [exact Hh2 |]. split.
  - rewrite gpio_ts_read_ready by exact Hh2.
    rewrite Ht. apply (gpio_ts_read_copy_ok writable st2 Hst2).
    rewrite <- Ht. exact Hw.
  - reflexivity.
Qed.

(** X6.  The open count is kept per device: both devices can be open at
    the same time, each refuses a second [open] with [-EBUSY], and
    releasing one of them frees that one only. *)
Theorem sessions_are_per_device filp st d0 d1 :
  deref st 0 = Some d0 ->
  deref st 1 = Some d1 ->
  opencount d0 = 0 ->
  opencount d1 = 0 ->
  exists f0 st1 f1 st2 f0' st3 f0'' st4,
    gpio_ts_open 0 filp st = Some (0, f0, st1)
    /\ gpio_ts_open 1 filp st1 = Some (0, f1, st2)
    /\ private_data f0 = Some 0%nat /\ private_data f1 = Some 1%nat
    /\ gpio_ts_open 0 filp st2 = Some (- EBUSY, filp, st2)
    /\ gpio_ts_open 1 filp st2 = Some (- EBUSY, filp, st2)
    /\ gpio_ts_release 0 f0 st2 = Some (0, f0', st3)
    /\ gpio_ts_open 1 filp st3 = Some (- EBUSY, filp, st3)
    /\ gpio_ts_open 0 filp st3 = Some (0, f0'', st4).
Proof.
  intros H0 H1 Hc0 Hc1.
  set (st1 := store 0 (set_opencount 1 d0) st).
  assert (H10 : deref st1 0 = Some (set_opencount 1 d0))
    by (apply (deref_store_eq st 0 d0), H0).
  assert (H11 : deref st1 1 = Some d1)
    by (unfold st1; rewrite deref_store_ne by lia; exact H1).
  set (st2 := store 1 (set_opencount 1 d1) st1).
  assert (H21 : deref st2 1 = Some (set_opencount 1 d1))
    by (apply (deref_store_eq st1 1 d1), H11).
  assert (H20 : deref st2 0 = Some (set_opencount 1 d0))
    by (unfold st2; rewrite deref_store_ne by lia; exact H10).
  set (st3 := store 0 (set_opencount (as_int (1 - 1)) (set_opencount 1 d0)) st2).
  assert (H30 : deref st3 0
                = Some (set_opencount (as_int (1 - 1)) (set_opencount 1 d0)))
    by (apply (deref_store_eq st2 0 (set_opencount 1 d0)), H20).
  assert (H31 : deref st3 1 = Some (set_opencount 1 d1))
    by (unfold st3; rewrite deref_store_ne by lia; exact H21).
  exists (set_private_data (Some 0%nat) filp), st1,
    (set_private_data (Some 1%nat) filp), st2.
  eexists _, st3, _, _.
  split; [apply gpio_ts_open_free; assumption |].
  split; [apply gpio_ts_open_free; assumption |].
  split; [reflexivity |]. split; [reflexivity |].
  split; [apply (gpio_ts_open_busy 0 filp st2 _ H20); reflexivity |].
  split; [apply (gpio_ts_open_busy 1 filp st2 _ H21); reflexivity |].
  split; [apply (gpio_ts_release_eq 0 _ st2 _ H20) |].
  split; [apply (gpio_ts_open_busy 1 filp st3 _ H31); reflexivity |].
  apply (gpio_ts_open_free 0 filp st3 _ H30). reflexivity.
Qed.

(** ** The record *)

(** The number of digits follows the size of the number. *)
Lemma utoa_length fuel :
  forall k n acc,
    (0 < k <= fuel)%nat ->
    0 <= n < 10 ^ Z.of_nat k ->
    (length acc < length (utoa fuel n acc) <= k + length acc)%nat.
Proof.
  induction fuel as [| fuel IH]; intros k n acc Hk Hn; [lia |].
  cbn [utoa]. destruct (Z.eqb_spec (n / 10) 0) as [Hq | Hq].
  - cbn [length]. lia.
  - assert (Hk2 : (2 <= k)%nat).
    { destruct k as [| [| k]]; [lia | | lia].
      change (10 ^ Z.of_nat 1) with 10 in Hn.
      rewrite Z.div_small in Hq by lia. contradiction. }
    assert (Hn' : 0 <= n / 10 < 10 ^ Z.of_nat (k - 1)).
    { split; [apply Z.div_pos; lia |].
      apply Z.div_lt_upper_bound; [lia |].
      replace (Z.of_nat k) with (Z.succ (Z.of_nat (k - 1))) in Hn by lia.
      rewrite Z.pow_succ_r in Hn by lia. lia. }
    specialize (IH (k - 1)%nat (n / 10) (digit (n mod 10) :: acc)
                  ltac:(lia) Hn').
    cbn [length] in IH. lia.
Qed.

Lemma fmt_i_length_short z :
  - 2 ^ 15 <= z < 2 ^ 15 -> (0 < length (fmt_i z) <= 6)%nat.
Proof.
  intros Hz. unfold fmt_i. destruct (Z.ltb_spec z 0).
  - pose proof (utoa_length 10 5 (- z) [] ltac:(lia)
                  ltac:(change (10 ^ Z.of_nat 5) with 100000; lia)) as H1.
    cbn [length] in *. lia.
  - pose proof (utoa_length 10 5 z [] ltac:(lia)
                  ltac:(change (10 ^ Z.of_nat 5) with 100000; lia)) as H1.
    cbn [length] in *. lia.
Qed.

Lemma fmt_record_length x y b :
  - 2 ^ 31 <= x < 2 ^ 31 ->
  - 2 ^ 31 <= y < 2 ^ 31 ->
  - 2 ^ 15 <= b < 2 ^ 15 ->
  (6 <= length (fmt_record x y b) <= 31)%nat.
Proof.
  intros Hx Hy Hb.
  destruct (fmt_i_spec x Hx) as (Lx & _).
  destruct (fmt_i_spec y Hy) as (Ly & _).
  pose proof (fmt_i_length_short b Hb) as Lb.
  unfold fmt_record.
  rewrite !length_app. cbn [length]. rewrite !length_app. cbn [length].
  rewrite !length_app. cbn [length]. lia.
Qed.

(** Whatever the offset, the two assignments to [ypos] and [xpos] leave in
    [xpos] the remainder of the truncating division of the offset by the
    line length. *)
Lemma decode_rem (long_bits off : Z) :
  32 <= long_bits ->
  as_int (as_long long_bits
            (off - as_int (as_int (off ÷ PAL_LINE_LENGTH) * PAL_LINE_LENGTH)))
  = Z.rem off PAL_LINE_LENGTH.
Proof.
  intros Hb. unfold as_long, as_int, PAL_LINE_LENGTH.
  rewrite wrap_narrow by lia.
  rewrite wrap_sub_wrap_r by lia.
  assert (H : wrap 32 (off - wrap 32 (off ÷ 64) * 64) = wrap 32 (Z.rem off 64)).
  { apply wrap_congr.
    rewrite Zminus_mod, (Zmult_mod (wrap 32 (off ÷ 64))), wrap_mod by lia.
    rewrite <- Zmult_mod, <- Zminus_mod.
    f_equal. pose proof (Z.quot_rem' off 64). lia. }
  rewrite H. apply wrap_id; [lia |].
  pose proof (Z.rem_bound_abs off 64 ltac:(lia)). lia.
Qed.

(** [xpos] stays strictly between minus and plus the line length. *)
Lemma handled_xpos long_bits ev st r st' woken :
  32 <= long_bits ->
  handled long_bits ev st r st' woken ->
  - PAL_LINE_LENGTH < xpos st < PAL_LINE_LENGTH ->
  - PAL_LINE_LENGTH < xpos st' < PAL_LINE_LENGTH.
Proof.
  intros Hb H Hx. destruct H; fields; try exact Hx.
  rewrite decode_rem by exact Hb.
  pose proof (Z.rem_bound_abs
                (as_long long_bits
                   (usecs_of long_bits (ev_time ev) - lastvsync st))
                PAL_LINE_LENGTH ltac:(discriminate)).
  unfold PAL_LINE_LENGTH in *. lia.
Qed.

Lemma wait_event_xpos task devinfo st ready st' :
  wait_event_have_data task devinfo st = Some (ready, st') ->
  xpos st' = xpos st.
Proof.
  unfold wait_event_have_data, enqueue. destruct (have_data st).
  - intros [= <- <-]. reflexivity.
  - destruct devinfo as [p |]; [| discriminate]. cbn [mbind option_bind].
    destruct (deref st p) as [d |]; [| discriminate].
    cbn [mbind option_bind]. intros [= <- <-]. reflexivity.
Qed.

Lemma gpio_ts_read_copy_xpos writable st res st' :
  gpio_ts_read_copy writable st = Some (res, st') -> xpos st' = xpos st.
Proof.
  unfold gpio_ts_read_copy.
  destruct (sprintf _ _) as [msg |]; [| discriminate].
  cbn [mbind option_bind]. unfold copy_to_user.
  destruct (negb _); intros [= _ <-]; reflexivity.
Qed.

Lemma step_xpos long_bits st st' :
  32 <= long_bits ->
  step long_bits st st' ->
  - PAL_LINE_LENGTH < xpos st < PAL_LINE_LENGTH ->
  - PAL_LINE_LENGTH < xpos st' < PAL_LINE_LENGTH.
Proof.
  intros Hb Hstep Hx.
  destruct Hstep as [ev irq r st' woken _ H | minor filp r filp' st' H
    | minor filp r filp' st' H | task filp writable len res st' H
    | task devinfo writable res st' H | task filp r st' H].
  - apply handle_handled in H. exact (handled_xpos _ _ _ _ _ _ Hb H Hx).
  - unfold gpio_ts_open in H.
    destruct (deref st minor) as [d |]; [| discriminate].
    cbn [mbind option_bind] in H.
    destruct (0 <? opencount d); injection H as _ _ <-; exact Hx.
  - unfold gpio_ts_release in H.
    destruct (deref st minor) as [d |]; [| discriminate].
    cbn [mbind option_bind] in H. injection H as _ _ <-. exact Hx.
  - unfold gpio_ts_read in H. destruct (negb (have_data st)).
    + destruct (negb _); [injection H as _ <-; exact Hx |].
      destruct (wait_event_have_data task (private_data filp) st)
        as [[[|] st1] |] eqn:Hw; [| | discriminate].
      * rewrite (gpio_ts_read_copy_xpos _ _ _ _ H),
          (wait_event_xpos _ _ _ _ _ Hw). exact Hx.
      * injection H as _ <-. rewrite (wait_event_xpos _ _ _ _ _ Hw). exact Hx.
    + rewrite (gpio_ts_read_copy_xpos _ _ _ _ H). exact Hx.
  - unfold gpio_ts_read_resume in H.
    destruct (wait_event_have_data task devinfo st)
      as [[[|] st1] |] eqn:Hw; [| | discriminate].
    + rewrite (gpio_ts_read_copy_xpos _ _ _ _ H),
        (wait_event_xpos _ _ _ _ _ Hw). exact Hx.
    + injection H as _ <-. rewrite (wait_event_xpos _ _ _ _ _ Hw). exact Hx.
  - unfold gpio_ts_poll in H. destruct (have_data st).
    + injection H as _ <-. exact Hx.
    + destruct (private_data filp) as [p |]; [| discriminate].
      cbn [mbind option_bind] in H. unfold enqueue in H.
      destruct (deref st p) as [d |]; [| discriminate].
      cbn [mbind option_bind] in H. injection H as _ <-. exact Hx.
Qed.

Lemma gpio_ts_init_xpos k gpios button odd_even st :
  gpio_ts_init k (module_load gpios button odd_even) = (0, st) ->
  xpos st = 0.
Proof.
  unfold gpio_ts_init. fields.
  destruct (Z.eqb_spec (gpio_ts_nb_gpios (module_load gpios button odd_even)) 2)
    as [Hnb | Hnb]; cbn [negb]; [| discriminate].
  rewrite Hnb. change (Z.to_nat 2) with 2%nat.
  destruct (gpios_valid k _ 0 2); cbn [negb]; [| discriminate].
  destruct (gpio_is_valid k _); cbn [negb]; [| discriminate].
  destruct (Z.eqb_spec (alloc_chrdev_region k) 0) as [Ha | Ha]; cbn [negb].
  2:{ intros [= H _]. contradiction. }
  destruct (class_create_IS_ERR k); [discriminate |].
  cbn [create_devices].
  destruct (kzalloc k 0); [| discriminate].
  destruct (kzalloc k 1); [| discriminate].
  destruct (Z.eqb_spec (cdev_add k) 0) as [Hc | Hc]; cbn [negb].
  2:{ intros [= H _]. contradiction. }
  cbn [setup_irqs].
  destruct (request_irq k _ =? 0); cbn [negb]; [| discriminate].
  destruct (request_irq k _ =? 0); cbn [negb]; [| discriminate].
  intros [= <-]. reflexivity.
Qed.

(** In every state reached after a successful start-up [xpos] is zero or a
    remainder of a division by the line length. *)
Lemma reachable_xpos long_bits st :
  32 <= long_bits ->
  reachable long_bits st ->
  - PAL_LINE_LENGTH < xpos st < PAL_LINE_LENGTH.
Proof.
  intros Hb. induction 1 as [k gpios button odd_even st Hinit | st st' _ IH Hstep].
  - rewrite (gpio_ts_init_xpos _ _ _ _ _ Hinit). unfold PAL_LINE_LENGTH. lia.
  - exact (step_xpos _ _ _ Hb Hstep IH).
Qed.

Lemma fmt_i_length_line z :
  - PAL_LINE_LENGTH < z < PAL_LINE_LENGTH -> (length (fmt_i z) <= 3)%nat.
Proof.
  unfold PAL_LINE_LENGTH. intros Hz. unfold fmt_i.
  destruct (Z.ltb_spec z 0).
  - pose proof (utoa_length 10 2 (- z) [] ltac:(lia)
                  ltac:(change (10 ^ Z.of_nat 2) with 100; lia)) as H1.
    cbn [length] in *. lia.
  - pose proof (utoa_length 10 2 z [] ltac:(lia)
                  ltac:(change (10 ^ Z.of_nat 2) with 100; lia)) as H1.
    cbn [length] in *. lia.
Qed.

(** The handler's reading of the clock at [t] microseconds. *)
Lemma usecs_of_usec long_bits t :
  32 <= long_bits -> 0 <= t < 2 ^ 31 -> usecs_of long_bits (usec t) = t.
Proof.
  intros Hb Ht. unfold usecs_of, usec, as_long. cbn [tv_sec tv_nsec].
  assert (Hp : 2 ^ 31 <= 2 ^ (long_bits - 1)) by (apply Z.pow_le_mono_r; lia).
  rewrite Z.quot_mul by lia.
  pose proof (Z.quot_rem' t 1000000) as Hq.
  pose proof (Z.rem_bound_pos t 1000000 ltac:(lia) ltac:(lia)) as Hr.
  assert (Hq0 : 0 <= t ÷ 1000000) by (apply Z.quot_pos; lia).
  rewrite (wrap_id long_bits (t ÷ 1000000 * 1000000)) by lia.
  replace (t ÷ 1000000 * 1000000 + Z.rem t 1000000) with t by lia.
  apply wrap_id; lia.
Qed.

(** The light-pen device is opened after start-up, and the first light-pen
    edge comes 192 microseconds after time zero with the parity line high
    and the button up: the sample is (0, 3, 0). *)
Lemma third_line_edge long_bits :
  32 <= long_bits ->
  let st1 := store 0 (set_waitqueue []
                        {| ts := {| tv_sec := 0; tv_nsec := 0 |}; usecs := 0;
                           waitqueue := []; opencount := 1; num := 0 |})
               (lp_sampled long_bits (usec 192) (lines loaded 1 0) opened) in
  handle long_bits (lp_edge 192 1 0) opened = Some (IRQ_HANDLED, st1, [])
  /\ xpos st1 = 0 /\ ypos st1 = 3 /\ lp_button st1 = 0.
Proof.
  intros Hb st1.
  assert (Hu : usecs_of long_bits (usec 192) = 192)
    by (apply usecs_of_usec; lia).
  assert (Hp : 2 ^ 31 <= 2 ^ (long_bits - 1)) by (apply Z.pow_le_mono_r; lia).
  assert (Hoff : as_long long_bits (192 - 0) = 192)
    by (apply wrap_id; lia).
  split; [| split; [| split]].
  - unfold handle, lp_edge. cbn [ev_arg ev_time ev_lines].
    apply (handler_lp_qualifying long_bits (usec 192) (lines loaded 1 0) 0%nat).
    + reflexivity.
    + reflexivity.
    + reflexivity.
    + rewrite Hu. change (lastlp opened) with 0. rewrite Hoff. lia.
    + discriminate.
  - unfold st1. fields. rewrite decode_rem by exact Hb.
    rewrite Hu. change (lastvsync opened) with 0. rewrite Hoff. reflexivity.
  - unfold st1. fields.
    rewrite Hu. change (lastvsync opened) with 0. rewrite Hoff. reflexivity.
  - unfold st1. fields. reflexivity.
Qed.

Lemma opened_eq :
  gpio_ts_open 0 {| f_flags := 0; private_data := None |} loaded
  = Some (0, lp_file, opened).
Proof. reflexivity. Qed.

Lemma third_line_reachable long_bits st1 woken :
  handle long_bits (lp_edge 192 1 0) opened = Some (IRQ_HANDLED, st1, woken) ->
  reachable long_bits st1.
Proof.
  intros H1. apply (reachable_step long_bits opened).
  - apply (reachable_step long_bits loaded).
    + apply (reachable_init long_bits good_kernel [17; 27] 22 23).
      apply loaded_ok.
    + apply (step_open long_bits loaded 0%nat
               {| f_flags := 0; private_data := None |} 0 lp_file opened).
      exact opened_eq.
  - apply (step_irq long_bits opened (lp_edge 192 1 0) 177 IRQ_HANDLED st1 woken);
      [| exact H1].
    vm_compute. apply list_elem_of_here.
Qed.

(** The read that follows it, asked for one byte, stores six. *)
Lemma third_line_read long_bits :
  32 <= long_bits ->
  exists st1 woken st2,
    gpio_ts_open 0 {| f_flags := 0; private_data := None |} loaded
    = Some (0, lp_file, opened)
    /\ handle long_bits (lp_edge 192 1 0) opened
       = Some (IRQ_HANDLED, st1, woken)
    /\ reachable long_bits st1
    /\ gpio_ts_read 7 lp_file 4096 1 st1
       = Some (Returned 6 (list_ascii_of_string "0,3,0" ++ [newline]), st2).
Proof.
  intros Hb.
  destruct (third_line_edge long_bits Hb) as (H1 & Hx & Hy & Hbt).
  pose proof (third_line_reachable _ _ _ H1) as Hreach.
  destruct (reachable_invariant _ _ Hreach) as (_ & Hok & _).
  eexists _, _, _. split; [exact opened_eq |].
  split; [exact H1 |]. split; [exact Hreach |].
  rewrite gpio_ts_read_ready by reflexivity.
  rewrite gpio_ts_read_copy_ok.
  - cbn zeta. rewrite Hx, Hy, Hbt. reflexivity.
  - exact Hok.
  - cbn zeta. rewrite Hx, Hy, Hbt. vm_compute. lia.
Qed.

(** X7.  [gpio_ts_read] never looks at the requested length.  A read that
    returns a byte count returns between 6 and 31, the length of what it
    has stored in the caller's buffer, whatever count the caller asked for:
    asked for fewer than 6 bytes, it stores more than it was asked for.  In
    a state reached after a successful start-up [xpos] lies strictly
    between -64 and 64, the handler storing a remainder whatever the
    offset, and the count is at most 23.  The lower bound is reached by a
    read: the device opened and a first light-pen edge taken at 192
    microseconds, a read asked for one byte stores the six bytes of
    ["0,3,0\n"]. *)
Theorem read_count_ignores_length long_bits :
  32 <= long_bits ->
  (forall task filp writable len st r copied st',
      statics_ok st = true ->
      gpio_ts_read task filp writable len st = Some (Returned r copied, st') ->
      0 <= r ->
      6 <= r <= 31
      /\ Z.of_nat (length copied) = r
      /\ (len < 6 -> len < Z.of_nat (length copied)))
  /\ (forall task filp writable len st r copied st',
         reachable long_bits st ->
         gpio_ts_read task filp writable len st = Some (Returned r copied, st') ->
         0 <= r ->
         - PAL_LINE_LENGTH < xpos st < PAL_LINE_LENGTH /\ r <= 23)
  /\ (exists st1 woken st2,
         gpio_ts_open 0 {| f_flags := 0; private_data := None |} loaded
         = Some (0, lp_file, opened)
         /\ handle long_bits (lp_edge 192 1 0) opened
            = Some (IRQ_HANDLED, st1, woken)
         /\ reachable long_bits st1
         /\ gpio_ts_read 7 lp_file 4096 1 st1
            = Some (Returned 6 (list_ascii_of_string "0,3,0" ++ [newline]), st2)).
Proof.
  intros Hb. split; [| split].
  - intros task filp writable len st r copied st' Hok H Hr.
    destruct (statics_ok_fields st Hok) as (_ & Hx & Hy & Hbt).
    destruct (gpio_ts_read_returned _ _ _ _ _ _ _ _ (or_introl H))
      as [[_ Hc] | ->]; [| unfold EAGAIN in Hr; lia].
    destruct (gpio_ts_read_copy_success _ _ _ _ _ Hok Hc Hr) as (-> & -> & _).
    pose proof (fmt_record_length _ _ _ Hx Hy Hbt). lia.
  - intros task filp writable len st r copied st' Hreach H Hr.
    destruct (reachable_invariant _ _ Hreach) as (_ & Hok & _).
    pose proof (reachable_xpos _ _ Hb Hreach) as Hx.
    split; [exact Hx |].
    destruct (statics_ok_fields st Hok) as (_ & _ & Hy & Hbt).
    destruct (gpio_ts_read_returned _ _ _ _ _ _ _ _ (or_introl H))
      as [[_ Hc] | ->]; [| unfold EAGAIN in Hr; lia].
    destruct (gpio_ts_read_copy_success _ _ _ _ _ Hok Hc Hr) as (-> & _ & _).
    pose proof (fmt_i_length_line _ Hx) as Lx.
    destruct (fmt_i_spec _ Hy) as (Ly & _).
    pose proof (fmt_i_length_short _ Hbt) as Lb.
    unfold fmt_record.
    rewrite !length_app. cbn [length]. rewrite !length_app. cbn [length].
    rewrite !length_app. cbn [length]. lia.
  - exact (third_line_read long_bits Hb).
Qed.

Lemma split_at_separator (c : ascii) l1 :
  forall l2 r1 r2,
    Forall (fun a => a <> c) l1 ->
    Forall (fun a => a <> c) l2 ->
    l1 ++ c :: r1 = l2 ++ c :: r2 ->
    l1 = l2 /\ r1 = r2.
Proof.
  induction l1 as [| a l1 IH]; intros l2 r1 r2 H1 H2 Heq.
  - destruct l2 as [| b l2].
    + injection Heq as ->. auto.
    + injection Heq as <- _. apply Forall_cons_1 in H2 as [H2 _]. contradiction.
  - apply Forall_cons_1 in H1 as [Ha H1]. destruct l2 as [| b l2].
    + injection Heq as -> _. contradiction.
    + apply Forall_cons_1 in H2 as [_ H2]. injection Heq as -> Heq.
      destruct (IH l2 r1 r2 H1 H2 Heq) as [-> ->]. auto.
Qed.

(** X8.  The record determines the sample: two samples with the same text
    have the same coordinates and the same button state. *)
Theorem record_determines_sample x y b x' y' b' :
  - 2 ^ 31 <= x < 2 ^ 31 -> - 2 ^ 31 <= y < 2 ^ 31 -> - 2 ^ 31 <= b < 2 ^ 31 ->
  - 2 ^ 31 <= x' < 2 ^ 31 -> - 2 ^ 31 <= y' < 2 ^ 31 -> - 2 ^ 31 <= b' < 2 ^ 31 ->
  fmt_record x y b = fmt_record x' y' b' ->
  x = x' /\ y = y' /\ b = b'.
Proof.
  intros Hx Hy Hb Hx' Hy' Hb' Heq. unfold fmt_record in Heq.
  destruct (fmt_i_spec x Hx) as (_ & Fx & Ax).
  destruct (fmt_i_spec y Hy) as (_ & Fy & Ay).
  destruct (fmt_i_spec b Hb) as (_ & _ & Ab).
  destruct (fmt_i_spec x' Hx') as (_ & Fx' & Ax').
  destruct (fmt_i_spec y' Hy') as (_ & Fy' & Ay').
  destruct (fmt_i_spec b' Hb') as (_ & _ & Ab').
  assert (Hc : forall s,
             Forall (fun c => c <> comma /\ c <> newline /\ c <> NUL) s ->
             Forall (fun c => c <> comma) s).
  { intros s Hs. eapply Forall_impl; [exact Hs |]. intros c (H & _). exact H. }
  destruct (split_at_separator comma _ _ _ _ (Hc _ Fx) (Hc _ Fx') Heq)
    as [Ex Heq1].
  destruct (split_at_separator comma _ _ _ _ (Hc _ Fy) (Hc _ Fy') Heq1)
    as [Ey Heq2].
  apply app_inv_tail in Heq2.
  rewrite <- Ax, <- Ay, <- Ab, Ex, Ey, Heq2. auto.
Qed.

(** ** Start-up, success and failure *)

(** [gpio_ts_init] on a module loaded with two pins, the sanity checks
    passed or not. *)
Lemma gpio_ts_init_two k g0 g1 button odd_even :
  gpio_ts_init k (module_load [g0; g1] button odd_even)
  = let st := set_devtable [None; None]
                (set_have_data false (module_load [g0; g1] button odd_even)) in
    if negb (gpio_is_valid k g0 && (gpio_is_valid k g1 && true))
    then (- ENODEV, st)
    else if negb (gpio_is_valid k button) then (- ENODEV, st)
    else if negb (gpio_is_valid k button) then (- ENODEV, st)
    else if negb (alloc_chrdev_region k =? 0) then (alloc_chrdev_region k, st)
    else if class_create_IS_ERR k then (- EINVAL, st)
    else
      match create_devices k 0 2 st with
      | (0, st) =>
        if negb (cdev_add k =? 0) then (cdev_add k, free_devices 0 2 st)
        else setup_irqs k 0 2 st
      | (err, st) => (err, st)
      end.
Proof. reflexivity. Qed.

(** X9.  [gpio_ts_init] returns 0 exactly when two pins were given, both
    of them and the button pin are valid, the device region, the class,
    both allocations and [cdev_add] succeed and both interrupts are
    granted.  The parity pin plays no part. *)
Theorem init_succeeds_iff k gpios button odd_even :
  fst (gpio_ts_init k (module_load gpios button odd_even)) = 0
  <-> (length gpios = 2%nat
       /\ gpio_is_valid k (nth 0 gpios 0) = true
       /\ gpio_is_valid k (nth 1 gpios 0) = true
       /\ gpio_is_valid k button = true
       /\ alloc_chrdev_region k = 0
       /\ class_create_IS_ERR k = false
       /\ kzalloc k 0 = true
       /\ kzalloc k 1 = true
       /\ cdev_add k = 0
       /\ request_irq k (gpio_to_irq k (nth 0 gpios 0)) = 0
       /\ request_irq k (gpio_to_irq k (nth 1 gpios 0)) = 0).
Proof.
  destruct (Nat.eq_dec (length gpios) 2%nat) as [Hlen | Hlen].
  2:{ split; [| intros (H & _); contradiction].
      unfold gpio_ts_init, module_load. fields.
      destruct (Z.eqb_spec (Z.of_nat (length gpios)) 2) as [H | H]; [lia |].
      cbn [negb fst]. discriminate. }
  destruct gpios as [| g0 [| g1 [| g2 gpios]]]; try discriminate Hlen.
  rewrite gpio_ts_init_two. cbn zeta. cbn [nth].
  destruct (gpio_is_valid k g0) eqn:V0; cbn [andb negb];
    [| split; [discriminate | intros (_ & H & _); discriminate]].
  destruct (gpio_is_valid k g1) eqn:V1; cbn [andb negb];
    [| split; [discriminate | intros (_ & _ & H & _); discriminate]].
  destruct (gpio_is_valid k button) eqn:Vb; cbn [andb negb];
    [| split; [discriminate | intros (_ & _ & _ & H & _); discriminate]].
  destruct (Z.eqb_spec (alloc_chrdev_region k) 0) as [Ha | Ha]; cbn [negb];
    [| split; [cbn [fst]; intros H; contradiction
              | intros (_ & _ & _ & _ & H & _); contradiction]].
  destruct (class_create_IS_ERR k) eqn:Hc;
    [split; [discriminate | intros (_ & _ & _ & _ & _ & H & _); discriminate] |].
  cbn [create_devices].
  unfold ENOMEM. change (Z.opp 12) with (Z.neg 12).
  destruct (kzalloc k 0) eqn:K0;
    [| split; [discriminate
              | intros (_ & _ & _ & _ & _ & _ & H & _); discriminate]].
  destruct (kzalloc k 1) eqn:K1;
    [| split; [discriminate
              | intros (_ & _ & _ & _ & _ & _ & _ & H & _); discriminate]].
  destruct (Z.eqb_spec (cdev_add k) 0) as [Hd | Hd]; cbn [negb];
    [| split; [cbn [fst]; intros H; contradiction
              | intros (_ & _ & _ & _ & _ & _ & _ & _ & H & _); contradiction]].
  cbn [setup_irqs]. fields. unfold module_load. fields.
  change (take GPIO_TS_NB_ENTRIES_MAX ([g0; g1] ++ [0; 0])) with [g0; g1].
  cbn [nth].
  destruct (Z.eqb_spec (request_irq k (gpio_to_irq k g0)) 0) as [R0 | R0];
    cbn [negb];
    [| split; [discriminate
              | intros (_ & _ & _ & _ & _ & _ & _ & _ & _ & H & _);
                contradiction]].
  destruct (Z.eqb_spec (request_irq k (gpio_to_irq k g1)) 0) as [R1 | R1];
    cbn [negb];
    [| split; [discriminate
              | intros (_ & _ & _ & _ & _ & _ & _ & _ & _ & _ & H);
                contradiction]].
  split; [intros _; repeat split; assumption | reflexivity].
Qed.

(** X10.  A start-up that fails leaves no sample pending and, but for one
    case, no handler: when it is the interrupt of the VSYNC line that is
    refused, [gpio_ts_init] returns [-ENODEV] and the handler of the
    light-pen line, granted just before, stays installed on a live device
    structure, the module not marked as unloading. *)
Theorem init_failure k gpios button odd_even r st :
  gpio_ts_init k (module_load gpios button odd_even) = (r, st) ->
  r <> 0 ->
  have_data st = false
  /\ module_unload st = false
  /\ (irq_actions st = []
      \/ (r = - ENODEV
          /\ request_irq k (gpio_to_irq k (nth 1 gpios 0)) <> 0
          /\ irq_actions st = [(gpio_to_irq k (nth 0 gpios 0), Some 0%nat)]
          /\ is_dev st 0 0 = true
          /\ deref st 1 = None)).
Proof.
  destruct (Nat.eq_dec (length gpios) 2%nat) as [Hlen | Hlen].
  2:{ unfold gpio_ts_init, module_load. fields.
      destruct (Z.eqb_spec (Z.of_nat (length gpios)) 2) as [H | H]; [lia |].
      cbn [negb]. intros [= <- <-] Hr. auto. }
  destruct gpios as [| g0 [| g1 [| g2 gpios]]]; try discriminate Hlen.
  rewrite gpio_ts_init_two. cbn zeta. cbn [nth].
  destruct (negb (gpio_is_valid k g0 && (gpio_is_valid k g1 && true)));
    [intros [= <- <-] Hr; auto |].
  destruct (negb (gpio_is_valid k button));
    [intros [= <- <-] Hr; auto |].
  destruct (negb (alloc_chrdev_region k =? 0));
    [intros [= <- <-] Hr; auto |].
  destruct (class_create_IS_ERR k); [intros [= <- <-] Hr; auto |].
  cbn [create_devices]. unfold ENOMEM.
  change (Z.opp 12) with (Z.neg 12).
  destruct (kzalloc k 0); [| intros [= <- <-] Hr; auto].
  destruct (kzalloc k 1); [| intros [= <- <-] Hr; auto].
  destruct (negb (cdev_add k =? 0)); [intros [= <- <-] Hr; auto |].
  cbn [setup_irqs]. fields. unfold module_load. fields.
  change (take GPIO_TS_NB_ENTRIES_MAX ([g0; g1] ++ [0; 0])) with [g0; g1].
  cbn [nth].
  destruct (Z.eqb_spec (request_irq k (gpio_to_irq k g0)) 0) as [R0 | R0];
    cbn [negb]; [| intros [= <- <-] Hr; auto].
  destruct (Z.eqb_spec (request_irq k (gpio_to_irq k g1)) 0) as [R1 | R1];
    cbn [negb]; intros [= <- <-] Hr.
  - contradiction.
  - split; [reflexivity |]. split; [reflexivity |]. right.
    repeat split; try reflexivity. exact R1.
Qed.

(** ** Module unload *)










(** ** No entry point faults *)

Lemma devices_ok_deref st p :
  devices_ok st = true -> (p < 2)%nat -> is_Some (deref st p).
Proof.
  intros Hok Hp.
  destruct (devices_ok_lp st Hok) as (d0 & H0 & _).
  destruct (devices_ok_vsync st Hok) as (d1 & H1 & _).
  destruct p as [| [| p]]; [rewrite H0 | rewrite H1 | lia]; eauto.
Qed.

Lemma gpio_ts_read_copy_returns writable st :
  statics_ok st = true -> is_Some (gpio_ts_read_copy writable st).
Proof.
  intros Hok.
  destruct (Nat.le_gt_cases
              (length (fmt_record (xpos st) (ypos st) (lp_button st))) writable)
    as [Hw | Hw].
  - rewrite gpio_ts_read_copy_ok by assumption. eauto.
  - rewrite gpio_ts_read_copy_fault by assumption. eauto.
Qed.

(** X14.  In every state reached after a successful start-up no entry
    point dereferences a pointer to nothing or overruns the message
    buffer: every interrupt the kernel delivers to an installed handler
    returns, [open] and [release] on either minor return, and [read] and
    [poll] on a file opened on either device return or put the task to
    sleep. *)
Theorem reachable_entries_return long_bits st :
  reachable long_bits st ->
  (forall ev irq,
      (irq, ev_arg ev) ∈ irq_actions st ->
      is_Some (handle long_bits ev st))
  /\ (forall minor filp,
         (minor < 2)%nat ->
         is_Some (gpio_ts_open minor filp st)
         /\ is_Some (gpio_ts_release minor filp st))
  /\ (forall task filp writable len p,
         private_data filp = Some p ->
         (p < 2)%nat ->
         is_Some (gpio_ts_read task filp writable len st)
         /\ is_Some (gpio_ts_poll task filp st)).
Proof.
  intros Hr.
  destruct (reachable_invariant _ _ Hr) as (Hdev & Hst & _ & Hirq).
  split; [| split].
  - intros ev irq Hin.
    destruct (handle_line_returns long_bits ev st Hdev (Hirq _ _ Hin))
      as (r & st' & w & H & _).
    rewrite H. eauto.
  - intros minor filp Hm.
    destruct (devices_ok_deref st minor Hdev Hm) as [d Hd]. split.
    + unfold gpio_ts_open. rewrite Hd. cbn [mbind option_bind].
      destruct (0 <? opencount d); eauto.
    + rewrite (gpio_ts_release_eq minor filp st d Hd). eauto.
  - intros task filp writable len p Hp Hlt.
    destruct (devices_ok_deref st p Hdev Hlt) as [d Hd]. split.
    + unfold gpio_ts_read, wait_event_have_data.
      destruct (have_data st); cbn [negb].
      * apply gpio_ts_read_copy_returns, Hst.
      * destruct (negb _); [eauto |].
        rewrite Hp. cbn [mbind option_bind].
        rewrite (enqueue_Some st p d task Hd). cbn [mbind option_bind]. eauto.
    + unfold gpio_ts_poll. destruct (have_data st); [eauto |].
      rewrite Hp. cbn [mbind option_bind].
      rewrite (enqueue_Some st p d task Hd). cbn [mbind option_bind]. eauto.
Qed.

(** ** Scenarios for the further properties *)

Lemma vsync_then_pen_witness :
  exists st1 st2 woken,
    gpio_ts_handler 32 (usec 4294967000) (lines loaded 0 0) (Some 1%nat) loaded
    = Some (IRQ_HANDLED, st1, [])
    /\ gpio_ts_handler 32 (usec 4294968000) (lines loaded 1 1) (Some 0%nat) st1
       = Some (IRQ_HANDLED, st2, woken)
    /\ usecs_of 32 (usec 4294967000) = -296
    /\ usecs_of 32 (usec 4294968000) = 704
    /\ have_data st2 = true
    /\ xpos st2 = 40
    /\ ypos st2 = 15.
Proof.
  destruct (vsync_then_pen 32 (usec 4294967000) (usec 4294968000)
              (lines loaded 0 0) (lines loaded 1 1) loaded)
    as (st1 & st2 & woken & H1 & H2 & _ & Hq).
  - lia.
  - reflexivity.
  - reflexivity.
  - vm_compute. split; [discriminate | reflexivity].
  - vm_compute. reflexivity.
  - destruct Hq as (Hh & Hx & Hy & _).
    + vm_compute. lia.
    + vm_compute. reflexivity.
    + exists st1, st2, woken.
      split; [exact H1 |]. split; [exact H2 |].
      split; [reflexivity |]. split; [reflexivity |].
      split; [exact Hh |]. split; [exact Hx | exact Hy].
Defined.

Lemma pen_sample_after_run_witness :
  exists st1 w1 st2 w2,
    run 64 [vsync_edge 1000; lp_edge 2000 1 1; vsync_edge 21000] loaded
    = Some (st1, w1)
    /\ handle 64 (lp_edge 22000 1 0) st1 = Some (IRQ_HANDLED, st2, w2)
    /\ have_data st2 = true
    /\ 0 <= xpos st2 < PAL_LINE_LENGTH
    /\ 2 <= ypos st2.
Proof.
  destruct (pen_sample_after_run 64 0 100000
              [vsync_edge 1000; lp_edge 2000 1 1; vsync_edge 21000]
              (lp_edge 22000 1 0) loaded)
    as (st1 & w1 & st2 & w2 & Hrun & Hh & Hle & _ & Hq).
  - lia.
  - vm_compute. reflexivity.
  - vm_compute. reflexivity.
  - reflexivity.
  - reflexivity.
  - vm_compute. split; discriminate.
  - vm_compute. discriminate.
  - repeat (apply Forall_cons; split); try apply Forall_nil_2;
      (split; [first [left; reflexivity | right; reflexivity]
              | vm_compute; split; discriminate]).
  - reflexivity.
  - vm_compute. split; discriminate.
  - assert (Hc : run 64 [vsync_edge 1000; lp_edge 2000 1 1; vsync_edge 21000]
                   loaded
                 = Some (after 64 [vsync_edge 1000; lp_edge 2000 1 1;
                                   vsync_edge 21000] loaded, []))
      by (vm_compute; reflexivity).
    rewrite Hc in Hrun. injection Hrun as <- <-.
    destruct Hq as (Hd & _ & _ & _ & Hx & Hy).
    + vm_compute. lia.
    + vm_compute. reflexivity.
    + eexists _, _, st2, w2. split; [exact Hc |]. split; [exact Hh |].
      split; [exact Hd |]. split; [exact Hx | exact Hy].
Defined.

Lemma blocked_reader_gets_sample_witness :
  exists st1 st2 st3,
    gpio_ts_read 7 lp_file 4096 4096 opened = Some (Asleep, st1)
    /\ handle 64 (lp_edge 1000 1 1) st1 = Some (IRQ_HANDLED, st2, [7%nat])
    /\ gpio_ts_read_resume 7 (Some 0%nat) 4096 st2
       = Some (Returned 8 (list_ascii_of_string "40,15,1" ++ [newline]), st3)
    /\ have_data st3 = false.
Proof.
  destruct (blocked_reader_gets_sample 64 7%nat lp_file 4096%nat 4096
              (lp_edge 1000 1 1) opened
              {| ts := {| tv_sec := 0; tv_nsec := 0 |}; usecs := 0;
                 waitqueue := []; opencount := 1; num := 0 |})
    as (st1 & st2 & st3 & H1 & H2 & _ & H3 & H4 & _).
  - reflexivity.
  - reflexivity.
  - reflexivity.
  - reflexivity.
  - reflexivity.
  - reflexivity.
  - reflexivity.
  - reflexivity.
  - vm_compute. reflexivity.
  - vm_compute. lia.
  - vm_compute. lia.
  - exists st1, st2, st3. split; [exact H1 |]. split; [exact H2 |].
    split; [exact H3 | exact H4].
Defined.

Lemma poll_then_read_witness :
  exists st1 st2 st3 st4,
    gpio_ts_poll 7 lp_file opened = Some (0, st1)
    /\ handle 64 (lp_edge 1000 1 1) st1 = Some (IRQ_HANDLED, st2, [7%nat])
    /\ gpio_ts_poll 7 lp_file st2 = Some (3, st2)
    /\ gpio_ts_read 7 lp_file 4096 4096 st2
       = Some (Returned 8 (list_ascii_of_string "40,15,1" ++ [newline]), st3)
    /\ gpio_ts_poll 7 lp_file st3 = Some (0, st4).
Proof.
  destruct (poll_then_read 64 7%nat lp_file 4096%nat 4096
              (lp_edge 1000 1 1) opened
              {| ts := {| tv_sec := 0; tv_nsec := 0 |}; usecs := 0;
                 waitqueue := []; opencount := 1; num := 0 |})
    as (st1 & st2 & st3 & st4 & H1 & H2 & H3 & H4 & H5).
  - reflexivity.
  - reflexivity.
  - reflexivity.
  - reflexivity.
  - reflexivity.
  - reflexivity.
  - reflexivity.
  - vm_compute. reflexivity.
  - vm_compute. lia.
  - vm_compute. lia.
  - exists st1, st2, st3, st4. split; [exact H1 |]. split; [exact H2 |].
    split; [exact H3 |]. split; [exact H4 | exact H5].
Defined.

Lemma sample_needs_no_open_file_witness :
  exists st1 woken filp1 st2 st3,
    opencount <$> deref loaded 0 = Some 0
    /\ handle 64 (lp_edge 1000 1 1) loaded = Some (IRQ_HANDLED, st1, woken)
    /\ gpio_ts_open 0 {| f_flags := 0; private_data := None |} st1
       = Some (0, filp1, st2)
    /\ gpio_ts_read 7 filp1 4096 4096 st2
       = Some (Returned 8 (list_ascii_of_string "40,15,1" ++ [newline]), st3).
Proof.
  destruct (sample_needs_no_open_file 64 (lp_edge 1000 1 1) 7%nat
              {| f_flags := 0; private_data := None |} 4096%nat 4096 loaded
              {| ts := {| tv_sec := 0; tv_nsec := 0 |}; usecs := 0;
                 waitqueue := []; opencount := 0; num := 0 |})
    as (st1 & woken & filp1 & st2 & st3 & H1 & _ & H2 & _ & H3 & _).
  - reflexivity.
  - reflexivity.
  - reflexivity.
  - reflexivity.
  - reflexivity.
  - reflexivity.
  - vm_compute. reflexivity.
  - vm_compute. lia.
  - vm_compute. lia.
  - exists st1, woken, filp1, st2, st3. split; [reflexivity |].
    split; [exact H1 |]. split; [exact H2 | exact H3].
Defined.

Lemma sessions_are_per_device_witness :
  exists f0 st1 f1 st2,
    gpio_ts_open 0 lp_file loaded = Some (0, f0, st1)
    /\ gpio_ts_open 1 lp_file st1 = Some (0, f1, st2)
    /\ gpio_ts_open 0 lp_file st2 = Some (- EBUSY, lp_file, st2)
    /\ gpio_ts_open 1 lp_file st2 = Some (- EBUSY, lp_file, st2).
Proof.
  destruct (sessions_are_per_device lp_file loaded
              {| ts := {| tv_sec := 0; tv_nsec := 0 |}; usecs := 0;
                 waitqueue := []; opencount := 0; num := 0 |}
              {| ts := {| tv_sec := 0; tv_nsec := 0 |}; usecs := 0;
                 waitqueue := []; opencount := 0; num := 1 |})
    as (f0 & st1 & f1 & st2 & _ & _ & _ & _ & H1 & H2 & _ & _ & H3 & H4 & _).
  - reflexivity.
  - reflexivity.
  - reflexivity.
  - reflexivity.
  - exists f0, st1, f1, st2. repeat split; assumption.
Defined.

Lemma read_count_ignores_length_witness :
  exists st copied st',
    run 64 [vsync_edge 0; lp_edge 1000 1 1] opened = Some (st, [])
    /\ reachable 64 st
    /\ gpio_ts_read 7 lp_file 4096 1 st = Some (Returned 8 copied, st')
    /\ Z.of_nat (length copied) = 8
    /\ - PAL_LINE_LENGTH < xpos st < PAL_LINE_LENGTH.
Proof.
  destruct (read_count_ignores_length 64 ltac:(lia)) as (H1 & H2 & _).
  set (st0 := after 64 [vsync_edge 0] opened).
  set (st := after 64 [vsync_edge 0; lp_edge 1000 1 1] opened).
  set (st' := match gpio_ts_read 7 lp_file 4096 1 st with
              | Some (_, s) => s
              | None => st
              end).
  assert (Hr : gpio_ts_read 7 lp_file 4096 1 st
               = Some (Returned 8 (list_ascii_of_string "40,15,1" ++ [newline]),
                       st'))
    by (vm_compute; reflexivity).
  assert (Hv : handle 64 (vsync_edge 0) opened = Some (IRQ_HANDLED, st0, []))
    by (vm_compute; reflexivity).
  assert (Hp : handle 64 (lp_edge 1000 1 1) st0 = Some (IRQ_HANDLED, st, []))
    by (vm_compute; reflexivity).
  assert (Hreach : reachable 64 st).
  { apply (reachable_step 64 st0).
    - apply (reachable_step 64 opened).
      + apply (reachable_step 64 loaded).
        * apply (reachable_init 64 good_kernel [17; 27] 22 23). apply loaded_ok.
        * apply (step_open 64 loaded 0%nat
                   {| f_flags := 0; private_data := None |} 0 lp_file opened).
          exact opened_eq.
      + apply (step_irq 64 opened (vsync_edge 0) 187 IRQ_HANDLED st0 []);
          [| exact Hv].
        vm_compute. apply list_elem_of_further, list_elem_of_here.
    - apply (step_irq 64 st0 (lp_edge 1000 1 1) 177 IRQ_HANDLED st []);
        [| exact Hp].
      vm_compute. apply list_elem_of_here. }
  exists st. eexists _, _.
  split; [vm_compute; reflexivity |]. split; [exact Hreach |].
  split; [exact Hr |]. split.
  - refine (proj1 (proj2 (H1 7%nat lp_file 4096%nat 1 st 8 _ _ _ Hr _))).
    + vm_compute. reflexivity.
    + lia.
  - refine (proj1 (H2 7%nat lp_file 4096%nat 1 st 8 _ _ Hreach Hr _)). lia.
Defined.

Lemma record_determines_sample_witness : 40 = 40 /\ 15 = 15 /\ 1 = 1.
Proof.
  apply (record_determines_sample 40 15 1 40 15 1); try lia. reflexivity.
Defined.

Lemma init_failure_witness :
  exists st,
    gpio_ts_init vsync_irq_refused (module_load [17; 27] 22 23) = (- ENODEV, st)
    /\ irq_actions st = [(177, Some 0%nat)]
    /\ module_unload st = false
    /\ is_dev st 0 0 = true.
Proof.
  exists (snd (gpio_ts_init vsync_irq_refused (module_load [17; 27] 22 23))).
  assert (H : gpio_ts_init vsync_irq_refused (module_load [17; 27] 22 23)
              = (- ENODEV,
                 snd (gpio_ts_init vsync_irq_refused
                        (module_load [17; 27] 22 23))))
    by (vm_compute; reflexivity).
  destruct (init_failure _ _ _ _ _ _ H)
    as (_ & Hu & [Hnil | (_ & _ & Hirq & Hdev & _)]).
  - vm_compute. discriminate.
  - vm_compute in Hnil. discriminate.
  - split; [exact H |]. split; [exact Hirq |]. split; [exact Hu | exact Hdev].
Defined.


Lemma init_rejects_invalid_line_witness :
  exists st,
    gpio_ts_init good_kernel (module_load [17; 99] 22 23) = (- ENODEV, st)
    /\ irq_actions st = []
    /\ devtable st = [None; None].
Proof.
  apply (init_rejects_invalid_line good_kernel [17; 99] 22 23).
  - reflexivity.
  - left. reflexivity.
Defined.

Lemma reachable_entries_return_witness :
  is_Some (handle 64 (lp_edge 1000 1 1) loaded)
  /\ is_Some (gpio_ts_open 1 lp_file loaded)
  /\ is_Some (gpio_ts_read 7 lp_file 4096 4096 loaded).
Proof.
  destruct (reachable_entries_return 64 loaded) as (H1 & H2 & H3).
  - apply (reachable_init 64 good_kernel [17; 27] 22 23). reflexivity.
  - split; [| split].
    + apply (H1 (lp_edge 1000 1 1) 177). vm_compute.
      apply list_elem_of_here.
    + apply (H2 1%nat lp_file). lia.
    + apply (H3 7%nat lp_file 4096%nat 4096 0%nat); [reflexivity | lia].
Defined.
